(** * pridepy, [files/files.py]: the [Files] client of the PRIDE archive

    A shallow embedding of the class [Files] and of the parts of Python it
    runs on: strings, parsed JSON values with their subscripts, exceptions,
    the file tree the process sees with [os.path] and [glob], and the trace
    of calls that leave the process (HTTP requests, retrievals, copies,
    directory creation, log records). *)

From Stdlib Require Import String Ascii List Bool Arith ZArith Lia DecimalString.
From Stdlib Require DecimalFacts DecimalPos DecimalN DecimalZ.
Import ListNotations.
Local Open Scope string_scope.
#[local] Set Warnings "-register-all".

(** ** Python strings *)

Definition is_slash (c : ascii) : bool := Ascii.eqb c "/".

(** ['/' in s] *)
Fixpoint has_slash (s : string) : bool :=
  match s with
  | EmptyString => false
  | String c r => is_slash c || has_slash r
  end.

(** The cut of [s] at its last ['/']: [None] when [s] has none. *)
Fixpoint rsplit1 (s : string) : option (string * string) :=
  match s with
  | EmptyString => None
  | String c r =>
      match rsplit1 r with
      | Some (a, b) => Some (String c a, b)
      | None => if is_slash c then Some (EmptyString, r) else None
      end
  end.

(** [s.rsplit('/', 1)] *)
Definition py_rsplit (s : string) : list string :=
  match rsplit1 s with
  | Some (a, b) => [a; b]
  | None => [s]
  end.

(** [s.rstrip('/')] *)
Fixpoint rstrip_slash (s : string) : string :=
  match s with
  | EmptyString => EmptyString
  | String c r =>
      match rstrip_slash r with
      | EmptyString => if is_slash c then EmptyString else String c EmptyString
      | r' => String c r'
      end
  end.

(** [s.split('/')] *)
Fixpoint split_slash (s : string) : list string :=
  match s with
  | EmptyString => [EmptyString]
  | String c r =>
      if is_slash c then EmptyString :: split_slash r
      else match split_slash r with
           | h :: t => String c h :: t
           | [] => [String c EmptyString]
           end
  end.

Definition startswith_slash (s : string) : bool :=
  match s with
  | String c _ => is_slash c
  | EmptyString => false
  end.

Fixpoint endswith_slash (s : string) : bool :=
  match s with
  | EmptyString => false
  | String c EmptyString => is_slash c
  | String _ r => endswith_slash r
  end.

(** [str(n)] for an [int] *)
Definition py_str_int (n : Z) : string := NilZero.string_of_int (Z.to_int n).

(** Truth value of a [str]: the empty string is false. *)
Definition truthy (s : string) : bool :=
  match s with
  | EmptyString => false
  | _ => true
  end.

(** [x in xs] for a list of [str] *)
Definition py_in (x : string) (xs : list string) : bool :=
  existsb (String.eqb x) xs.

(** ** [re.search(r'\d{4}/\d{2}/PXD\d*', s)]

    Strings are sequences of one-byte characters; among those the decimal
    digits that [\d] accepts are ['0'] to ['9']. *)

Definition is_digit (c : ascii) : bool :=
  ((48 <=? nat_of_ascii c) && (nat_of_ascii c <=? 57))%nat.

(** The longest prefix of digits, what the greedy [\d*] takes. *)
Fixpoint take_digits (s : string) : string :=
  match s with
  | String c r => if is_digit c then String c (take_digits r) else EmptyString
  | EmptyString => EmptyString
  end.

(** The fixed-width part [\d{4}/\d{2}/PXD], one class of characters per
    position. *)
Definition fragment_head : list (ascii -> bool) :=
  [is_digit; is_digit; is_digit; is_digit; is_slash;
   is_digit; is_digit; is_slash;
   Ascii.eqb "P"; Ascii.eqb "X"; Ascii.eqb "D"].

(** The prefix of [s] that matches the classes position by position, and
    what follows it. *)
Fixpoint match_classes (cs : list (ascii -> bool)) (s : string)
  : option (string * string) :=
  match cs with
  | [] => Some (EmptyString, s)
  | c :: cs' =>
      match s with
      | String a r =>
          if c a then
            match match_classes cs' r with
            | Some (h, t) => Some (String a h, t)
            | None => None
            end
          else None
      | EmptyString => None
      end
  end.

(** The match that starts at the first character of [s], if there is one. *)
Definition match_here (s : string) : option string :=
  match match_classes fragment_head s with
  | Some (h, r) => Some (h ++ take_digits r)
  | None => None
  end.

(** [re.search(...)]: the match at the leftmost position that has one;
    [Some m] stands for a match object whose [.group()] is [m]. *)
Fixpoint re_search (s : string) : option string :=
  match match_here s with
  | Some m => Some m
  | None =>
      match s with
      | EmptyString => None
      | String _ r => re_search r
      end
  end.

(** ** Parsed JSON: what [response.json()] returns

    [JNum] stands for any number: no operation of the module tells an
    [int] from a [float]. *)

Inductive json : Type :=
| JNull
| JBool (b : bool)
| JNum (n : Z)
| JStr (s : string)
| JArr (items : list json)
| JObj (fields : list (string * json)).

(** A [dict] keeps one binding per key, in insertion order. *)
Fixpoint lookup {A : Type} (k : string) (kvs : list (string * A)) : option A :=
  match kvs with
  | [] => None
  | (k', v) :: rest => if String.eqb k k' then Some v else lookup k rest
  end.

(** ** Exceptions *)

(** An exception raised inside a collaborator or a library call:
    [err_text] is what [str(e)] gives.  All of them are instances of
    [Exception]. *)
Record external_error : Type := {
  err_class : string;
  err_text : string
}.

Inductive exn : Type :=
| IndexError
| KeyError
| TypeError
| AttributeError
| External (e : external_error)
| Exception_ (msg : string).   (* a plain [Exception(msg)] *)

Inductive result (A : Type) : Type :=
| Ok (a : A)
| Raise (e : exn).
Arguments Ok {A} a.
Arguments Raise {A} e.

Definition rbind {A B : Type} (r : result A) (k : A -> result B) : result B :=
  match r with
  | Ok a => k a
  | Raise e => Raise e
  end.

(** [v[i]] for a literal index [i >= 0] *)
Definition getitem_int (v : json) (i : nat) : result json :=
  match v with
  | JArr xs =>
      match nth_error xs i with
      | Some x => Ok x
      | None => Raise IndexError
      end
  | JStr s =>
      match String.get i s with
      | Some c => Ok (JStr (String c EmptyString))
      | None => Raise IndexError
      end
  | JObj _ => Raise KeyError       (* the keys of a parsed object are strings *)
  | _ => Raise TypeError           (* not subscriptable *)
  end.

(** [v[k]] for a literal string [k] *)
Definition getitem_str (v : json) (k : string) : result json :=
  match v with
  | JObj kvs =>
      match lookup k kvs with
      | Some x => Ok x
      | None => Raise KeyError
      end
  | _ => Raise TypeError           (* indices must be integers, or not subscriptable *)
  end.

(** [v == s] for a [str] literal [s] *)
Definition py_eq_str (v : json) (s : string) : bool :=
  match v with
  | JStr t => String.eqb t s
  | _ => false
  end.

(** [s + v] for a [str] [s] *)
Definition str_add (s : string) (v : json) : result string :=
  match v with
  | JStr t => Ok (s ++ t)
  | _ => Raise TypeError
  end.

(** [v + s] for a [str] [s] *)
Definition add_str (v : json) (s : string) : result string :=
  match v with
  | JStr t => Ok (t ++ s)
  | _ => Raise TypeError
  end.

(** A value passed where a library call takes a [str]. *)
Definition str_arg (v : json) : result string :=
  match v with
  | JStr t => Ok t
  | _ => Raise TypeError
  end.

(** [v.rsplit('/', 1)] *)
Definition rsplit_method (v : json) : result (list string) :=
  match v with
  | JStr s => Ok (py_rsplit s)
  | _ => Raise AttributeError
  end.

(** [parts[i]] on a list of [str] *)
Definition list_item (parts : list string) (i : nat) : result string :=
  match nth_error parts i with
  | Some x => Ok x
  | None => Raise IndexError
  end.

(** [re.search(pattern, v)]: a [TypeError] unless [v] is a string. *)
Definition re_search_value (v : json) : result (option string) :=
  match v with
  | JStr s => Ok (re_search s)
  | _ => Raise TypeError
  end.

(** [m.group()] on the result of [re.search]: [None] has no [group]. *)
Definition group (m : option string) : result string :=
  match m with
  | Some g => Ok g
  | None => Raise AttributeError
  end.

(** The values a [for] loop over [v] visits. *)
Definition py_iter (v : json) : result (list json) :=
  match v with
  | JArr xs => Ok xs
  | JObj kvs => Ok (map (fun kv => JStr (fst kv)) kvs)
  | JStr s => Ok (map (fun c => JStr (String c EmptyString)) (list_ascii_of_string s))
  | _ => Raise TypeError
  end.

(** ** The file tree: [os.path] and [glob]

    A directory lists its entries in the order the file system gives them.
    There are no symbolic links. *)

Inductive node : Type :=
| File (data : string)
| Dir (entries : list (string * node)).

Record filesystem : Type := {
  fs_root : node;
  fs_cwd : list string        (* the working directory, names from the root *)
}.

(** Path resolution, component by component; [up] holds the ancestors of
    [cur], the nearest first.  Every component, the empty one of a doubled or
    trailing ['/'] too, needs [cur] to be a directory. *)
Fixpoint walk (up : list node) (cur : node) (comps : list string)
  : option (list node * node) :=
  match comps with
  | [] => Some (up, cur)
  | c :: rest =>
      match cur with
      | File _ => None
      | Dir es =>
          if String.eqb c "" || String.eqb c "." then walk up cur rest
          else if String.eqb c ".." then
            match up with
            | [] => walk [] cur rest
            | p :: up' => walk up' p rest
            end
          else
            match lookup c es with
            | Some n => walk (cur :: up) n rest
            | None => None
            end
      end
  end.

Definition resolve (fs : filesystem) (p : string) : option node :=
  if String.eqb p "" then None
  else
    let start := if startswith_slash p then [] else fs_cwd fs in
    option_map snd (walk [] (fs_root fs) (start ++ split_slash p)%list).

(** [os.path.isdir(p)] *)
Definition isdir (fs : filesystem) (p : string) : bool :=
  match resolve fs p with
  | Some (Dir _) => true
  | _ => false
  end.

(** [os.path.lexists(p)] *)
Definition lexists (fs : filesystem) (p : string) : bool :=
  match resolve fs p with
  | Some _ => true
  | None => false
  end.

Definition is_dir_node (n : node) : bool :=
  match n with
  | Dir _ => true
  | File _ => false
  end.

(** [glob._iterdir(dirname, dironly)]: the names [os.scandir] yields, none
    when [dirname] cannot be listed. *)
Definition iterdir (fs : filesystem) (dirname : string) (dironly : bool)
  : list string :=
  match resolve fs (if String.eqb dirname "" then "." else dirname) with
  | Some (Dir es) =>
      map fst (filter (fun e => negb dironly || is_dir_node (snd e)) es)
  | _ => []
  end.

Fixpoint all_slashes (s : string) : bool :=
  match s with
  | EmptyString => true
  | String c r => is_slash c && all_slashes r
  end.

(** [os.path.split(p)] *)
Definition path_split (p : string) : string * string :=
  let (head, tail) :=
    match rsplit1 p with
    | Some (a, b) => (a ++ "/", b)
    | None => ("", p)
    end in
  if truthy head && negb (all_slashes head) then (rstrip_slash head, tail)
  else (head, tail).

(** [os.path.join(a, b)] *)
Definition path_join (a b : string) : string :=
  if startswith_slash b then b
  else if negb (truthy a) || endswith_slash a then a ++ b
  else a ++ "/" ++ b.

Definition magic_char (c : ascii) : bool :=
  Ascii.eqb c "*" || Ascii.eqb c "?" || Ascii.eqb c "[".

(** [glob.has_magic(s)]: one of [*], [?], [[] occurs in [s]. *)
Fixpoint has_magic (s : string) : bool :=
  match s with
  | EmptyString => false
  | String c r => magic_char c || has_magic r
  end.

(** [glob._ishidden(s)] *)
Definition ishidden (s : string) : bool :=
  match s with
  | String c _ => Ascii.eqb c "."
  | EmptyString => false
  end.

Section Glob.

(** [fnmatch.fnmatchcase name pattern], the shell-style match of one name,
    is library code taken as it comes. *)
Variable fnmatch : string -> string -> bool.
Variable fs : filesystem.

(** [glob._glob1] *)
Definition glob1 (dirname pattern : string) (dironly : bool) : list string :=
  let names := iterdir fs dirname dironly in
  let names :=
    if negb (ishidden pattern) then filter (fun x => negb (ishidden x)) names
    else names in
  filter (fun x => fnmatch x pattern) names.

(** [glob._glob0] *)
Definition glob0 (dirname basename : string) (dironly : bool) : list string :=
  if negb (truthy basename) then
    if isdir fs dirname then [basename] else []
  else
    if lexists fs (path_join dirname basename) then [basename] else [].

(** [glob._iglob], without [recursive]; each call on a directory part is
    on a strictly shorter string, which [fuel] counts. *)
Fixpoint iglob (fuel : nat) (pathname : string) (dironly : bool) : list string :=
  match fuel with
  | O => []
  | S fuel' =>
      let (dirname, basename) := path_split pathname in
      if negb (has_magic pathname) then
        if truthy basename then
          if lexists fs pathname then [pathname] else []
        else
          if isdir fs dirname then [pathname] else []
      else if negb (truthy dirname) then
        glob1 dirname basename dironly
      else
        let dirs :=
          if negb (String.eqb dirname pathname) && has_magic dirname
          then iglob fuel' dirname true
          else [dirname] in
        let glob_in_dir := if has_magic basename then glob1 else glob0 in
        flat_map
          (fun dirname =>
             map (path_join dirname) (glob_in_dir dirname basename dironly))
          dirs
  end.

(** [glob.glob(pathname)] *)
Definition glob (pathname : string) : list string :=
  iglob (S (String.length pathname)) pathname false.

End Glob.

(** A shell-style matcher for patterns of literals, [*] and [?], to run the
    model on. *)
Fixpoint wildcard (fuel : nat) (pat name : string) : bool :=
  match fuel with
  | O => false
  | S fuel' =>
      match pat, name with
      | EmptyString, EmptyString => true
      | EmptyString, String _ _ => false
      | String p pr, _ =>
          if Ascii.eqb p "*" then
            wildcard fuel' pr name
            || match name with
               | String _ nr => wildcard fuel' pat nr
               | EmptyString => false
               end
          else
            match name with
            | String c nr =>
                (Ascii.eqb p "?" || Ascii.eqb p c) && wildcard fuel' pr nr
            | EmptyString => false
            end
      end
  end.

Definition simple_fnmatch (name pattern : string) : bool :=
  wildcard (S (String.length pattern + String.length name)) pattern name.

(** ** The world a call runs in *)

Inductive level : Type := DEBUG | ERROR.

(** What a run does that is visible from outside, in the order it happens. *)
Inductive event : Type :=
| Get (url : string) (headers : list (string * string))  (* [Util.get_api_call] *)
| Log (lvl : level) (msg : string)                       (* [logging] *)
| Mkdir (path : string)                                  (* [os.mkdir] *)
| UrlRetrieve (url filename : string)                    (* [urllib.request.urlretrieve] *)
| Copy2 (src dst : string).                              (* [shutil.copy2] *)

Record world : Type := {
  w_fs : filesystem;
  w_trace : list event
}.

(** The object [Util.get_api_call] returns; [resp_json] is what its
    [.json()] does. *)
Record response : Type := {
  resp_json : external_error + json
}.

(** The collaborators and library calls whose code is not this module's:
    each is any function of its arguments (and of the file tree it works
    on); [None] is a normal return.  The archive answers a request the same
    way each time it is asked during a run. *)
Record host : Type := {
  api_call : string -> list (string * string) -> external_error + response;
  os_mkdir : string -> filesystem -> option external_error * filesystem;
  url_retrieve : string -> string -> filesystem -> option external_error * filesystem;
  shutil_copy2 : string -> string -> filesystem -> option external_error * filesystem;
  fnmatchcase : string -> string -> bool
}.

(** A computation: it returns or raises, and leaves a world behind. *)
Definition M (A : Type) : Type := world -> result A * world.

Definition ret {A : Type} (a : A) : M A := fun w => (Ok a, w).

Definition raise {A : Type} (e : exn) : M A := fun w => (Raise e, w).

Definition bind {A B : Type} (c : M A) (k : A -> M B) : M B :=
  fun w =>
    match c w with
    | (Ok a, w') => k a w'
    | (Raise e, w') => (Raise e, w')
    end.

Definition lift {A : Type} (r : result A) : M A := fun w => (r, w).

(** A call into a collaborator: what it raises is an [external_error]. *)
Definition MX (A : Type) : Type := world -> (external_error + A) * world.

Definition xbind {A B : Type} (c : MX A) (k : A -> MX B) : MX B :=
  fun w =>
    match c w with
    | (inr a, w') => k a w'
    | (inl e, w') => (inl e, w')
    end.

(** The call made outside any handler: the exception goes up as it is. *)
Definition call {A : Type} (c : MX A) : M A :=
  fun w =>
    match c w with
    | (inr a, w') => (Ok a, w')
    | (inl e, w') => (Raise (External e), w')
    end.

(** [try: body except Exception as e: handler] *)
Definition try_except {A : Type} (body : MX A) (handler : external_error -> M A)
  : M A :=
  fun w =>
    match body w with
    | (inr a, w') => (Ok a, w')
    | (inl e, w') => handler e w'
    end.

(** A value is subscripted as the result it is. *)
Definition evaluated (v : json) : result json := Ok v.
Coercion evaluated : json >-> result.

Declare Scope py_scope.
Delimit Scope py_scope with py.
Notation "x <- c1 ;; c2" := (bind c1 (fun x => c2))
  (at level 61, c1 at next level, right associativity) : py_scope.
Notation "c1 ;; c2" := (bind c1 (fun _ => c2))
  (at level 61, right associativity) : py_scope.
Notation "r .[ i ]" := (rbind r (fun v => getitem_int v i))
  (at level 1, left associativity, format "r .[ i ]") : py_scope.
Notation "r .$[ k ]" := (rbind r (fun v => getitem_str v k))
  (at level 1, left associativity, format "r .$[ k ]") : py_scope.
Local Open Scope py_scope.

Definition record (e : event) (w : world) : world :=
  {| w_fs := w_fs w; w_trace := (w_trace w ++ [e])%list |}.

Definition emit (e : event) : M unit := fun w => (Ok tt, record e w).

(** A call that works on the file tree: the event, then what the host does. *)
Definition os_call (e : event)
    (f : filesystem -> option external_error * filesystem) : M unit :=
  fun w =>
    let w1 := record e w in
    let (r, fs') := f (w_fs w1) in
    (match r with
     | None => Ok tt
     | Some err => Raise (External err)
     end,
     {| w_fs := fs'; w_trace := w_trace w1 |}).

(** [for x in xs: body] *)
Fixpoint for_each {A : Type} (xs : list A) (body : A -> M unit) : M unit :=
  match xs with
  | [] => ret tt
  | x :: rest => body x ;; for_each rest body
  end.

(** [for x in xs: ...; acc.append(f(x))], the list built so far carried along *)
Fixpoint for_append {A B : Type} (xs : list A) (body : A -> M B) (acc : list B)
  : M (list B) :=
  match xs with
  | [] => ret acc
  | x :: rest => y <- body x ;; for_append rest body (acc ++ [y])%list
  end.

Section Files.

Variable H : host.

Definition logging_debug (msg : string) : M unit := emit (Log DEBUG msg).
Definition logging_error (msg : string) : M unit := emit (Log ERROR msg).
(** [logging.exception] logs at level ERROR; outside a handler the
    exception information it adds is empty. *)
Definition logging_exception (msg : string) : M unit := emit (Log ERROR msg).

Definition os_path_isdir (p : string) : M bool :=
  fun w => (Ok (isdir (w_fs w) p), w).

Definition glob_glob (pathname : string) : M (list string) :=
  fun w => (Ok (glob (fnmatchcase H) (w_fs w) pathname), w).

(** [Util.get_api_call(url, headers)] *)
Definition Util_get_api_call (request_url : string)
    (headers : list (string * string)) : MX response :=
  fun w => (api_call H request_url headers, record (Get request_url headers) w).

(** [response.json()] *)
Definition response_json (r : response) : MX json :=
  fun w => (resp_json r, w).

Definition api_base_url : string := "https://www.ebi.ac.uk/pride/ws/archive/v2/".

Definition get_all_paged_files (query_filter : string) (page_size page : Z)
    (sort_direction sort_conditions : string) : M json :=
  let request_url := api_base_url ++ "files?" in
  let request_url :=
    if truthy query_filter
    then request_url ++ "filter=" ++ query_filter ++ "&"
    else request_url in
  let request_url :=
    request_url ++ "pageSize=" ++ py_str_int page_size
      ++ "&page=" ++ py_str_int page
      ++ "&sortDirection=" ++ sort_direction
      ++ "&sortConditions=" ++ sort_conditions in
  let headers := [("Accept", "application/JSON")] in
  response <- call (Util_get_api_call request_url headers) ;;
  call (response_json response).

Definition get_all_raw_file_list (project_accession : string) : M json :=
  let request_url :=
    api_base_url ++ "files/byProject?accession=" ++ project_accession
      ++ ",fileCategory.value==RAW" in
  let headers := [("Accept", "application/JSON")] in
  response <- call (Util_get_api_call request_url headers) ;;
  call (response_json response).

Definition download_files_from_ftp (file_list_json : json)
    (output_folder : string) : M unit :=
  files <- lift (py_iter file_list_json) ;;
  for_each files (fun file =>
    name0 <- lift file.$["publicFileLocations"].[0].$["name"] ;;
    ftp_filepath <-
      (if py_eq_str name0 "FTP Protocol"
       then lift file.$["publicFileLocations"].[0].$["value"]
       else lift file.$["publicFileLocations"].[1].$["value"]) ;;
    msg <- lift (str_add "ftp_filepath:" ftp_filepath) ;;
    logging_debug msg ;;
    public_filepath_part <- lift (rsplit_method ftp_filepath) ;;
    accession <- lift file.$["accession"] ;;
    arrow <- lift (add_str accession " -> ") ;;
    part1 <- lift (list_item public_filepath_part 1) ;;
    logging_debug (arrow ++ part1) ;;
    new_file_path <- lift (list_item public_filepath_part 1) ;;
    (* [urlretrieve] is given the [str] that [ftp_filepath] is: for any
       other value the concatenation above has raised already *)
    url <- lift (str_arg ftp_filepath) ;;
    os_call (UrlRetrieve url (output_folder ++ new_file_path))
            (url_retrieve H url (output_folder ++ new_file_path))).

Definition download_raw_files_from_ftp (accession output_folder : string)
  : M unit :=
  d <- os_path_isdir output_folder ;;
  (if negb d
   then os_call (Mkdir output_folder) (os_mkdir H output_folder)
   else ret tt) ;;
  response_body <- get_all_raw_file_list accession ;;
  download_files_from_ftp response_body output_folder.

Definition get_submitted_file_path_prefix (accession : string) : M string :=
  results <- get_all_raw_file_list accession ;;
  first_file <- lift results.[0].$["publicFileLocations"].[0].$["value"] ;;
  m <- lift (re_search_value first_file) ;;
  path_fragment <- lift (group m) ;;
  ret path_fragment.

Definition get_files_from_dir (location regex : string) : M (list string) :=
  paths <- glob_glob (location ++ regex) ;;
  for_append paths (fun file =>
    logging_debug ("found file: " ++ file) ;;
    filename <- lift (list_item (py_rsplit file) 1) ;;
    ret filename) [].

(** The [try] holds the call and the parse, both collaborator code; the
    handler raises [Exception("File not found" + str(e))]. *)
Definition get_file_from_api (accession file_name : string) : M json :=
  let request_url :=
    api_base_url ++ "files/byProject?accession=" ++ accession
      ++ ",fileName==" ++ file_name in
  let headers := [("Accept", "application/JSON")] in
  try_except
    (xbind (Util_get_api_call request_url headers) response_json)
    (fun e => raise (Exception_ ("File not found" ++ err_text e))).

Definition copy_from_dir (complete_source_dir : string)
    (file_list_from_dir : list string) (file_list_json : json) : M unit :=
  files <- lift (py_iter file_list_json) ;;
  for_each files (fun file =>
    ftp_filepath <- lift file.$["publicFileLocations"].[0].$["value"] ;;
    parts <- lift (rsplit_method ftp_filepath) ;;
    file_name_from_ftp <- lift (list_item parts 1) ;;
    if py_in file_name_from_ftp file_list_from_dir then
      let source_file := complete_source_dir ++ file_name_from_ftp in
      accession <- lift file.$["accession"] ;;
      prefix <- lift (add_str accession "-") ;;
      let destination_file := prefix ++ file_name_from_ftp in
      os_call (Copy2 source_file destination_file)
              (shutil_copy2 H source_file destination_file)
    else
      logging_error (file_name_from_ftp ++ " not found in " ++ complete_source_dir)).

Definition copy_raw_files_from_dir (accession source_base_directory : string)
  : M unit :=
  path_fragment <- get_submitted_file_path_prefix accession ;;
  let complete_source_dir :=
    source_base_directory ++ "/" ++ path_fragment ++ "/submitted/" in
  d <- os_path_isdir complete_source_dir ;;
  (if negb d
   then logging_exception ("Folder does not exists! " ++ complete_source_dir)
   else ret tt) ;;
  file_list_from_dir <- get_files_from_dir complete_source_dir "*.raw" ;;
  response_body <- get_all_raw_file_list accession ;;
  copy_from_dir complete_source_dir file_list_from_dir response_body.

Definition download_file_from_ftp_by_name (accession file_name output_folder : string)
  : M unit :=
  d <- os_path_isdir output_folder ;;
  (if negb d
   then os_call (Mkdir output_folder) (os_mkdir H output_folder)
   else ret tt) ;;
  response <- get_file_from_api accession file_name ;;
  download_files_from_ftp response output_folder.

Definition copy_file_from_dir_by_name (accession file_name input_folder : string)
  : M unit :=
  path_fragment <- get_submitted_file_path_prefix accession ;;
  let complete_source_dir :=
    input_folder ++ "/" ++ path_fragment ++ "/submitted/" in
  d <- os_path_isdir complete_source_dir ;;
  (if negb d
   then logging_exception ("Folder does not exists! " ++ complete_source_dir)
   else ret tt) ;;
  file_list_from_dir <- get_files_from_dir complete_source_dir file_name ;;
  response_body <- get_file_from_api accession file_name ;;
  copy_from_dir complete_source_dir file_list_from_dir response_body.

End Files.

(** ** The records of the API, and what the description says of them *)

Record Location : Type := {
  loc_name : string;       (* ["FTP Protocol"], ["Aspera Protocol"], ... *)
  loc_value : string       (* the URI *)
}.

Record FileRecord : Type := {
  rec_accession : string;
  rec_locations : list Location      (* [publicFileLocations] *)
}.

Fixpoint all_some {A B : Type} (f : A -> option B) (xs : list A) : option (list B) :=
  match xs with
  | [] => Some []
  | x :: rest =>
      match f x, all_some f rest with
      | Some y, Some ys => Some (y :: ys)
      | _, _ => None
      end
  end.

(** The [Location] a JSON object holds: its ["name"] and ["value"] are
    strings; other keys may be there. *)
Definition as_location (j : json) : option Location :=
  match j with
  | JObj kvs =>
      match lookup "name" kvs, lookup "value" kvs with
      | Some (JStr n), Some (JStr v) => Some {| loc_name := n; loc_value := v |}
      | _, _ => None
      end
  | _ => None
  end.

(** The [FileRecord] a JSON object holds. *)
Definition as_record (j : json) : option FileRecord :=
  match j with
  | JObj kvs =>
      match lookup "accession" kvs, lookup "publicFileLocations" kvs with
      | Some (JStr a), Some (JArr ls) =>
          option_map (fun locs => {| rec_accession := a; rec_locations := locs |})
                     (all_some as_location ls)
      | _, _ => None
      end
  | _ => None
  end.

(** The substring after the last ['/'] (all of [s] when it has none). *)
Fixpoint after_last_slash (s : string) : string :=
  match s with
  | EmptyString => EmptyString
  | String c r =>
      if has_slash r then after_last_slash r
      else if is_slash c then r else s
  end.

(** The FTP URI of a record as the description selects it: location 0 when
    its name is ["FTP Protocol"], location 1 otherwise, nothing further. *)
Definition ftp_location (r : FileRecord) : option string :=
  match rec_locations r with
  | l0 :: rest =>
      if String.eqb (loc_name l0) "FTP Protocol" then Some (loc_value l0)
      else match rest with
           | l1 :: _ => Some (loc_value l1)
           | [] => None
           end
  | [] => None
  end.

(** A record the download can serve: it has the selected location, and the
    URI there has a ['/']. *)
Definition downloadable (r : FileRecord) : bool :=
  match ftp_location r with
  | Some u => has_slash u
  | None => false
  end.

(** The retrieval the description gives for a record: the URI, and the
    local name [output_folder + filename]. *)
Definition retrieval_of (output_folder : string) (r : FileRecord)
  : list (string * string) :=
  match ftp_location r with
  | Some u => [(u, output_folder ++ after_last_slash u)]
  | None => []
  end.

Definition expected_retrievals (output_folder : string) (recs : list FileRecord)
  : list (string * string) :=
  flat_map (retrieval_of output_folder) recs.

(** The location the copy reads: location 0, whatever its name. *)
Definition first_location (r : FileRecord) : option string :=
  match rec_locations r with
  | l0 :: _ => Some (loc_value l0)
  | [] => None
  end.

Definition copyable (r : FileRecord) : bool :=
  match first_location r with
  | Some u => has_slash u
  | None => false
  end.

Definition copy_name (r : FileRecord) : string :=
  match first_location r with
  | Some u => after_last_slash u
  | None => EmptyString
  end.

(** What the copy does for one record: the copy of
    [source_dir + filename] to [<accession>-<filename>] when the name is in
    the listing, the error record otherwise. *)
Definition copy_step (source_dir : string) (listing : list string) (r : FileRecord)
  : event :=
  let fn := copy_name r in
  if py_in fn listing
  then Copy2 (source_dir ++ fn) (rec_accession r ++ "-" ++ fn)
  else Log ERROR (fn ++ " not found in " ++ source_dir).

(** The shape [\d{4}/\d{2}/PXD\d*] of a path fragment. *)
Fixpoint all_digits (s : string) : bool :=
  match s with
  | EmptyString => true
  | String c r => is_digit c && all_digits r
  end.

Definition is_path_fragment (m : string) : bool :=
  match match_classes fragment_head m with
  | Some (_, r) => all_digits r
  | None => false
  end.

(** [m] is the first substring of [s] of that shape: none starts further
    left, and none that starts where [m] does is longer. *)
Definition first_fragment (s m : string) : Prop :=
  exists pre post,
    s = pre ++ m ++ post
    /\ is_path_fragment m = true
    /\ forall pre' m' post',
         s = pre' ++ m' ++ post' ->
         is_path_fragment m' = true ->
         String.length pre < String.length pre'
         \/ (String.length pre = String.length pre'
             /\ String.length m' <= String.length m).

(** No substring of [s] has that shape. *)
Definition no_fragment (s : string) : Prop :=
  forall pre m post, s = pre ++ m ++ post -> is_path_fragment m = false.

(** The request of [get_all_paged_files] as the description writes it. *)
Definition paged_url (query_filter : string) (page_size page : Z)
    (sort_direction sort_conditions : string) : string :=
  api_base_url ++ "files?"
    ++ (if String.eqb query_filter "" then "" else "filter=" ++ query_filter ++ "&")
    ++ "pageSize=" ++ py_str_int page_size ++ "&page=" ++ py_str_int page
    ++ "&sortDirection=" ++ sort_direction
    ++ "&sortConditions=" ++ sort_conditions.

Definition raw_files_url (accession : string) : string :=
  api_base_url ++ "files/byProject?accession=" ++ accession
    ++ ",fileCategory.value==RAW".

Definition file_by_name_url (accession file_name : string) : string :=
  api_base_url ++ "files/byProject?accession=" ++ accession
    ++ ",fileName==" ++ file_name.

Definition accept_json : list (string * string) := [("Accept", "application/JSON")].

(** What a request comes to after [.json()]: the parsed body, or the
    failure of the call or of the parse. *)
Definition api_json (H : host) (url : string) (headers : list (string * string))
  : external_error + json :=
  match api_call H url headers with
  | inl e => inl e
  | inr response => resp_json response
  end.

(** ** Reading a trace *)

(** The events a run added to the trace it started from. *)
Definition new_events (w w' : world) : list event :=
  skipn (length (w_trace w)) (w_trace w').

Definition retrievals (evs : list event) : list (string * string) :=
  flat_map (fun e => match e with
                     | UrlRetrieve u f => [(u, f)]
                     | _ => []
                     end) evs.

Definition copies (evs : list event) : list (string * string) :=
  flat_map (fun e => match e with
                     | Copy2 s d => [(s, d)]
                     | _ => []
                     end) evs.

Definition mkdirs (evs : list event) : list string :=
  flat_map (fun e => match e with
                     | Mkdir p => [p]
                     | _ => []
                     end) evs.

(** [only P c]: whatever [c] does, it extends the trace, and only with
    events that satisfy [P]. *)
Definition only {A : Type} (P : event -> bool) (c : M A) : Prop :=
  forall w, exists evs,
    w_trace (snd (c w)) = (w_trace w ++ evs)%list /\ forallb P evs = true.

Definition not_mkdir (e : event) : bool :=
  match e with
  | Mkdir _ => false
  | _ => true
  end.

(** The entry names of the directory at [location] (none when it is not a
    directory), and glob's rule for one name: the shell match, and a name
    that starts with a dot only for a pattern that does. *)
Definition dir_names (fs : filesystem) (location : string) : list string :=
  iterdir fs location false.

Definition glob_match (H : host) (pattern name : string) : bool :=
  fnmatchcase H name pattern && (ishidden pattern || negb (ishidden name)).

(** A pattern without [*], [?] or [[] matches the entry of that name. *)
Definition shell_match (H : host) (pattern name : string) : bool :=
  if has_magic pattern then glob_match H pattern name
  else String.eqb name pattern.

Definition matching_names (H : host) (fs : filesystem) (location pattern : string)
  : list string :=
  filter (shell_match H pattern) (dir_names fs location).

(** The directory part [os.path.split] gives for [location + name] when
    [location] ends with ['/']: [location] without its final run of ['/'],
    or [location] itself when it is nothing but ['/']. *)
Definition glob_dirname (location : string) : string :=
  if all_slashes location then location else rstrip_slash location.

(** The entries of the directory at [p], when [p] leads to one. *)
Definition dir_at (fs : filesystem) (p : string) : option (list (string * node)) :=
  match resolve fs p with
  | Some (Dir es) => Some es
  | _ => None
  end.

(** Entry names as a file system has them: not empty, no ['/'], not [.] or
    [..]; one entry per name. *)
Definition valid_name (n : string) : bool :=
  truthy n && negb (has_slash n) && negb (String.eqb n ".") && negb (String.eqb n "..").

Fixpoint distinct (xs : list string) : bool :=
  match xs with
  | [] => true
  | x :: rest => negb (py_in x rest) && distinct rest
  end.

Fixpoint wf_node (n : node) : bool :=
  match n with
  | File _ => true
  | Dir es =>
      distinct (map fst es)
      && forallb (fun e => valid_name (fst e) && wf_node (snd e)) es
  end.

Definition wf_fs (fs : filesystem) : bool := wf_node (fs_root fs).

(** ** What a run may do *)

(** [suffix] ends [s]. *)
Fixpoint ends_with (suffix s : string) : bool :=
  String.eqb s suffix
  || match s with
     | String _ r => ends_with suffix r
     | EmptyString => false
     end.

(** The events of a download into [output_folder]: debug records, and
    retrievals of a URL that has a ['/'], to [output_folder] followed by
    what comes after the last ['/'] of the URL. *)
Definition download_event (output_folder : string) (e : event) : bool :=
  match e with
  | Log DEBUG _ => true
  | UrlRetrieve u f =>
      has_slash u && String.eqb f (output_folder ++ after_last_slash u)
  | _ => false
  end.

(** The events of a copy from [source_dir] with the listing [listing]:
    error records, and copies of [source_dir + n] to a name that ends with
    [-n], for a name [n] of the listing that has no ['/']. *)
Definition copy_event (source_dir : string) (listing : list string) (e : event)
  : bool :=
  match e with
  | Log ERROR _ => true
  | Copy2 s d =>
      existsb (fun n => String.eqb s (source_dir ++ n)
                        && ends_with ("-" ++ n) d
                        && negb (has_slash n)) listing
  | _ => false
  end.

(** What either loop comes to on a body that is not a list: iterating an
    empty object or string does nothing, the keys of an object and the
    characters of a string take no string subscript, and nothing else can
    be iterated. *)
Definition not_a_list_outcome (body : json) : result unit :=
  match body with
  | JObj [] => Ok tt
  | JStr EmptyString => Ok tt
  | _ => Raise TypeError
  end.

Definition is_list (body : json) : bool :=
  match body with
  | JArr _ => true
  | _ => false
  end.

(** The events before the request of a download: the creation of the
    output directory when it is not there. *)
Definition ensure_events (fs : filesystem) (output_folder : string) : list event :=
  if isdir fs output_folder then [] else [Mkdir output_folder].

(** What the download does for one record it can serve: two debug records,
    the URI and [<accession> -> <filename>], then the retrieval. *)
Definition download_steps (output_folder : string) (r : FileRecord) : list event :=
  match ftp_location r with
  | Some u =>
      [Log DEBUG ("ftp_filepath:" ++ u);
       Log DEBUG (rec_accession r ++ " -> " ++ after_last_slash u);
       UrlRetrieve u (output_folder ++ after_last_slash u)]
  | None => []
  end.

(** The directory a copy reads: [<base>/<fragment>/submitted/]. *)
Definition submitted_dir (base fragment : string) : string :=
  base ++ "/" ++ fragment ++ "/submitted/".

(** The events of a copy up to its loop: the request of the raw files (for
    the path fragment), the error record when [dir] is no directory, a debug
    record per file found there, and the request [request_url] of the
    records to copy. *)
Definition listing_events (accession : string) (fs : filesystem) (dir : string)
    (names : list string) (request_url : string) : list event :=
  ([Get (raw_files_url accession) accept_json]
   ++ (if isdir fs dir then [] else [Log ERROR ("Folder does not exists! " ++ dir)])
   ++ map (fun n => Log DEBUG ("found file: " ++ dir ++ n)) names
   ++ [Get request_url accept_json])%list.

(** The events a copy may add: requests, log records, copies. *)
Definition copy_side (e : event) : bool :=
  match e with
  | Get _ _ => true
  | Log _ _ => true
  | Copy2 _ _ => true
  | Mkdir _ => false
  | UrlRetrieve _ _ => false
  end.

(** The events a download may add: anything but a copy. *)
Definition download_side (e : event) : bool :=
  match e with
  | Copy2 _ _ => false
  | _ => true
  end.

(** A copy, if [e] is one, is of a path that is there in [fs]. *)
Definition existing_source (fs : filesystem) (e : event) : bool :=
  match e with
  | Copy2 s _ => lexists fs s
  | _ => true
  end.

(** [only_at P c w]: run from [w], [c] extends the trace, and only with
    events that satisfy [P]. *)
Definition only_at {A : Type} (P : event -> bool) (c : M A) (w : world) : Prop :=
  exists evs,
    w_trace (snd (c w)) = (w_trace w ++ evs)%list /\ forallb P evs = true.

(** ** Loops that stop where a call raises *)

(** The retrievals [todo] made in order as the description has them, each
    on the file tree the earlier ones left: the retrievals attempted, what
    the loop comes to, and the file tree at its end.  A retrieval that
    raises is the last one attempted, and what it raised is the outcome. *)
Fixpoint retrieve_in_order (H : host) (todo : list (string * string))
    (fs : filesystem) : list (string * string) * result unit * filesystem :=
  match todo with
  | [] => ([], Ok tt, fs)
  | (u, f) :: rest =>
      match url_retrieve H u f fs with
      | (Some e, fs') => ([(u, f)], Raise (External e), fs')
      | (None, fs') =>
          let '(attempted, outcome, fs'') := retrieve_in_order H rest fs' in
          ((u, f) :: attempted, outcome, fs'')
      end
  end.

(** The records [recs] copied in order as the description has them: the
    events, what the loop comes to, and the file tree at its end.  A record
    whose name is not in the listing is reported and passed over; a copy that
    raises is the last event, and what it raised is the outcome. *)
Fixpoint copy_in_order (H : host) (source_dir : string) (listing : list string)
    (recs : list FileRecord) (fs : filesystem)
  : list event * result unit * filesystem :=
  match recs with
  | [] => ([], Ok tt, fs)
  | r :: rest =>
      if py_in (copy_name r) listing then
        match shutil_copy2 H (source_dir ++ copy_name r)
                (rec_accession r ++ "-" ++ copy_name r) fs with
        | (Some e, fs') =>
            ([Copy2 (source_dir ++ copy_name r)
                    (rec_accession r ++ "-" ++ copy_name r)],
             Raise (External e), fs')
        | (None, fs') =>
            let '(evs, outcome, fs'') :=
              copy_in_order H source_dir listing rest fs' in
            (Copy2 (source_dir ++ copy_name r)
                   (rec_accession r ++ "-" ++ copy_name r) :: evs,
             outcome, fs'')
        end
      else
        let '(evs, outcome, fs'') := copy_in_order H source_dir listing rest fs in
        (Log ERROR (copy_name r ++ " not found in " ++ source_dir) :: evs,
         outcome, fs'')
  end.

(** ** Decimal numerals

    What a string reads as when it is the decimal numeral of an integer, as
    [str] writes one: digits with no leading zero (the numeral [0] apart),
    after a [-] for a negative number, and nothing else. *)

Definition digit_value (c : ascii) : option Z :=
  if is_digit c then Some (Z.of_nat (nat_of_ascii c) - 48)%Z else None.

Fixpoint digits_value (s : string) (acc : Z) : option Z :=
  match s with
  | EmptyString => Some acc
  | String c r =>
      match digit_value c with
      | Some d => digits_value r (10 * acc + d)%Z
      | None => None
      end
  end.

Definition natural_value (s : string) : option Z :=
  match s with
  | EmptyString => None
  | String c r =>
      if Ascii.eqb c "0" && truthy r then None else digits_value s 0
  end.

Definition decimal_value (s : string) : option Z :=
  match s with
  | EmptyString => None
  | String c r =>
      if Ascii.eqb c "-" then
        match natural_value r with
        | Some m => if (m =? 0)%Z then None else Some (- m)%Z
        | None => None
        end
      else natural_value s
  end.

(** The URL of [get_all_paged_files] with the two numbers as the texts
    [size_text] and [page_text]. *)
Definition paged_url_of_texts (query_filter size_text page_text
    sort_direction sort_conditions : string) : string :=
  api_base_url ++ "files?"
    ++ (if String.eqb query_filter "" then "" else "filter=" ++ query_filter ++ "&")
    ++ "pageSize=" ++ size_text ++ "&page=" ++ page_text
    ++ "&sortDirection=" ++ sort_direction
    ++ "&sortConditions=" ++ sort_conditions.

(** What the search of [location], a string that ends with ['/'], for
    [pattern] gives, as names: a pattern with one of [*], [?], [[] is
    matched against the entries of the directory; a pattern without names
    one path, [location + pattern], found when it is there (for the empty
    pattern, when [location] is a directory). *)
Definition found_names (H : host) (fs : filesystem) (location pattern : string)
  : list string :=
  if has_magic pattern
  then filter (glob_match H pattern) (dir_names fs location)
  else if (if truthy pattern
           then lexists fs (location ++ pattern)
           else isdir fs location)
       then [pattern]
       else [].

(** ** Sample data

    Two records of the project PXD008644, the first with its FTP location at
    index 0, the second with it at index 1; hosts that serve them; a small
    file tree. *)

Definition location_json (name value : string) : json :=
  JObj [("name", JStr name); ("value", JStr value)].

Definition record_json (accession file_name : string) (locations : list json) : json :=
  JObj [("accession", JStr accession);
        ("fileName", JStr file_name);
        ("publicFileLocations", JArr locations)].

Definition archive : string :=
  "ftp://ftp.pride.ebi.ac.uk/pride/data/archive/2018/10/PXD008644/".
Definition aspera : string :=
  "prd_ascp@fasp.ebi.ac.uk:pride/data/archive/2018/10/PXD008644/".

Definition record_a : json :=
  record_json "PXD008644" "a.raw"
    [location_json "FTP Protocol" (archive ++ "a.raw");
     location_json "Aspera Protocol" (aspera ++ "a.raw")].

Definition record_c : json :=
  record_json "PXD008644" "c.raw"
    [location_json "Aspera Protocol" (aspera ++ "c.raw");
     location_json "FTP Protocol" (archive ++ "c.raw")].

Definition typed_a : FileRecord :=
  {| rec_accession := "PXD008644";
     rec_locations :=
       [{| loc_name := "FTP Protocol"; loc_value := archive ++ "a.raw" |};
        {| loc_name := "Aspera Protocol"; loc_value := aspera ++ "a.raw" |}] |}.

Definition typed_c : FileRecord :=
  {| rec_accession := "PXD008644";
     rec_locations :=
       [{| loc_name := "Aspera Protocol"; loc_value := aspera ++ "c.raw" |};
        {| loc_name := "FTP Protocol"; loc_value := archive ++ "c.raw" |}] |}.

(** The record of the file of the description, and one whose location is
    not under a year/month/accession path. *)
Definition record_7550 : json :=
  record_json "PXD008644" "7550GI_Y.raw"
    [location_json "FTP Protocol"
       "ftp://host/pride/data/archive/2018/10/PXD008644/7550GI_Y.raw"].

Definition record_elsewhere : json :=
  record_json "PXD008644" "x.raw"
    [location_json "FTP Protocol" "ftp://host/pub/incoming/x.raw"].

(** A record with an Aspera location only, and one whose URI is a bare
    file name. *)
Definition record_aspera_only : json :=
  record_json "PXD008644" "a.raw"
    [location_json "Aspera Protocol" (aspera ++ "a.raw")].

Definition record_bare : json :=
  record_json "PXD008644" "a.raw" [location_json "FTP Protocol" "a.raw"].

(** A record that has its locations and no [accession]. *)
Definition record_nameless (file_name : string) : json :=
  JObj [("fileName", JStr file_name);
        ("publicFileLocations",
         JArr [location_json "FTP Protocol" (archive ++ file_name)])].

(** A record whose location ends with the name [.]. *)
Definition record_dot : json :=
  record_json "PXD008644" "." [location_json "FTP Protocol" (archive ++ ".")].

(** The body of an answer that reports an error: an object, not a list. *)
Definition error_body : json :=
  JObj [("status", JNum 404); ("error", JStr "Not Found")].

Definition done (fs : filesystem) : option external_error * filesystem := (None, fs).

Definition failed (class text : string) (fs : filesystem)
  : option external_error * filesystem :=
  (Some {| err_class := class; err_text := text |}, fs).

(** Every request is answered with [body]; every call on files returns. *)
Definition serving (body : json) : host :=
  {| api_call := fun _ _ => inr {| resp_json := inr body |};
     os_mkdir := fun _ => done;
     url_retrieve := fun _ _ => done;
     shutil_copy2 := fun _ _ => done;
     fnmatchcase := simple_fnmatch |}.

(** The same, with the FTP server out of reach. *)
Definition unreachable_ftp (body : json) : host :=
  {| api_call := fun _ _ => inr {| resp_json := inr body |};
     os_mkdir := fun _ => done;
     url_retrieve := fun _ _ => failed "URLError" "<urlopen error ftp error: timed out>";
     shutil_copy2 := fun _ _ => done;
     fnmatchcase := simple_fnmatch |}.

(** The same, with a [shutil.copy2] that raises when there is no source
    file. *)
Definition copying (body : json) : host :=
  {| api_call := fun _ _ => inr {| resp_json := inr body |};
     os_mkdir := fun _ => done;
     url_retrieve := fun _ _ => done;
     shutil_copy2 := fun src _ fs =>
       if lexists fs src then done fs
       else failed "FileNotFoundError" "[Errno 2] No such file or directory" fs;
     fnmatchcase := simple_fnmatch |}.

(** The same, in a working directory that cannot be written to. *)
Definition read_only (body : json) : host :=
  {| api_call := fun _ _ => inr {| resp_json := inr body |};
     os_mkdir := fun _ => done;
     url_retrieve := fun _ _ => done;
     shutil_copy2 := fun _ _ => failed "PermissionError" "[Errno 13] Permission denied";
     fnmatchcase := simple_fnmatch |}.

(** The same, where no directory can be made. *)
Definition no_parent (body : json) : host :=
  {| api_call := fun _ _ => inr {| resp_json := inr body |};
     os_mkdir := fun _ => failed "FileNotFoundError" "[Errno 2] No such file or directory";
     url_retrieve := fun _ _ => done;
     shutil_copy2 := fun _ _ => done;
     fnmatchcase := simple_fnmatch |}.

(** The archive has no such file: the call fails. *)
Definition not_found : external_error :=
  {| err_class := "HTTPError"; err_text := "404 Client Error: Not Found" |}.

Definition failing_api : host :=
  {| api_call := fun _ _ => inl not_found;
     os_mkdir := fun _ => done;
     url_retrieve := fun _ _ => done;
     shutil_copy2 := fun _ _ => done;
     fnmatchcase := simple_fnmatch |}.

Definition bad_json : external_error :=
  {| err_class := "JSONDecodeError";
     err_text := "Expecting value: line 1 column 1 (char 0)" |}.

Definition garbled_api : host :=
  {| api_call := fun _ _ => inr {| resp_json := inl bad_json |};
     os_mkdir := fun _ => done;
     url_retrieve := fun _ _ => done;
     shutil_copy2 := fun _ _ => done;
     fnmatchcase := simple_fnmatch |}.

(** [/nfs/pride/2018/10/PXD008644/submitted/] holds [a.raw] and [b.raw];
    [/data] holds [a.raw], and beside it lies the file [/data1.raw]; [/out]
    is an empty directory; the working directory is the root. *)
Definition sample_fs : filesystem :=
  {| fs_root :=
       Dir [("nfs", Dir [("pride", Dir [("2018", Dir [("10", Dir [("PXD008644",
              Dir [("submitted", Dir [("a.raw", File "A"); ("b.raw", File "B")])])])])])]);
            ("data", Dir [("a.raw", File "A")]);
            ("data1.raw", File "D");
            ("out", Dir [])];
     fs_cwd := [] |}.

Definition sample_world : world := {| w_fs := sample_fs; w_trace := [] |}.

(** * Properties *)

(** ** Strings *)

Lemma append_assoc (a b c : string) : (a ++ b) ++ c = a ++ (b ++ c).
Proof. induction a as [|x a IH]; simpl; [reflexivity | now rewrite IH]. Qed.

Lemma append_empty_r (a : string) : a ++ "" = a.
Proof. induction a as [|x a IH]; simpl; [reflexivity | now rewrite IH]. Qed.

Lemma length_append (a b : string) :
  String.length (a ++ b) = String.length a + String.length b.
Proof. induction a as [|x a IH]; simpl; [reflexivity | now rewrite IH]. Qed.

Lemma append_inv_length (a b c d : string) :
  a ++ b = c ++ d -> String.length a = String.length c -> a = c /\ b = d.
Proof.
  revert c; induction a as [|x a IH]; intros [|y c] E L; simpl in *;
    try discriminate; [now split|].
  injection E as -> E. destruct (IH c E) as [-> ->]; [lia | now split].
Qed.

Lemma has_slash_append (a b : string) :
  has_slash (a ++ b) = has_slash a || has_slash b.
Proof.
  induction a as [|x a IH]; simpl; [reflexivity|].
  now rewrite IH, orb_assoc.
Qed.

Lemma truthy_eqb (s : string) : truthy s = negb (String.eqb s "").
Proof. now destruct s. Qed.

(** [rsplit1] cuts at the last ['/']: the two parts rebuild the string and
    the second has no ['/']. *)
Lemma rsplit1_some (s a b : string) :
  rsplit1 s = Some (a, b) -> s = a ++ "/" ++ b /\ has_slash b = false.
Proof.
  revert a b; induction s as [|c s IH]; simpl; intros a b E; [discriminate|].
  destruct (rsplit1 s) as [[a' b']|] eqn:R.
  - injection E as <- <-. destruct (IH a' b' eq_refl) as [-> Hb]. now split.
  - unfold is_slash in E. destruct (Ascii.eqb c "/") eqn:C; [|discriminate].
    injection E as <- <-. apply Ascii.eqb_eq in C; subst c. split; [reflexivity|].
    clear IH. induction s as [|d s IHs]; simpl in *; [reflexivity|].
    destruct (rsplit1 s) as [[? ?]|]; [discriminate|].
    destruct (is_slash d); [discriminate|]. now apply IHs.
Qed.

Lemma rsplit1_none (s : string) : rsplit1 s = None <-> has_slash s = false.
Proof.
  induction s as [|c s IH]; simpl; [now split|].
  destruct (rsplit1 s) as [[a b]|] eqn:R.
  - split; [discriminate|]. intros E. apply orb_false_elim in E as [_ E].
    apply IH in E. discriminate.
  - destruct (is_slash c); simpl; [split; discriminate|].
    split; intros _; [now apply IH | reflexivity].
Qed.

Lemma rsplit1_append (a b : string) :
  has_slash b = false -> rsplit1 (a ++ "/" ++ b) = Some (a, b).
Proof.
  intros Hb. induction a as [|c a IH]; simpl.
  - apply rsplit1_none in Hb. now rewrite Hb.
  - simpl in IH. now rewrite IH.
Qed.

(** [after_last_slash] is the second part of that cut. *)
Lemma rsplit1_after_last_slash (s : string) :
  has_slash s = true -> exists a, rsplit1 s = Some (a, after_last_slash s).
Proof.
  induction s as [|c s IH]; simpl; [discriminate|]. intros Hs.
  destruct (has_slash s) eqn:Hr.
  - destruct (IH eq_refl) as [a ->]. now eexists.
  - rewrite orb_false_r in Hs. rewrite Hs.
    apply rsplit1_none in Hr. rewrite Hr. now eexists.
Qed.

Lemma after_last_slash_spec (s : string) :
  has_slash s = true ->
  exists a, s = a ++ "/" ++ after_last_slash s
            /\ has_slash (after_last_slash s) = false.
Proof.
  intros Hs. destruct (rsplit1_after_last_slash s Hs) as [a R].
  exists a. now apply rsplit1_some.
Qed.

Lemma py_rsplit_item1 (s : string) :
  has_slash s = true -> list_item (py_rsplit s) 1 = Ok (after_last_slash s).
Proof.
  intros Hs. destruct (rsplit1_after_last_slash s Hs) as [a R].
  unfold py_rsplit. now rewrite R.
Qed.

Lemma py_rsplit_item1_none (s : string) :
  has_slash s = false -> list_item (py_rsplit s) 1 = Raise IndexError.
Proof.
  intros Hs. apply rsplit1_none in Hs. unfold py_rsplit. now rewrite Hs.
Qed.

(** ** Traces *)

Lemma new_events_app (w w' : world) (evs : list event) :
  w_trace w' = (w_trace w ++ evs)%list -> new_events w w' = evs.
Proof.
  intros E. unfold new_events. rewrite E, skipn_app, skipn_all, Nat.sub_diag.
  reflexivity.
Qed.

Lemma new_events_record (w : world) (e : event) : new_events w (record e w) = [e].
Proof. now apply new_events_app. Qed.

Lemma retrievals_app (a b : list event) :
  retrievals (a ++ b) = (retrievals a ++ retrievals b)%list.
Proof. apply flat_map_app. Qed.

Lemma copies_app (a b : list event) : copies (a ++ b) = (copies a ++ copies b)%list.
Proof. apply flat_map_app. Qed.

Lemma mkdirs_app (a b : list event) : mkdirs (a ++ b) = (mkdirs a ++ mkdirs b)%list.
Proof. apply flat_map_app. Qed.

(** ** Runs: what each step may add to the trace *)

Lemma only_silent {A : Type} (P : event -> bool) (c : M A) :
  (forall w, w_trace (snd (c w)) = w_trace w) -> only P c.
Proof. intros E w. exists []. now rewrite E, app_nil_r. Qed.

Lemma only_ret {A : Type} (P : event -> bool) (a : A) : only P (ret a).
Proof. now apply only_silent. Qed.

Lemma only_raise {A : Type} (P : event -> bool) (e : exn) : only P (@raise A e).
Proof. now apply only_silent. Qed.

Lemma only_lift {A : Type} (P : event -> bool) (r : result A) : only P (lift r).
Proof. now apply only_silent. Qed.

Lemma only_bind {A B : Type} (P : event -> bool) (c : M A) (k : A -> M B) :
  only P c -> (forall a, only P (k a)) -> only P (bind c k).
Proof.
  intros Hc Hk w. unfold bind. destruct (Hc w) as [e1 [E1 P1]].
  destruct (c w) as [[a|e] w1]; simpl in *.
  - destruct (Hk a w1) as [e2 [E2 P2]]. exists (e1 ++ e2)%list.
    rewrite E2, E1, app_assoc, forallb_app, P1, P2. now split.
  - now exists e1.
Qed.

Lemma only_emit (P : event -> bool) (e : event) : P e = true -> only P (emit e).
Proof. intros Pe w. exists [e]. simpl. now rewrite Pe. Qed.

Lemma only_os_call (P : event -> bool) (e : event)
    (f : filesystem -> option external_error * filesystem) :
  P e = true -> only P (os_call e f).
Proof.
  intros Pe w. exists [e]. unfold os_call.
  destruct (f (w_fs (record e w))) as [r fs']. simpl. now rewrite Pe.
Qed.

Lemma only_for_each {A : Type} (P : event -> bool) (xs : list A) (body : A -> M unit) :
  (forall x, only P (body x)) -> only P (for_each xs body).
Proof.
  intros Hb. induction xs as [|x xs IH]; simpl.
  - apply only_ret.
  - apply only_bind; [apply Hb | intros _; apply IH].
Qed.

Lemma only_new_events {A : Type} (P : event -> bool) (c : M A) (w : world) :
  only P c -> forallb P (new_events w (snd (c w))) = true.
Proof.
  intros Hc. destruct (Hc w) as [evs [E Pe]]. now rewrite (new_events_app _ _ _ E).
Qed.

Lemma forallb_not_mkdir (evs : list event) :
  forallb not_mkdir evs = true ->
  mkdirs evs = [].
Proof.
  induction evs as [|e evs IH]; simpl; [reflexivity|].
  intros E. apply andb_prop in E as [E1 E2]. destruct e; try discriminate;
    simpl; now apply IH.
Qed.

(** ** Numbers in a URL: [str] of an [int] *)

Ltac read_digit :=
  cbn [digits_value];
  match goal with
  | |- context [digit_value ?c] =>
      let v := eval vm_compute in (digit_value c) in
      change (digit_value c) with v
  end;
  cbv iota beta.

Lemma digits_value_acc (d : Decimal.uint) (p : positive) :
  digits_value (NilEmpty.string_of_uint d) (Z.pos p)
  = Some (Z.pos (Pos.of_uint_acc d p)).
Proof.
  revert p. induction d; intros p; cbn [NilEmpty.string_of_uint Pos.of_uint_acc];
    [reflexivity | ..];
    read_digit; rewrite <- IHd; f_equal; lia.
Qed.

Lemma digits_value_uint (d : Decimal.uint) :
  digits_value (NilEmpty.string_of_uint d) 0 = Some (Z.of_N (Pos.of_uint d)).
Proof.
  induction d; cbn [NilEmpty.string_of_uint Pos.of_uint];
    [reflexivity | ..];
    read_digit; first [ exact IHd | apply digits_value_acc ].
Qed.

Lemma to_uint_normal (p : positive) : Decimal.unorm (Pos.to_uint p) = Pos.to_uint p.
Proof.
  rewrite <- (DecimalPos.Unsigned.to_of (Pos.to_uint p)).
  now rewrite DecimalPos.Unsigned.of_to.
Qed.

Lemma to_uint_no_leading_zero (p : positive) (l : Decimal.uint) :
  Pos.to_uint p <> Decimal.D0 l.
Proof.
  intros E. pose proof (to_uint_normal p) as N. rewrite E in N.
  unfold Decimal.unorm in N.
  destruct (Decimal.nzhead (Decimal.D0 l)) eqn:Z.
  - injection N as <-. now apply (DecimalPos.Unsigned.to_uint_nonzero p).
  - injection N as ->. exact (DecimalFacts.nzhead_nonzero (Decimal.D0 l) l Z).
  - discriminate. - discriminate. - discriminate. - discriminate. - discriminate.
  - discriminate. - discriminate. - discriminate. - discriminate.
Qed.

Lemma natural_value_to_uint (p : positive) :
  natural_value (NilEmpty.string_of_uint (Pos.to_uint p)) = Some (Z.pos p)
  /\ exists c r, NilEmpty.string_of_uint (Pos.to_uint p) = String c r
                 /\ Ascii.eqb c "-" = false.
Proof.
  pose proof (digits_value_uint (Pos.to_uint p)) as V.
  rewrite DecimalPos.Unsigned.of_to in V. cbn [Z.of_N] in V.
  pose proof (DecimalPos.Unsigned.to_uint_nonnil p) as Hnil.
  pose proof (to_uint_no_leading_zero p) as Hzero.
  destruct (Pos.to_uint p) as [|l|l|l|l|l|l|l|l|l|l];
    [now destruct Hnil | now destruct (Hzero l) | ..];
    cbn [NilEmpty.string_of_uint] in *;
    (split; [exact V | eexists _, _; split; reflexivity]).
Qed.

(** What [str] writes for an integer reads as that integer. *)
Lemma decimal_value_str (n : Z) : decimal_value (py_str_int n) = Some n.
Proof.
  unfold py_str_int. destruct n as [|p|p]; cbn [Z.to_int NilZero.string_of_int].
  - reflexivity.
  - unfold NilZero.string_of_uint.
    destruct (natural_value_to_uint p) as [V [c [r [E Hc]]]].
    pose proof (DecimalPos.Unsigned.to_uint_nonnil p) as Hnil.
    destruct (Pos.to_uint p); [now destruct Hnil | ..];
      rewrite E in *; cbn [decimal_value]; rewrite Hc; exact V.
  - unfold NilZero.string_of_uint.
    destruct (natural_value_to_uint p) as [V _].
    pose proof (DecimalPos.Unsigned.to_uint_nonnil p) as Hnil.
    destruct (Pos.to_uint p); [now destruct Hnil | ..];
      cbn [decimal_value]; replace (Ascii.eqb "-" "-") with true by reflexivity;
      rewrite V; reflexivity.
Qed.

(** ** The requests *)

Section Requests.

Variable H : host.

(** A request outside any handler: one [Get] event, and the body or the
    failure of the call or of the parse. *)
Lemma request_run (url : string) (headers : list (string * string)) (w : world) :
  bind (call (Util_get_api_call H url headers))
       (fun response => call (response_json response)) w
  = (match api_json H url headers with
     | inr body => Ok body
     | inl e => Raise (External e)
     end, record (Get url headers) w).
Proof.
  unfold bind, call, Util_get_api_call, response_json, api_json.
  destruct (api_call H url headers) as [e|r]; [reflexivity|].
  now destruct (resp_json r).
Qed.

Lemma get_all_raw_file_list_run (accession : string) (w : world) :
  get_all_raw_file_list H accession w
  = (match api_json H (raw_files_url accession) accept_json with
     | inr body => Ok body
     | inl e => Raise (External e)
     end, record (Get (raw_files_url accession) accept_json) w).
Proof. apply request_run. Qed.

Lemma get_file_from_api_run (accession file_name : string) (w : world) :
  get_file_from_api H accession file_name w
  = (match api_json H (file_by_name_url accession file_name) accept_json with
     | inr body => Ok body
     | inl e => Raise (Exception_ ("File not found" ++ err_text e))
     end, record (Get (file_by_name_url accession file_name) accept_json) w).
Proof.
  unfold get_file_from_api, try_except, xbind, Util_get_api_call, response_json,
    api_json, raise.
  fold (file_by_name_url accession file_name). fold accept_json.
  destruct (api_call H _ _) as [e|r]; [reflexivity|].
  now destruct (resp_json r).
Qed.

Lemma only_get_all_raw_file_list (P : event -> bool) (accession : string) :
  (forall u h, P (Get u h) = true) -> only P (get_all_raw_file_list H accession).
Proof.
  intros HP w. rewrite get_all_raw_file_list_run. eexists [_]. simpl.
  now rewrite HP.
Qed.

Lemma only_get_file_from_api (P : event -> bool) (accession file_name : string) :
  (forall u h, P (Get u h) = true) -> only P (get_file_from_api H accession file_name).
Proof.
  intros HP w. rewrite get_file_from_api_run. eexists [_]. simpl.
  now rewrite HP.
Qed.

(** C6. [get_all_paged_files] issues one GET, to the URL
    [base + "files?"], then ["filter=" + filter + "&"] when the filter is
    not empty, then [pageSize], [page], [sortDirection] and
    [sortConditions] with the arguments as they come, the two numbers as
    their decimal numerals, under the header [Accept: application/JSON]; it
    returns the parsed body as it is (or raises what the call or the parse
    raised), and touches nothing else. *)
Theorem get_all_paged_files_request
    (query_filter : string) (page_size page : Z)
    (sort_direction sort_conditions : string) (w : world) :
  get_all_paged_files H query_filter page_size page sort_direction sort_conditions w
  = (match api_json H (paged_url query_filter page_size page
                                 sort_direction sort_conditions)
                    [("Accept", "application/JSON")] with
     | inr body => Ok body
     | inl e => Raise (External e)
     end,
     {| w_fs := w_fs w;
        w_trace := (w_trace w ++
          [Get (paged_url query_filter page_size page sort_direction sort_conditions)
               [("Accept", "application/JSON")]])%list |})
  /\ exists size_text page_text,
       decimal_value size_text = Some page_size
       /\ decimal_value page_text = Some page
       /\ get_all_paged_files H query_filter page_size page
            sort_direction sort_conditions w
          = (match api_json H (paged_url_of_texts query_filter size_text page_text
                                 sort_direction sort_conditions)
                         [("Accept", "application/JSON")] with
             | inr body => Ok body
             | inl e => Raise (External e)
             end,
             {| w_fs := w_fs w;
                w_trace := (w_trace w ++
                  [Get (paged_url_of_texts query_filter size_text page_text
                          sort_direction sort_conditions)
                       [("Accept", "application/JSON")]])%list |}).
Proof.
  assert (Hrun : get_all_paged_files H query_filter page_size page
                   sort_direction sort_conditions w
                 = (match api_json H (paged_url query_filter page_size page
                                        sort_direction sort_conditions)
                                [("Accept", "application/JSON")] with
                    | inr body => Ok body
                    | inl e => Raise (External e)
                    end,
                    {| w_fs := w_fs w;
                       w_trace := (w_trace w ++
                         [Get (paged_url query_filter page_size page
                                 sort_direction sort_conditions)
                              [("Accept", "application/JSON")]])%list |})).
  { unfold get_all_paged_files. rewrite request_run.
    replace (paged_url query_filter page_size page sort_direction sort_conditions)
      with ((if truthy query_filter
             then (api_base_url ++ "files?") ++ "filter=" ++ query_filter ++ "&"
             else api_base_url ++ "files?")
            ++ "pageSize=" ++ py_str_int page_size ++ "&page=" ++ py_str_int page
            ++ "&sortDirection=" ++ sort_direction
            ++ "&sortConditions=" ++ sort_conditions); [reflexivity|].
    unfold paged_url. rewrite truthy_eqb.
    destruct (String.eqb query_filter ""); simpl negb; cbv iota.
    - now rewrite append_assoc.
    - now rewrite !append_assoc. }
  split; [exact Hrun|].
  exists (py_str_int page_size), (py_str_int page).
  split; [apply decimal_value_str|]. split; [apply decimal_value_str|].
  exact Hrun.
Qed.

(** C4. When the call or the parse of [get_file_from_api] raises, the
    function raises a plain [Exception] whose message is
    ["File not found"] followed by the text of what was raised. *)
Theorem get_file_from_api_wraps_failure
    (accession file_name : string) (e : external_error) (w : world) :
  let url := api_base_url ++ "files/byProject?accession=" ++ accession
               ++ ",fileName==" ++ file_name in
  let headers := [("Accept", "application/JSON")] in
  api_call H url headers = inl e
  \/ (exists response, api_call H url headers = inr response
                       /\ resp_json response = inl e) ->
  fst (get_file_from_api H accession file_name w)
  = Raise (Exception_ ("File not found" ++ err_text e)).
Proof.
  intros url headers Hfail. rewrite get_file_from_api_run.
  unfold api_json, file_by_name_url, accept_json. fold url. fold headers.
  destruct Hfail as [-> | [r [-> ->]]]; reflexivity.
Qed.

End Requests.

Lemma get_all_paged_files_request_witness :
  get_all_paged_files (serving (JArr [record_a])) "accession==PXD008644" 100 0
    "DESC" "fileName" sample_world
  = (Ok (JArr [record_a]),
     {| w_fs := sample_fs;
        w_trace :=
          [Get "https://www.ebi.ac.uk/pride/ws/archive/v2/files?filter=accession==PXD008644&pageSize=100&page=0&sortDirection=DESC&sortConditions=fileName"
               [("Accept", "application/JSON")]] |})
  /\ snd (get_all_paged_files failing_api "" 25 (-3) "ASC" "submissionDate"
            sample_world)
     = {| w_fs := sample_fs;
          w_trace :=
            [Get "https://www.ebi.ac.uk/pride/ws/archive/v2/files?pageSize=25&page=-3&sortDirection=ASC&sortConditions=submissionDate"
                 [("Accept", "application/JSON")]] |}.
Proof.
  split.
  - exact (proj1 (get_all_paged_files_request (serving (JArr [record_a]))
                    "accession==PXD008644" 100 0 "DESC" "fileName" sample_world)).
  - exact (f_equal snd
             (proj1 (get_all_paged_files_request failing_api "" 25 (-3) "ASC"
                       "submissionDate" sample_world))).
Defined.

Lemma get_file_from_api_wraps_failure_witness :
  fst (get_file_from_api failing_api "PXD008644" "missing.raw" sample_world)
  = Raise (Exception_ "File not found404 Client Error: Not Found")
  /\ fst (get_file_from_api garbled_api "PXD008644" "missing.raw" sample_world)
     = Raise (Exception_ "File not foundExpecting value: line 1 column 1 (char 0)").
Proof.
  split.
  - apply (get_file_from_api_wraps_failure failing_api "PXD008644" "missing.raw"
             not_found sample_world).
    left. reflexivity.
  - apply (get_file_from_api_wraps_failure garbled_api "PXD008644" "missing.raw"
             bad_json sample_world).
    right. exists {| resp_json := inl bad_json |}. split; reflexivity.
Defined.

(** ** Records in JSON *)

Lemma all_some_nth {A B : Type} (f : A -> option B) (xs : list A) (ys : list B) (i : nat) :
  all_some f xs = Some ys ->
  match nth_error ys i with
  | Some y => exists x, nth_error xs i = Some x /\ f x = Some y
  | None => nth_error xs i = None
  end.
Proof.
  revert ys i; induction xs as [|x xs IH]; intros ys i; simpl.
  - intros [= <-]. now destruct i.
  - destruct (f x) as [y|] eqn:Fx; [|discriminate].
    destruct (all_some f xs) as [ys'|]; [|discriminate].
    intros [= <-]. destruct i as [|i]; simpl.
    + now exists x.
    + now apply IH.
Qed.

Lemma as_record_inv (j : json) (r : FileRecord) :
  as_record j = Some r ->
  exists ls,
    j.$["publicFileLocations"] = Ok (JArr ls)
    /\ j.$["accession"] = Ok (JStr (rec_accession r))
    /\ all_some as_location ls = Some (rec_locations r).
Proof.
  destruct j as [| | | | |kvs]; simpl; try discriminate.
  destruct (lookup "accession" kvs) as [[| | |a| |]|]; try discriminate.
  destruct (lookup "publicFileLocations" kvs) as [[| | | |ls|]|]; try discriminate.
  destruct (all_some as_location ls) as [locs|] eqn:L; simpl; [|discriminate].
  intros [= <-]. now exists ls.
Qed.

Lemma as_location_inv (j : json) (l : Location) :
  as_location j = Some l ->
  getitem_str j "name" = Ok (JStr (loc_name l))
  /\ getitem_str j "value" = Ok (JStr (loc_value l)).
Proof.
  destruct j as [| | | | |kvs]; simpl; try discriminate.
  destruct (lookup "name" kvs) as [[| | |n| |]|]; try discriminate.
  destruct (lookup "value" kvs) as [[| | |v| |]|]; try discriminate.
  now intros [= <-].
Qed.

(** The subscripts of the source on a record: location [i] when the
    record has one, an [IndexError] when it has not. *)
Lemma record_location (j : json) (r : FileRecord) (i : nat) :
  as_record j = Some r ->
  match nth_error (rec_locations r) i with
  | Some l =>
      j.$["publicFileLocations"].[i].$["name"] = Ok (JStr (loc_name l))
      /\ j.$["publicFileLocations"].[i].$["value"] = Ok (JStr (loc_value l))
  | None =>
      j.$["publicFileLocations"].[i].$["name"] = Raise IndexError
      /\ j.$["publicFileLocations"].[i].$["value"] = Raise IndexError
  end.
Proof.
  intros Hr. destruct (as_record_inv j r Hr) as [ls [-> [_ Hls]]].
  pose proof (all_some_nth as_location ls _ i Hls) as Hi.
  destruct (nth_error (rec_locations r) i) as [l|]; simpl.
  - destruct Hi as [x [-> Hx]]. now apply as_location_inv.
  - now rewrite Hi.
Qed.

Lemma record_accession (j : json) (r : FileRecord) :
  as_record j = Some r -> j.$["accession"] = Ok (JStr (rec_accession r)).
Proof. intros Hr. now destruct (as_record_inv j r Hr) as [ls [_ [-> _]]]. Qed.

(** ** Loops *)

Lemma bind_unit_ret (c : M unit) (w : world) : bind c (fun _ => ret tt) w = c w.
Proof. unfold bind, ret. now destruct (c w) as [[[]|e] w1]. Qed.

Lemma for_each_cons {A : Type} (x : A) (xs : list A) (body : A -> M unit) (w : world) :
  for_each (x :: xs) body w
  = bind (for_each [x] body) (fun _ => for_each xs body) w.
Proof. simpl. unfold bind, ret. now destruct (body x w) as [[[]|e] w1]. Qed.

(** ** The download loop *)

Section Download.

Variable H : host.

Lemma download_cons (file : json) (rest : list json) (out : string) (w : world) :
  download_files_from_ftp H (JArr (file :: rest)) out w
  = bind (download_files_from_ftp H (JArr [file]) out)
         (fun _ => download_files_from_ftp H (JArr rest) out) w.
Proof. exact (for_each_cons file rest _ w). Qed.

Lemma download_nil (out : string) (w : world) :
  download_files_from_ftp H (JArr []) out w = (Ok tt, w).
Proof. reflexivity. Qed.

(** One record: the two debug records, then the retrieval. *)
Lemma download_one (file : json) (r : FileRecord) (u out : string) (w : world) :
  as_record file = Some r ->
  ftp_location r = Some u ->
  has_slash u = true ->
  download_files_from_ftp H (JArr [file]) out w
  = os_call (UrlRetrieve u (out ++ after_last_slash u))
            (url_retrieve H u (out ++ after_last_slash u))
            (record (Log DEBUG (rec_accession r ++ " -> " ++ after_last_slash u))
               (record (Log DEBUG ("ftp_filepath:" ++ u)) w)).
Proof.
  intros Hr Hu Hs. unfold download_files_from_ftp.
  unfold bind at 1. unfold lift at 1. cbn [py_iter for_each].
  rewrite bind_unit_ret.
  pose proof (record_location file r 0 Hr) as L0.
  pose proof (record_location file r 1 Hr) as L1.
  unfold ftp_location in Hu.
  destruct (rec_locations r) as [|l0 rest]; [discriminate|].
  cbn [nth_error] in L0, L1.
  destruct L0 as [N0 V0].
  unfold bind at 1. unfold lift at 1. rewrite N0. cbn [py_eq_str].
  destruct (String.eqb (loc_name l0) "FTP Protocol").
  - injection Hu as <-.
    unfold bind at 1. unfold lift at 1. rewrite V0.
    unfold bind, lift, logging_debug, emit. cbn [str_add rsplit_method].
    rewrite (record_accession file r Hr). cbn [add_str].
    rewrite (py_rsplit_item1 _ Hs). cbn [str_arg].
    now rewrite append_assoc.
  - destruct rest as [|l1 rest]; [discriminate|]. injection Hu as <-.
    destruct L1 as [_ V1].
    unfold bind at 1. unfold lift at 1. rewrite V1.
    unfold bind, lift, logging_debug, emit. cbn [str_add rsplit_method].
    rewrite (record_accession file r Hr). cbn [add_str].
    rewrite (py_rsplit_item1 _ Hs). cbn [str_arg].
    now rewrite append_assoc.
Qed.

Lemma os_call_trace (e : event)
    (f : filesystem -> option external_error * filesystem) (w : world) :
  w_trace (snd (os_call e f w)) = (w_trace w ++ [e])%list.
Proof. unfold os_call. now destruct (f (w_fs (record e w))). Qed.

Lemma os_call_result (e : event)
    (f : filesystem -> option external_error * filesystem) (w : world) :
  fst (os_call e f w)
  = match fst (f (w_fs w)) with
    | None => Ok tt
    | Some err => Raise (External err)
    end.
Proof. unfold os_call. simpl. now destruct (f (w_fs w)). Qed.

Lemma expected_retrievals_length (out : string) (recs : list FileRecord) :
  forallb downloadable recs = true ->
  length (expected_retrievals out recs) = length recs.
Proof.
  induction recs as [|r recs IH]; simpl; [reflexivity|].
  intros E. apply andb_prop in E as [Er E]. unfold downloadable in Er.
  rewrite length_app, (IH E). unfold retrieval_of.
  now destruct (ftp_location r).
Qed.

(** The loop over well-formed records, whatever the host does: the
    retrievals attempted are those of the first [k] records, and all of
    them when the loop ends normally. *)
Lemma download_loop (files : list json) (recs : list FileRecord) (out : string) :
  Forall2 (fun j r => as_record j = Some r) files recs ->
  forallb downloadable recs = true ->
  forall w res w',
    download_files_from_ftp H (JArr files) out w = (res, w') ->
    exists k evs,
      k <= length recs
      /\ w_trace w' = (w_trace w ++ evs)%list
      /\ retrievals evs = firstn k (expected_retrievals out recs)
      /\ (res = Ok tt -> k = length recs).
Proof.
  induction 1 as [|file r files recs Hr Hrest IH]; intros Hd w res w' Hrun.
  - rewrite download_nil in Hrun. injection Hrun as <- <-.
    exists 0, []. simpl. now rewrite app_nil_r.
  - simpl in Hd. apply andb_prop in Hd as [Hd1 Hd].
    unfold downloadable in Hd1.
    destruct (ftp_location r) as [u|] eqn:Hu; [|discriminate].
    rewrite download_cons in Hrun. unfold bind at 1 in Hrun.
    rewrite (download_one file r u out w Hr Hu Hd1) in Hrun.
    set (w2 := record _ (record _ w)) in Hrun.
    pose proof (os_call_trace (UrlRetrieve u (out ++ after_last_slash u))
                  (url_retrieve H u (out ++ after_last_slash u)) w2) as T.
    assert (T2 : w_trace w2
                 = (w_trace w ++ [Log DEBUG ("ftp_filepath:" ++ u);
                      Log DEBUG (rec_accession r ++ " -> " ++ after_last_slash u)])%list).
    { subst w2. unfold record. cbn [w_trace]. now rewrite <- app_assoc. }
    rewrite T2, <- app_assoc in T. cbn [app] in T. clearbody w2.
    destruct (os_call _ _ w2) as [[[]|e] w3]; cbn [fst snd] in *.
    + destruct (IH Hd w3 res w' Hrun) as [k [evs [Hk [Ht [Hev Hok]]]]].
      exists (S k), ([Log DEBUG ("ftp_filepath:" ++ u);
                      Log DEBUG (rec_accession r ++ " -> " ++ after_last_slash u);
                      UrlRetrieve u (out ++ after_last_slash u)] ++ evs)%list.
      repeat split.
      * simpl. lia.
      * rewrite Ht, T. now rewrite <- app_assoc.
      * rewrite retrievals_app, Hev. cbn [expected_retrievals flat_map].
        unfold retrieval_of at 1. now rewrite Hu.
      * intros E. now rewrite (Hok E).
    + injection Hrun as <- <-.
      exists 1, [Log DEBUG ("ftp_filepath:" ++ u);
                 Log DEBUG (rec_accession r ++ " -> " ++ after_last_slash u);
                 UrlRetrieve u (out ++ after_last_slash u)].
      repeat split.
      * simpl. lia.
      * exact T.
      * cbn [expected_retrievals flat_map]. unfold retrieval_of at 1.
        now rewrite Hu.
      * discriminate.
Qed.

(** The same loop when no retrieval raises: it ends normally. *)
Lemma download_loop_ok (files : list json) (recs : list FileRecord) (out : string) :
  Forall2 (fun j r => as_record j = Some r) files recs ->
  forallb downloadable recs = true ->
  (forall u f fs, In (u, f) (expected_retrievals out recs) ->
                  fst (url_retrieve H u f fs) = None) ->
  forall w, fst (download_files_from_ftp H (JArr files) out w) = Ok tt.
Proof.
  induction 1 as [|file r files recs Hr Hrest IH]; intros Hd Hok w.
  - reflexivity.
  - simpl in Hd. apply andb_prop in Hd as [Hd1 Hd].
    unfold downloadable in Hd1.
    destruct (ftp_location r) as [u|] eqn:Hu; [|discriminate].
    rewrite download_cons. unfold bind at 1.
    rewrite (download_one file r u out w Hr Hu Hd1).
    set (w2 := record _ (record _ w)).
    pose proof (os_call_result (UrlRetrieve u (out ++ after_last_slash u))
                  (url_retrieve H u (out ++ after_last_slash u)) w2) as R.
    rewrite Hok in R.
    2:{ simpl. unfold retrieval_of at 1. rewrite Hu. now left. }
    destruct (os_call _ _ w2) as [[[]|e] w3]; simpl in R; [|discriminate].
    apply IH; [assumption|]. intros u' f' fs' Hin. apply Hok.
    simpl. apply in_or_app. now right.
Qed.

End Download.

Section DownloadRetrievals.

Variable H : host.

(** The loop over well-formed records is the retrievals in order: it
    stops at the first one that raises, with what it raised. *)
Lemma download_in_order (files : list json) (recs : list FileRecord) (out : string) :
  Forall2 (fun j r => as_record j = Some r) files recs ->
  forallb downloadable recs = true ->
  forall w attempted outcome fs',
    retrieve_in_order H (expected_retrievals out recs) (w_fs w)
    = (attempted, outcome, fs') ->
    exists evs,
      download_files_from_ftp H (JArr files) out w
      = (outcome, {| w_fs := fs'; w_trace := (w_trace w ++ evs)%list |})
      /\ retrievals evs = attempted.
Proof.
  induction 1 as [|file r files recs Hr Hrest IH]; intros Hd w attempted outcome fs' Hspec.
  - cbn in Hspec. injection Hspec as <- <- <-.
    exists []. rewrite download_nil, app_nil_r. split; [now destruct w | reflexivity].
  - simpl in Hd. apply andb_prop in Hd as [Hd1 Hd].
    unfold downloadable in Hd1.
    destruct (ftp_location r) as [u|] eqn:Hu; [|discriminate].
    cbn [expected_retrievals flat_map] in Hspec.
    unfold retrieval_of at 1 in Hspec. rewrite Hu in Hspec.
    cbn [app retrieve_in_order] in Hspec.
    fold (expected_retrievals out recs) in Hspec.
    rewrite download_cons. unfold bind at 1.
    rewrite (download_one H file r u out w Hr Hu Hd1).
    unfold os_call. cbn [record w_fs w_trace].
    destruct (url_retrieve H u (out ++ after_last_slash u) (w_fs w)) as [[e|] fs1].
    + injection Hspec as <- <- <-.
      exists [Log DEBUG ("ftp_filepath:" ++ u);
              Log DEBUG (rec_accession r ++ " -> " ++ after_last_slash u);
              UrlRetrieve u (out ++ after_last_slash u)].
      split; [|reflexivity]. now rewrite <- !app_assoc.
    + destruct (retrieve_in_order H (expected_retrievals out recs) fs1)
        as [[att res] fs2] eqn:Hrest_spec.
      injection Hspec as <- <- <-.
      destruct (IH Hd {| w_fs := fs1;
                         w_trace := (((w_trace w ++ [Log DEBUG ("ftp_filepath:" ++ u)])
                                      ++ [Log DEBUG (rec_accession r ++ " -> "
                                                     ++ after_last_slash u)])
                                     ++ [UrlRetrieve u (out ++ after_last_slash u)])%list |}
                  att res fs2 Hrest_spec) as [evs [Hrun Hev]].
      exists ([Log DEBUG ("ftp_filepath:" ++ u);
               Log DEBUG (rec_accession r ++ " -> " ++ after_last_slash u);
               UrlRetrieve u (out ++ after_last_slash u)] ++ evs)%list.
      split.
      * rewrite Hrun. cbn [w_fs w_trace]. now rewrite <- !app_assoc.
      * rewrite retrievals_app, Hev. reflexivity.
Qed.

(** Retrievals in order that return up to one that always raises. *)
Lemma retrieve_in_order_stops (before after : list (string * string))
    (u f : string) (e : external_error) (fs : filesystem) :
  (forall u' f' fs', In (u', f') before -> fst (url_retrieve H u' f' fs') = None) ->
  (forall fs', fst (url_retrieve H u f fs') = Some e) ->
  fst (retrieve_in_order H (before ++ (u, f) :: after) fs)
  = ((before ++ [(u, f)])%list, Raise (External e)).
Proof.
  intros Hok Hraise. revert fs.
  induction before as [|[u0 f0] before IH]; intros fs; cbn [app retrieve_in_order].
  - pose proof (Hraise fs) as R.
    destruct (url_retrieve H u f fs) as [[x|] fs1]; cbn [fst] in R; [|discriminate].
    now injection R as ->.
  - pose proof (Hok u0 f0 fs (or_introl eq_refl)) as R.
    destruct (url_retrieve H u0 f0 fs) as [[x|] fs1]; cbn [fst] in R; [discriminate|].
    specialize (IH (fun u' f' fs' Hin => Hok u' f' fs' (or_intror Hin)) fs1).
    destruct (retrieve_in_order H (before ++ (u, f) :: after) fs1) as [[att res] fs2].
    cbn [fst] in *. now injection IH as -> ->.
Qed.

(** C1 (amended). For a list of well-formed records (each has its
    selected location, the URI there has a ['/']),
    [download_files_from_ftp] is the retrievals of the records made in list
    order, each on the file tree the earlier ones left: a retrieval that
    raises ends the loop, it is the last one attempted and what it raised
    leaves the function; so the retrievals attempted are those of the first
    [k] records, and when no retrieval raises the loop ends normally after
    exactly one retrieval per record.  The retrieval of a record is that of
    [publicFileLocations[0].value] when [publicFileLocations[0].name] is
    ["FTP Protocol"] and of [publicFileLocations[1].value] otherwise, to
    [output_folder + filename], the filename being what follows the last
    ['/'] of the URI. *)
Theorem download_files_from_ftp_retrievals
    (files : list json) (recs : list FileRecord) (output_folder : string)
    (w : world) :
  Forall2 (fun j r => as_record j = Some r) files recs ->
  forallb downloadable recs = true ->
  (retrievals (new_events w
     (snd (download_files_from_ftp H (JArr files) output_folder w))),
   fst (download_files_from_ftp H (JArr files) output_folder w),
   w_fs (snd (download_files_from_ftp H (JArr files) output_folder w)))
  = retrieve_in_order H (expected_retrievals output_folder recs) (w_fs w)
  /\ (forall before r after u e,
        recs = (before ++ r :: after)%list ->
        ftp_location r = Some u ->
        (forall u' f' fs, In (u', f') (expected_retrievals output_folder before) ->
                          fst (url_retrieve H u' f' fs) = None) ->
        (forall fs, fst (url_retrieve H u (output_folder ++ after_last_slash u) fs)
                    = Some e) ->
        fst (download_files_from_ftp H (JArr files) output_folder w)
        = Raise (External e)
        /\ retrievals (new_events w
             (snd (download_files_from_ftp H (JArr files) output_folder w)))
           = (expected_retrievals output_folder before
              ++ [(u, (output_folder ++ after_last_slash u)%string)])%list)
  /\ (exists k,
        k <= length files
        /\ retrievals (new_events w
             (snd (download_files_from_ftp H (JArr files) output_folder w)))
           = firstn k (expected_retrievals output_folder recs))
  /\ ((forall u f fs, In (u, f) (expected_retrievals output_folder recs) ->
                      fst (url_retrieve H u f fs) = None) ->
      fst (download_files_from_ftp H (JArr files) output_folder w) = Ok tt
      /\ retrievals (new_events w
           (snd (download_files_from_ftp H (JArr files) output_folder w)))
         = expected_retrievals output_folder recs
      /\ length (retrievals (new_events w
           (snd (download_files_from_ftp H (JArr files) output_folder w))))
         = length files).
Proof.
  intros Hrecs Hd.
  assert (Hexact : (retrievals (new_events w
                      (snd (download_files_from_ftp H (JArr files) output_folder w))),
                    fst (download_files_from_ftp H (JArr files) output_folder w),
                    w_fs (snd (download_files_from_ftp H (JArr files) output_folder w)))
                   = retrieve_in_order H (expected_retrievals output_folder recs)
                       (w_fs w)).
  { destruct (retrieve_in_order H (expected_retrievals output_folder recs) (w_fs w))
      as [[att res] fs'] eqn:Hspec.
    destruct (download_in_order files recs output_folder Hrecs Hd w att res fs' Hspec)
      as [evs [-> Hev]].
    cbn [fst snd w_fs]. erewrite new_events_app; [|reflexivity]. now rewrite Hev. }
  split; [exact Hexact|]. split.
  - intros before r after u e -> Hu Hok Hraise.
    unfold expected_retrievals in Hexact. rewrite flat_map_app in Hexact.
    cbn [flat_map] in Hexact. unfold retrieval_of at 2 in Hexact.
    rewrite Hu in Hexact. cbn [app] in Hexact.
    pose proof (retrieve_in_order_stops
                  (flat_map (retrieval_of output_folder) before)
                  (flat_map (retrieval_of output_folder) after)
                  u (output_folder ++ after_last_slash u) e (w_fs w) Hok Hraise) as S.
    rewrite <- Hexact in S. cbn [fst] in S. injection S as -> ->. now split.
  - destruct (download_files_from_ftp H (JArr files) output_folder w)
      as [res w'] eqn:Hrun.
    destruct (download_loop H files recs output_folder Hrecs Hd w res w' Hrun)
      as [k [evs [Hk [Ht [Hev Hall]]]]].
    cbn [fst snd]. rewrite (new_events_app _ _ _ Ht).
    rewrite (Forall2_length Hrecs). split.
    + now exists k.
    + intros Hok.
      pose proof (download_loop_ok H files recs output_folder Hrecs Hd Hok w) as R.
      rewrite Hrun in R. cbn [fst] in R. subst res.
      rewrite Hev, (Hall eq_refl), firstn_all2.
      * now rewrite expected_retrievals_length.
      * now rewrite expected_retrievals_length.
Qed.

End DownloadRetrievals.

Lemma download_files_from_ftp_retrievals_witness :
  (fst (download_files_from_ftp (serving JNull) (JArr [record_a; record_c])
          "out/" sample_world) = Ok tt
   /\ retrievals (new_events sample_world
        (snd (download_files_from_ftp (serving JNull) (JArr [record_a; record_c])
                "out/" sample_world)))
      = [(archive ++ "a.raw", "out/a.raw"); (archive ++ "c.raw", "out/c.raw")]
   /\ length (retrievals (new_events sample_world
        (snd (download_files_from_ftp (serving JNull) (JArr [record_a; record_c])
                "out/" sample_world))))
      = 2)
  /\ (fst (download_files_from_ftp (unreachable_ftp JNull)
             (JArr [record_a; record_c]) "out/" sample_world)
      = Raise (External {| err_class := "URLError";
                           err_text := "<urlopen error ftp error: timed out>" |})
      /\ retrievals (new_events sample_world
           (snd (download_files_from_ftp (unreachable_ftp JNull)
                   (JArr [record_a; record_c]) "out/" sample_world)))
         = [(archive ++ "a.raw", "out/a.raw")]).
Proof.
  split.
  - refine (proj2 (proj2 (proj2 (download_files_from_ftp_retrievals (serving JNull)
                     [record_a; record_c] [typed_a; typed_c] "out/" sample_world
                     _ _))) _).
    + repeat constructor.
    + reflexivity.
    + intros u f fs _. reflexivity.
  - refine (proj1 (proj2 (download_files_from_ftp_retrievals (unreachable_ftp JNull)
                     [record_a; record_c] [typed_a; typed_c] "out/" sample_world
                     _ _))
              [] typed_a [typed_c] (archive ++ "a.raw") _ eq_refl eq_refl _ _).
    + repeat constructor.
    + reflexivity.
    + intros u f fs [].
    + intros fs. reflexivity.
Defined.

(** C1 as stated fails when a retrieval raises: of two records only the
    first is attempted, and the exception leaves the loop. *)
Lemma download_stops_at_failed_retrieval :
  length [record_a; record_c] = 2
  /\ fst (download_files_from_ftp (unreachable_ftp JNull)
            (JArr [record_a; record_c]) "out/" sample_world)
     = Raise (External {| err_class := "URLError";
                          err_text := "<urlopen error ftp error: timed out>" |})
  /\ retrievals (new_events sample_world
       (snd (download_files_from_ftp (unreachable_ftp JNull)
               (JArr [record_a; record_c]) "out/" sample_world)))
     = [(archive ++ "a.raw", "out/a.raw")].
Proof. repeat split. Qed.

(** ** The copy loop *)

Section Copy.

Variable H : host.

Lemma copy_cons (dir : string) (listing : list string)
    (file : json) (rest : list json) (w : world) :
  copy_from_dir H dir listing (JArr (file :: rest)) w
  = bind (copy_from_dir H dir listing (JArr [file]))
         (fun _ => copy_from_dir H dir listing (JArr rest)) w.
Proof. exact (for_each_cons file rest _ w). Qed.

Lemma copy_nil (dir : string) (listing : list string) (w : world) :
  copy_from_dir H dir listing (JArr []) w = (Ok tt, w).
Proof. reflexivity. Qed.

(** One record: the name comes from location 0; it is copied when the
    listing has it, and reported otherwise. *)
Lemma copy_one (dir : string) (listing : list string)
    (file : json) (r : FileRecord) (u : string) (w : world) :
  as_record file = Some r ->
  first_location r = Some u ->
  has_slash u = true ->
  copy_from_dir H dir listing (JArr [file]) w
  = if py_in (after_last_slash u) listing
    then os_call (Copy2 (dir ++ after_last_slash u)
                        (rec_accession r ++ "-" ++ after_last_slash u))
                 (shutil_copy2 H (dir ++ after_last_slash u)
                               (rec_accession r ++ "-" ++ after_last_slash u)) w
    else (Ok tt, record (Log ERROR (after_last_slash u ++ " not found in " ++ dir)) w).
Proof.
  intros Hr Hu Hs. unfold copy_from_dir.
  unfold bind at 1. unfold lift at 1. cbn [py_iter for_each].
  rewrite bind_unit_ret.
  pose proof (record_location file r 0 Hr) as L0.
  unfold first_location in Hu.
  destruct (rec_locations r) as [|l0 rest]; [discriminate|].
  injection Hu as <-. cbn [nth_error] in L0. destruct L0 as [_ V0].
  unfold bind at 1. unfold lift at 1. rewrite V0.
  unfold bind at 1. unfold lift at 1. cbn [rsplit_method].
  unfold bind at 1. unfold lift at 1. rewrite (py_rsplit_item1 _ Hs).
  destruct (py_in (after_last_slash (loc_value l0)) listing); [|reflexivity].
  unfold bind, lift. rewrite (record_accession file r Hr). cbn [add_str].
  now rewrite append_assoc.
Qed.

Lemma copy_name_first (r : FileRecord) (u : string) :
  first_location r = Some u -> copy_name r = after_last_slash u.
Proof. unfold copy_name. now intros ->. Qed.

(** The loop over well-formed records when no copy raises: one event per
    record, in list order, and a normal end. *)
Lemma copy_loop (dir : string) (listing : list string)
    (files : list json) (recs : list FileRecord) :
  Forall2 (fun j r => as_record j = Some r) files recs ->
  forallb copyable recs = true ->
  (forall r fs, In r recs -> py_in (copy_name r) listing = true ->
     fst (shutil_copy2 H (dir ++ copy_name r)
            (rec_accession r ++ "-" ++ copy_name r) fs) = None) ->
  forall w, exists w',
    copy_from_dir H dir listing (JArr files) w = (Ok tt, w')
    /\ w_trace w' = (w_trace w ++ map (copy_step dir listing) recs)%list.
Proof.
  induction 1 as [|file r files recs Hr Hrest IH]; intros Hc Hok w.
  - exists w. rewrite copy_nil. simpl. now rewrite app_nil_r.
  - simpl in Hc. apply andb_prop in Hc as [Hc1 Hc].
    unfold copyable in Hc1.
    destruct (first_location r) as [u|] eqn:Hu; [|discriminate].
    rewrite copy_cons. unfold bind at 1.
    rewrite (copy_one dir listing file r u w Hr Hu Hc1).
    assert (IH' : forall w1, exists w',
               copy_from_dir H dir listing (JArr files) w1 = (Ok tt, w')
               /\ w_trace w' = (w_trace w1 ++ map (copy_step dir listing) recs)%list).
    { apply IH; [assumption|]. intros r' fs' Hin. apply Hok. now right. }
    cbn [map]. unfold copy_step at 1. rewrite (copy_name_first r u Hu).
    destruct (py_in (after_last_slash u) listing) eqn:Hin.
    + pose proof (os_call_trace
                    (Copy2 (dir ++ after_last_slash u)
                           (rec_accession r ++ "-" ++ after_last_slash u))
                    (shutil_copy2 H (dir ++ after_last_slash u)
                           (rec_accession r ++ "-" ++ after_last_slash u)) w) as T.
      pose proof (os_call_result
                    (Copy2 (dir ++ after_last_slash u)
                           (rec_accession r ++ "-" ++ after_last_slash u))
                    (shutil_copy2 H (dir ++ after_last_slash u)
                           (rec_accession r ++ "-" ++ after_last_slash u)) w) as R.
      pose proof (Hok r (w_fs w) (or_introl eq_refl)) as Hr0.
      rewrite (copy_name_first r u Hu) in Hr0. rewrite (Hr0 Hin) in R.
      destruct (os_call _ _ w) as [[[]|e] w1]; cbn [fst snd] in *; [|discriminate].
      destruct (IH' w1) as [w' [Hrun Ht]]. exists w'. split; [assumption|].
      rewrite Ht, T, <- app_assoc. reflexivity.
    + destruct (IH' (record (Log ERROR (after_last_slash u ++ " not found in " ++ dir)) w))
        as [w' [Hrun Ht]].
      exists w'. split; [assumption|].
      rewrite Ht. unfold record. cbn [w_trace]. now rewrite <- app_assoc.
Qed.

(** The loop over well-formed records, whatever the host does: one event
    per record for the first [k] records, all of them when the loop ends
    normally; what is raised, if anything, is what a copy raised. *)
Lemma copy_loop_any (dir : string) (listing : list string)
    (files : list json) (recs : list FileRecord) :
  Forall2 (fun j r => as_record j = Some r) files recs ->
  forallb copyable recs = true ->
  forall w res w',
    copy_from_dir H dir listing (JArr files) w = (res, w') ->
    exists k,
      k <= length recs
      /\ w_trace w' = (w_trace w ++ map (copy_step dir listing) (firstn k recs))%list
      /\ (res = Ok tt -> k = length recs)
      /\ (forall e, res = Raise e -> exists x, e = External x).
Proof.
  induction 1 as [|file r files recs Hr Hrest IH]; intros Hc w res w' Hrun.
  - rewrite copy_nil in Hrun. injection Hrun as <- <-.
    exists 0. simpl. rewrite app_nil_r. repeat split; trivial. discriminate.
  - simpl in Hc. apply andb_prop in Hc as [Hc1 Hc].
    unfold copyable in Hc1.
    destruct (first_location r) as [u|] eqn:Hu; [|discriminate].
    rewrite copy_cons in Hrun. unfold bind at 1 in Hrun.
    rewrite (copy_one dir listing file r u w Hr Hu Hc1) in Hrun.
    assert (Hstep : copy_step dir listing r
                    = if py_in (after_last_slash u) listing
                      then Copy2 (dir ++ after_last_slash u)
                                 (rec_accession r ++ "-" ++ after_last_slash u)
                      else Log ERROR (after_last_slash u ++ " not found in " ++ dir)).
    { unfold copy_step. now rewrite (copy_name_first r u Hu). }
    destruct (py_in (after_last_slash u) listing) eqn:Hin.
    + pose proof (os_call_trace
                    (Copy2 (dir ++ after_last_slash u)
                           (rec_accession r ++ "-" ++ after_last_slash u))
                    (shutil_copy2 H (dir ++ after_last_slash u)
                           (rec_accession r ++ "-" ++ after_last_slash u)) w) as T.
      pose proof (os_call_result
                    (Copy2 (dir ++ after_last_slash u)
                           (rec_accession r ++ "-" ++ after_last_slash u))
                    (shutil_copy2 H (dir ++ after_last_slash u)
                           (rec_accession r ++ "-" ++ after_last_slash u)) w) as R.
      destruct (os_call _ _ w) as [[[]|e] w1]; cbn [fst snd] in *.
      * destruct (IH Hc w1 res w' Hrun) as [k [Hk [Ht [Hok Hex]]]].
        exists (S k). cbn [firstn map length]. rewrite Hstep. repeat split.
        -- lia.
        -- rewrite Ht, T, <- app_assoc. reflexivity.
        -- intros E. now rewrite (Hok E).
        -- exact Hex.
      * injection Hrun as <- <-. exists 1. cbn [firstn map length]. rewrite Hstep.
        repeat split.
        -- lia.
        -- exact T.
        -- discriminate.
        -- intros e0 [= <-].
           destruct (fst (shutil_copy2 H _ _ (w_fs w))) as [x|]; [|discriminate].
           injection R as ->. now exists x.
    + destruct (IH Hc _ res w' Hrun) as [k [Hk [Ht [Hok Hex]]]].
      exists (S k). cbn [firstn map length]. rewrite Hstep. repeat split.
      * lia.
      * rewrite Ht. unfold record. cbn [w_trace]. now rewrite <- app_assoc.
      * intros E. now rewrite (Hok E).
      * exact Hex.
Qed.

(** The loop over well-formed records is the copies in order: it stops
    at the first copy that raises, with what it raised. *)
Lemma copy_in_order_run (dir : string) (listing : list string)
    (files : list json) (recs : list FileRecord) :
  Forall2 (fun j r => as_record j = Some r) files recs ->
  forallb copyable recs = true ->
  forall w evs outcome fs',
    copy_in_order H dir listing recs (w_fs w) = (evs, outcome, fs') ->
    copy_from_dir H dir listing (JArr files) w
    = (outcome, {| w_fs := fs'; w_trace := (w_trace w ++ evs)%list |}).
Proof.
  induction 1 as [|file r files recs Hr Hrest IH]; intros Hc w evs outcome fs' Hspec.
  - cbn in Hspec. injection Hspec as <- <- <-.
    rewrite copy_nil, app_nil_r. now destruct w.
  - simpl in Hc. apply andb_prop in Hc as [Hc1 Hc].
    unfold copyable in Hc1.
    destruct (first_location r) as [u|] eqn:Hu; [|discriminate].
    cbn [copy_in_order] in Hspec. rewrite (copy_name_first r u Hu) in Hspec.
    rewrite copy_cons. unfold bind at 1.
    rewrite (copy_one dir listing file r u w Hr Hu Hc1).
    destruct (py_in (after_last_slash u) listing).
    + unfold os_call. cbn [record w_fs w_trace].
      destruct (shutil_copy2 H (dir ++ after_last_slash u)
                  (rec_accession r ++ "-" ++ after_last_slash u) (w_fs w))
        as [[e|] fs1].
      * now injection Hspec as <- <- <-.
      * destruct (copy_in_order H dir listing recs fs1) as [[evs1 res1] fs2] eqn:Hrest_spec.
        injection Hspec as <- <- <-.
        rewrite (IH Hc {| w_fs := fs1;
                          w_trace := (w_trace w
                            ++ [Copy2 (dir ++ after_last_slash u)
                                      (rec_accession r ++ "-" ++ after_last_slash u)])%list |}
                   evs1 res1 fs2 Hrest_spec).
        cbn [w_fs w_trace]. now rewrite <- app_assoc.
    + destruct (copy_in_order H dir listing recs (w_fs w)) as [[evs1 res1] fs2] eqn:Hrest_spec.
      injection Hspec as <- <- <-.
      rewrite (IH Hc (record (Log ERROR (after_last_slash u ++ " not found in " ++ dir)) w)
                 evs1 res1 fs2 Hrest_spec).
      unfold record. cbn [w_fs w_trace]. now rewrite <- app_assoc.
Qed.

(** Copies in order that return up to one that always raises. *)
Lemma copy_in_order_stops (dir : string) (listing : list string)
    (before after : list FileRecord) (r : FileRecord) (e : external_error)
    (fs : filesystem) :
  (forall r' fs', In r' before -> py_in (copy_name r') listing = true ->
     fst (shutil_copy2 H (dir ++ copy_name r')
            (rec_accession r' ++ "-" ++ copy_name r') fs') = None) ->
  py_in (copy_name r) listing = true ->
  (forall fs', fst (shutil_copy2 H (dir ++ copy_name r)
                      (rec_accession r ++ "-" ++ copy_name r) fs') = Some e) ->
  fst (copy_in_order H dir listing (before ++ r :: after) fs)
  = ((map (copy_step dir listing) before
      ++ [Copy2 (dir ++ copy_name r) (rec_accession r ++ "-" ++ copy_name r)])%list,
     Raise (External e)).
Proof.
  intros Hok Hin Hraise. revert fs.
  induction before as [|r0 before IH]; intros fs; cbn [app copy_in_order map].
  - rewrite Hin. pose proof (Hraise fs) as R.
    destruct (shutil_copy2 H _ _ fs) as [[x|] fs1]; cbn [fst] in R; [|discriminate].
    now injection R as ->.
  - assert (IH' : forall fs1,
               fst (copy_in_order H dir listing (before ++ r :: after) fs1)
               = ((map (copy_step dir listing) before
                   ++ [Copy2 (dir ++ copy_name r)
                             (rec_accession r ++ "-" ++ copy_name r)])%list,
                  Raise (External e))).
    { apply IH. intros r' fs' Hr'. apply Hok. now right. }
    unfold copy_step at 1.
    destruct (py_in (copy_name r0) listing) eqn:Hin0.
    + pose proof (Hok r0 fs (or_introl eq_refl) Hin0) as R.
      destruct (shutil_copy2 H _ _ fs) as [[x|] fs1]; cbn [fst] in R; [discriminate|].
      specialize (IH' fs1).
      destruct (copy_in_order H dir listing (before ++ r :: after) fs1)
        as [[evs res] fs2].
      cbn [fst] in *. now injection IH' as -> ->.
    + specialize (IH' fs).
      destruct (copy_in_order H dir listing (before ++ r :: after) fs)
        as [[evs res] fs2].
      cbn [fst] in *. now injection IH' as -> ->.
Qed.

(** C3 (amended). [copy_from_dir] is the copies of the records made in
    list order, each on the file tree the earlier ones left: for each record
    handled, the filename is what follows the last ['/'] of the record's
    location value; when the local listing has it, [shutil.copy2] is called
    on [source_dir + filename] and [<accession>-<filename>] (a relative
    name: the working directory); when it has not, the record is reported
    as not found and the loop goes on.  A copy that raises ends the loop: it
    is the last event, the records after it are neither copied nor reported,
    and what it raised leaves the function.  Nothing is raised but what a
    copy raises; when every copy returns, every record is handled and the
    loop ends normally. *)
Theorem copy_from_dir_per_record
    (source_dir : string) (listing : list string)
    (files : list json) (recs : list FileRecord) (w : world) :
  Forall2 (fun j r => as_record j = Some r) files recs ->
  forallb copyable recs = true ->
  (new_events w (snd (copy_from_dir H source_dir listing (JArr files) w)),
   fst (copy_from_dir H source_dir listing (JArr files) w),
   w_fs (snd (copy_from_dir H source_dir listing (JArr files) w)))
  = copy_in_order H source_dir listing recs (w_fs w)
  /\ (forall before r after e,
        recs = (before ++ r :: after)%list ->
        (forall r' fs, In r' before -> py_in (copy_name r') listing = true ->
           fst (shutil_copy2 H (source_dir ++ copy_name r')
                  (rec_accession r' ++ "-" ++ copy_name r') fs) = None) ->
        py_in (copy_name r) listing = true ->
        (forall fs, fst (shutil_copy2 H (source_dir ++ copy_name r)
                           (rec_accession r ++ "-" ++ copy_name r) fs) = Some e) ->
        fst (copy_from_dir H source_dir listing (JArr files) w) = Raise (External e)
        /\ new_events w (snd (copy_from_dir H source_dir listing (JArr files) w))
           = (map (fun r =>
                     if py_in (copy_name r) listing
                     then Copy2 (source_dir ++ copy_name r)
                                (rec_accession r ++ "-" ++ copy_name r)
                     else Log ERROR (copy_name r ++ " not found in " ++ source_dir))
                  before
              ++ [Copy2 (source_dir ++ copy_name r)
                        (rec_accession r ++ "-" ++ copy_name r)])%list)
  /\ (exists k,
      k <= length files
      /\ new_events w (snd (copy_from_dir H source_dir listing (JArr files) w))
         = map (fun r =>
                  if py_in (copy_name r) listing
                  then Copy2 (source_dir ++ copy_name r)
                             (rec_accession r ++ "-" ++ copy_name r)
                  else Log ERROR (copy_name r ++ " not found in " ++ source_dir))
               (firstn k recs)
      /\ (fst (copy_from_dir H source_dir listing (JArr files) w) = Ok tt ->
          k = length files)
      /\ (forall e,
            fst (copy_from_dir H source_dir listing (JArr files) w) = Raise e ->
            exists x, e = External x))
  /\ ((forall r fs, In r recs -> py_in (copy_name r) listing = true ->
         fst (shutil_copy2 H (source_dir ++ copy_name r)
                (rec_accession r ++ "-" ++ copy_name r) fs) = None) ->
      fst (copy_from_dir H source_dir listing (JArr files) w) = Ok tt
      /\ new_events w (snd (copy_from_dir H source_dir listing (JArr files) w))
         = map (fun r =>
                  if py_in (copy_name r) listing
                  then Copy2 (source_dir ++ copy_name r)
                             (rec_accession r ++ "-" ++ copy_name r)
                  else Log ERROR (copy_name r ++ " not found in " ++ source_dir))
               recs).
Proof.
  intros Hrecs Hc.
  assert (Hexact : (new_events w
                      (snd (copy_from_dir H source_dir listing (JArr files) w)),
                    fst (copy_from_dir H source_dir listing (JArr files) w),
                    w_fs (snd (copy_from_dir H source_dir listing (JArr files) w)))
                   = copy_in_order H source_dir listing recs (w_fs w)).
  { destruct (copy_in_order H source_dir listing recs (w_fs w))
      as [[evs res] fs'] eqn:Hspec.
    rewrite (copy_in_order_run source_dir listing files recs Hrecs Hc w evs res fs'
               Hspec).
    cbn [fst snd w_fs]. erewrite new_events_app; reflexivity. }
  split; [exact Hexact|]. split; [|split].
  - intros before r after e -> Hok Hin Hraise.
    pose proof (copy_in_order_stops source_dir listing before after r e (w_fs w)
                  Hok Hin Hraise) as S.
    rewrite <- Hexact in S. cbn [fst] in S. injection S as -> ->. now split.
  - destruct (copy_from_dir H source_dir listing (JArr files) w) as [res w'] eqn:Hrun.
    destruct (copy_loop_any source_dir listing files recs Hrecs Hc w res w' Hrun)
      as [k [Hk [Ht [Hok Hex]]]].
    cbn [fst snd]. rewrite (Forall2_length Hrecs). exists k.
    rewrite (new_events_app _ _ _ Ht). now repeat split.
  - intros Hok.
    destruct (copy_loop source_dir listing files recs Hrecs Hc Hok w)
      as [w' [-> Ht]].
    cbn [fst snd]. split; [reflexivity|]. now apply new_events_app.
Qed.

(** C10. The copy reads [publicFileLocations[0].value] whatever the
    name of that location and whatever follows it: no name is compared and
    location 1 is never read.  So for a record whose location 0 is not the
    ["FTP Protocol"] one, [copy_from_dir] takes the filename from the value
    of location 0, where [download_files_from_ftp] retrieves the value of
    location 1. *)
Theorem copy_reads_location_0_unconditionally
    (source_dir output_folder : string) (listing : list string)
    (file : json) (r : FileRecord) (l0 : Location) (others : list Location)
    (w : world) :
  as_record file = Some r ->
  rec_locations r = l0 :: others ->
  has_slash (loc_value l0) = true ->
  new_events w (snd (copy_from_dir H source_dir listing (JArr [file]) w))
  = [if py_in (after_last_slash (loc_value l0)) listing
     then Copy2 (source_dir ++ after_last_slash (loc_value l0))
                (rec_accession r ++ "-" ++ after_last_slash (loc_value l0))
     else Log ERROR (after_last_slash (loc_value l0) ++ " not found in " ++ source_dir)]
  /\ (forall l1 more,
        others = l1 :: more ->
        String.eqb (loc_name l0) "FTP Protocol" = false ->
        has_slash (loc_value l1) = true ->
        retrievals (new_events w
          (snd (download_files_from_ftp H (JArr [file]) output_folder w)))
        = [(loc_value l1, output_folder ++ after_last_slash (loc_value l1))]).
Proof.
  intros Hr Hlocs Hs0. split.
  - rewrite (copy_one source_dir listing file r (loc_value l0) w Hr); trivial.
    2:{ unfold first_location. now rewrite Hlocs. }
    destruct (py_in (after_last_slash (loc_value l0)) listing).
    + apply new_events_app. apply os_call_trace.
    + apply new_events_record.
  - intros l1 more -> Hname Hs1.
    rewrite (download_one H file r (loc_value l1) output_folder w Hr); trivial.
    2:{ unfold ftp_location. now rewrite Hlocs, Hname. }
    erewrite new_events_app.
    2:{ rewrite os_call_trace. unfold record. cbn [w_trace].
        rewrite <- !app_assoc. reflexivity. }
    reflexivity.
Qed.

End Copy.

Lemma copy_from_dir_per_record_witness :
  (fst (copy_from_dir (serving JNull) "/nfs/pride/2018/10/PXD008644/submitted/"
          ["a.raw"; "b.raw"] (JArr [record_a; record_c]) sample_world) = Ok tt
   /\ new_events sample_world
        (snd (copy_from_dir (serving JNull) "/nfs/pride/2018/10/PXD008644/submitted/"
                ["a.raw"; "b.raw"] (JArr [record_a; record_c]) sample_world))
      = [Copy2 "/nfs/pride/2018/10/PXD008644/submitted/a.raw" "PXD008644-a.raw";
         Log ERROR "c.raw not found in /nfs/pride/2018/10/PXD008644/submitted/"])
  /\ (fst (copy_from_dir (read_only JNull) "/nfs/pride/2018/10/PXD008644/submitted/"
             ["c.raw"] (JArr [record_a; record_c; record_a]) sample_world)
      = Raise (External {| err_class := "PermissionError";
                           err_text := "[Errno 13] Permission denied" |})
      /\ new_events sample_world
           (snd (copy_from_dir (read_only JNull)
                   "/nfs/pride/2018/10/PXD008644/submitted/"
                   ["c.raw"] (JArr [record_a; record_c; record_a]) sample_world))
         = [Log ERROR "a.raw not found in /nfs/pride/2018/10/PXD008644/submitted/";
            Copy2 "/nfs/pride/2018/10/PXD008644/submitted/c.raw" "PXD008644-c.raw"]).
Proof.
  split.
  - refine (proj2 (proj2 (proj2 (copy_from_dir_per_record (serving JNull)
                     "/nfs/pride/2018/10/PXD008644/submitted/" ["a.raw"; "b.raw"]
                     [record_a; record_c] [typed_a; typed_c] sample_world _ _))) _).
    + repeat constructor.
    + reflexivity.
    + intros r fs _ _. reflexivity.
  - refine (proj1 (proj2 (copy_from_dir_per_record (read_only JNull)
                     "/nfs/pride/2018/10/PXD008644/submitted/" ["c.raw"]
                     [record_a; record_c; record_a] [typed_a; typed_c; typed_a]
                     sample_world _ _))
              [typed_a] typed_c [typed_a] _ eq_refl _ eq_refl _).
    + repeat constructor.
    + reflexivity.
    + intros r' fs [<-|[]] Hin. discriminate Hin.
    + intros fs. reflexivity.
Defined.

(** C3 as stated fails when a copy raises: [a.raw] and [c.raw] are both
    in the listing, the copy of [a.raw] is refused, and [c.raw] is neither
    copied nor reported. *)
Lemma copy_stops_at_failed_copy :
  py_in "c.raw" ["a.raw"; "c.raw"] = true
  /\ fst (copy_from_dir (read_only JNull) "/nfs/pride/2018/10/PXD008644/submitted/"
            ["a.raw"; "c.raw"] (JArr [record_a; record_c]) sample_world)
     = Raise (External {| err_class := "PermissionError";
                          err_text := "[Errno 13] Permission denied" |})
  /\ new_events sample_world
       (snd (copy_from_dir (read_only JNull) "/nfs/pride/2018/10/PXD008644/submitted/"
               ["a.raw"; "c.raw"] (JArr [record_a; record_c]) sample_world))
     = [Copy2 "/nfs/pride/2018/10/PXD008644/submitted/a.raw" "PXD008644-a.raw"].
Proof. repeat split. Qed.

Lemma copy_reads_location_0_unconditionally_witness :
  new_events sample_world
    (snd (copy_from_dir (serving JNull) "/nfs/pride/2018/10/PXD008644/submitted/"
            ["c.raw"] (JArr [record_c]) sample_world))
  = [Copy2 "/nfs/pride/2018/10/PXD008644/submitted/c.raw" "PXD008644-c.raw"]
  /\ retrievals (new_events sample_world
       (snd (download_files_from_ftp (serving JNull) (JArr [record_c]) "out/"
               sample_world)))
     = [(archive ++ "c.raw", "out/c.raw")].
Proof.
  pose proof (copy_reads_location_0_unconditionally (serving JNull)
                "/nfs/pride/2018/10/PXD008644/submitted/" "out/" ["c.raw"]
                record_c typed_c
                {| loc_name := "Aspera Protocol"; loc_value := aspera ++ "c.raw" |}
                [{| loc_name := "FTP Protocol"; loc_value := archive ++ "c.raw" |}]
                sample_world eq_refl eq_refl eq_refl) as [Hcopy Hdownload].
  split.
  - exact Hcopy.
  - exact (Hdownload _ [] eq_refl eq_refl eq_refl).
Defined.

(** ** The output directory *)

Section EnsureDirectory.

Variable H : host.

Ltac only_steps :=
  repeat first
    [ apply only_ret | apply only_raise | apply only_lift
    | apply only_emit; reflexivity
    | apply only_os_call; reflexivity
    | apply only_get_all_raw_file_list; reflexivity
    | apply only_get_file_from_api; reflexivity
    | apply only_for_each; intros ?
    | apply only_bind; [|intros ?]
    | match goal with |- only _ (if ?b then _ else _) => destruct b end ].

Lemma download_makes_no_directory (j : json) (output_folder : string) :
  only not_mkdir (download_files_from_ftp H j output_folder).
Proof. unfold download_files_from_ftp, logging_debug. only_steps. Qed.

Lemma bind_isdir {A : Type} (p : string) (k : bool -> M A) (w : world) :
  bind (os_path_isdir p) k w = k (isdir (w_fs w) p) w.
Proof. reflexivity. Qed.

Lemma bind_ret_tt {A : Type} (k : unit -> M A) (w : world) :
  bind (ret tt) k w = k tt w.
Proof. reflexivity. Qed.

(** C8. When the output directory exists, [download_raw_files_from_ftp]
    and [download_file_from_ftp_by_name] go straight to the request: no
    [os.mkdir] is attempted at any point of the run, so the step that
    ensures the directory cannot raise. *)
Theorem existing_output_directory_is_kept
    (accession file_name output_folder : string) (w : world) :
  isdir (w_fs w) output_folder = true ->
  (download_raw_files_from_ftp H accession output_folder w
   = bind (get_all_raw_file_list H accession)
          (fun response_body =>
             download_files_from_ftp H response_body output_folder) w
   /\ mkdirs (new_events w
        (snd (download_raw_files_from_ftp H accession output_folder w))) = [])
  /\ (download_file_from_ftp_by_name H accession file_name output_folder w
      = bind (get_file_from_api H accession file_name)
             (fun response =>
                download_files_from_ftp H response output_folder) w
      /\ mkdirs (new_events w
           (snd (download_file_from_ftp_by_name H accession file_name
                   output_folder w))) = []).
Proof.
  intros Hdir.
  assert (E1 : download_raw_files_from_ftp H accession output_folder w
               = bind (get_all_raw_file_list H accession)
                      (fun response_body =>
                         download_files_from_ftp H response_body output_folder) w).
  { unfold download_raw_files_from_ftp. rewrite bind_isdir, Hdir.
    cbn [negb]. now rewrite bind_ret_tt. }
  assert (E2 : download_file_from_ftp_by_name H accession file_name output_folder w
               = bind (get_file_from_api H accession file_name)
                      (fun response =>
                         download_files_from_ftp H response output_folder) w).
  { unfold download_file_from_ftp_by_name. rewrite bind_isdir, Hdir.
    cbn [negb]. now rewrite bind_ret_tt. }
  split; (split; [assumption|]).
  - rewrite E1. apply forallb_not_mkdir, only_new_events.
    apply only_bind; [apply only_get_all_raw_file_list; reflexivity|].
    intros body. apply download_makes_no_directory.
  - rewrite E2. apply forallb_not_mkdir, only_new_events.
    apply only_bind; [apply only_get_file_from_api; reflexivity|].
    intros body. apply download_makes_no_directory.
Qed.

End EnsureDirectory.

Lemma existing_output_directory_is_kept_witness :
  (download_raw_files_from_ftp (serving (JArr [record_a; record_c]))
     "PXD008644" "/out/" sample_world
   = bind (get_all_raw_file_list (serving (JArr [record_a; record_c])) "PXD008644")
          (fun response_body =>
             download_files_from_ftp (serving (JArr [record_a; record_c]))
               response_body "/out/") sample_world
   /\ mkdirs (new_events sample_world
        (snd (download_raw_files_from_ftp (serving (JArr [record_a; record_c]))
                "PXD008644" "/out/" sample_world))) = [])
  /\ (download_file_from_ftp_by_name (serving (JArr [record_a; record_c]))
        "PXD008644" "a.raw" "/out/" sample_world
      = bind (get_file_from_api (serving (JArr [record_a; record_c]))
                "PXD008644" "a.raw")
             (fun response =>
                download_files_from_ftp (serving (JArr [record_a; record_c]))
                  response "/out/") sample_world
      /\ mkdirs (new_events sample_world
           (snd (download_file_from_ftp_by_name (serving (JArr [record_a; record_c]))
                   "PXD008644" "a.raw" "/out/" sample_world))) = []).
Proof.
  apply (existing_output_directory_is_kept (serving (JArr [record_a; record_c]))
           "PXD008644" "a.raw" "/out/" sample_world).
  reflexivity.
Defined.

(** ** The pattern of the path fragment *)

Lemma match_classes_split (cs : list (ascii -> bool)) (s h r : string) :
  match_classes cs s = Some (h, r) ->
  s = h ++ r /\ String.length h = length cs.
Proof.
  revert s h r; induction cs as [|c cs IH]; intros s h r; simpl.
  - now intros [= <- <-].
  - destruct s as [|a s]; [discriminate|]. destruct (c a); [|discriminate].
    destruct (match_classes cs s) as [[h' t]|] eqn:E; [|discriminate].
    intros [= <- <-]. destruct (IH _ _ _ E) as [-> L]. simpl. now rewrite L.
Qed.

(** Only the head of the string decides. *)
Lemma match_classes_head (cs : list (ascii -> bool)) (s h r x : string) :
  match_classes cs s = Some (h, r) -> match_classes cs (h ++ x) = Some (h, x).
Proof.
  revert s h r; induction cs as [|c cs IH]; intros s h r; simpl.
  - now intros [= <- <-].
  - destruct s as [|a s]; [discriminate|]. destruct (c a) eqn:Ca; [|discriminate].
    destruct (match_classes cs s) as [[h' t]|] eqn:E; [|discriminate].
    intros [= <- <-]. simpl. now rewrite Ca, (IH _ _ _ E).
Qed.

Lemma take_digits_all (s : string) : all_digits (take_digits s) = true.
Proof.
  induction s as [|c s IH]; simpl; [reflexivity|].
  destruct (is_digit c) eqn:D; simpl; [now rewrite D|reflexivity].
Qed.

Lemma take_digits_prefix (s : string) : exists rest, s = take_digits s ++ rest.
Proof.
  induction s as [|c s [rest IH]]; simpl; [now exists ""|].
  destruct (is_digit c).
  - exists rest. simpl. now rewrite <- IH.
  - now exists (String c s).
Qed.

Lemma take_digits_append (d x : string) :
  all_digits d = true -> take_digits (d ++ x) = d ++ take_digits x.
Proof.
  induction d as [|c d IH]; simpl; [reflexivity|].
  intros E. apply andb_prop in E as [-> E]. now rewrite IH.
Qed.

(** A string of the shape, followed by anything: the match at its start is
    the string and the digits that follow it. *)
Lemma match_here_fragment (m post : string) :
  is_path_fragment m = true ->
  match_here (m ++ post) = Some (m ++ take_digits post).
Proof.
  unfold is_path_fragment, match_here. intros F.
  destruct (match_classes fragment_head m) as [[h r]|] eqn:E; [|discriminate].
  destruct (match_classes_split _ _ _ _ E) as [-> _].
  rewrite append_assoc, (match_classes_head _ _ _ _ (r ++ post) E).
  now rewrite (take_digits_append _ _ F), append_assoc.
Qed.

Lemma match_here_sound (s m : string) :
  match_here s = Some m ->
  is_path_fragment m = true /\ exists post, s = m ++ post.
Proof.
  unfold match_here, is_path_fragment.
  destruct (match_classes fragment_head s) as [[h r]|] eqn:E; [|discriminate].
  intros [= <-]. rewrite (match_classes_head _ _ _ _ (take_digits r) E).
  split; [apply take_digits_all|].
  destruct (match_classes_split _ _ _ _ E) as [-> _].
  destruct (take_digits_prefix r) as [rest Hr]. exists rest.
  now rewrite append_assoc, <- Hr.
Qed.

Lemma re_search_here (s m : string) : match_here s = Some m -> re_search s = Some m.
Proof.
  intros E. destruct s as [|c s]; [discriminate|].
  cbn [re_search]. now rewrite E.
Qed.

Lemma re_search_skip (c : ascii) (s : string) :
  match_here (String c s) = None -> re_search (String c s) = re_search s.
Proof. intros E. cbn [re_search]. now rewrite E. Qed.

(** What [re_search] returns sits in [s] where no earlier position has a
    match. *)
Lemma re_search_sound (s m : string) :
  re_search s = Some m ->
  exists pre post,
    s = pre ++ m ++ post
    /\ match_here (m ++ post) = Some m
    /\ forall pre' rest, s = pre' ++ rest ->
         String.length pre' < String.length pre -> match_here rest = None.
Proof.
  induction s as [|c s IH].
  - discriminate.
  - destruct (match_here (String c s)) as [m0|] eqn:E.
    + rewrite (re_search_here _ _ E). intros [= ->].
      destruct (match_here_sound _ _ E) as [_ [post Hp]].
      exists "", post. simpl. rewrite <- Hp. repeat split; trivial.
      intros pre' rest _ L. simpl in L. lia.
    + rewrite (re_search_skip _ _ E). intros R.
      destruct (IH R) as [pre [post [Hs [Hm Hleft]]]].
      exists (String c pre), post. simpl. rewrite <- Hs. repeat split; trivial.
      intros [|c' pre'] rest Hsplit L; simpl in *.
      * now subst rest.
      * injection Hsplit as <- Hsplit. apply (Hleft pre' rest Hsplit). lia.
Qed.

Lemma re_search_complete (pre rest m : string) :
  match_here rest = Some m -> exists m', re_search (pre ++ rest) = Some m'.
Proof.
  intros E. induction pre as [|c pre IH]; simpl append.
  - exists m. now apply re_search_here.
  - destruct (match_here (String c (pre ++ rest))) as [m0|] eqn:E0.
    + exists m0. now apply re_search_here.
    + now rewrite (re_search_skip _ _ E0).
Qed.

Lemma re_search_first (s m : string) : re_search s = Some m -> first_fragment s m.
Proof.
  intros R. destruct (re_search_sound s m R) as [pre [post [Hs [Hm Hleft]]]].
  exists pre, post. split; [assumption|]. split.
  - now destruct (match_here_sound _ _ Hm).
  - intros pre' m' post' Hs' F'.
    destruct (Nat.lt_trichotomy (String.length pre) (String.length pre'))
      as [Lt | [Eq | Gt]].
    + now left.
    + right. split; [assumption|].
      rewrite Hs in Hs'. destruct (append_inv_length _ _ _ _ Hs' Eq) as [_ E].
      pose proof (match_here_fragment m' post' F') as M'.
      rewrite <- E, Hm in M'. injection M' as ->.
      rewrite length_append. lia.
    + exfalso. pose proof (Hleft pre' (m' ++ post') Hs' Gt) as N.
      now rewrite (match_here_fragment m' post' F') in N.
Qed.

Lemma first_fragment_found (s m : string) : first_fragment s m -> re_search s = Some m.
Proof.
  intros [pre [post [Hs [F Hfirst]]]].
  destruct (re_search_complete pre (m ++ post) _ (match_here_fragment m post F))
    as [m' R].
  rewrite <- Hs in R. rewrite R. f_equal.
  destruct (re_search_sound s m' R) as [pre' [post' [Hs' [Hm' Hleft]]]].
  destruct (match_here_sound _ _ Hm') as [F' _].
  assert (Lpre : String.length pre = String.length pre').
  { destruct (Hfirst pre' m' post' Hs' F') as [Lt | [Eq _]]; [|assumption].
    exfalso. pose proof (Hleft pre (m ++ post) Hs Lt) as N.
    now rewrite (match_here_fragment m post F) in N. }
  rewrite Hs in Hs'. destruct (append_inv_length _ _ _ _ Hs' Lpre) as [_ E].
  pose proof (match_here_fragment m post F) as M. rewrite E, Hm' in M.
  injection M as M.
  destruct (Hfirst pre' m' post') as [Lt | [_ Le]]; trivial.
  { now rewrite Hs. }
  { lia. }
  assert (Lpost : String.length (take_digits post) = 0).
  { apply (f_equal String.length) in M. rewrite length_append in M. lia. }
  destruct (take_digits post); [|discriminate]. now rewrite append_empty_r in M.
Qed.

Lemma re_search_none (s : string) : re_search s = None <-> no_fragment s.
Proof.
  split.
  - intros N pre m post Hs. destruct (is_path_fragment m) eqn:F; [|reflexivity].
    destruct (re_search_complete pre (m ++ post) _ (match_here_fragment m post F))
      as [m' R].
    rewrite <- Hs, N in R. discriminate.
  - intros N. destruct (re_search s) as [m|] eqn:R; [|reflexivity].
    destruct (re_search_first s m R) as [pre [post [Hs [F _]]]].
    now rewrite (N pre m post Hs) in F.
Qed.

(** The characters of a path fragment: none is one of glob's. *)
Lemma digit_not_magic (a : ascii) : is_digit a = true -> magic_char a = false.
Proof.
  destruct a as [[|] [|] [|] [|] [|] [|] [|] [|]]; intros E;
    solve [reflexivity | discriminate E].
Qed.

Lemma all_digits_no_magic (s : string) : all_digits s = true -> has_magic s = false.
Proof.
  induction s as [|c s IH]; simpl; [reflexivity|]. intros E.
  apply andb_prop in E as [Dc E]. now rewrite (digit_not_magic c Dc), (IH E).
Qed.

Lemma has_magic_append (a b : string) :
  has_magic (a ++ b) = has_magic a || has_magic b.
Proof.
  induction a as [|x a IH]; simpl; [reflexivity|].
  now rewrite IH, orb_assoc.
Qed.

Lemma match_classes_no_magic (cs : list (ascii -> bool)) (s h r : string) :
  Forall (fun c : ascii -> bool => forall a, c a = true -> magic_char a = false) cs ->
  match_classes cs s = Some (h, r) -> has_magic h = false.
Proof.
  revert s h r; induction cs as [|c cs IH]; intros s h r Hcs; simpl.
  - now intros [= <- <-].
  - destruct s as [|a s]; [discriminate|]. destruct (c a) eqn:Ca; [|discriminate].
    destruct (match_classes cs s) as [[h' t]|] eqn:E; [|discriminate].
    intros [= <- <-]. inversion Hcs as [|? ? Hc Hrest]; subst. simpl.
    now rewrite (IH _ _ _ Hrest E), (Hc a Ca).
Qed.

Lemma fragment_head_no_magic :
  Forall (fun c : ascii -> bool => forall a, c a = true -> magic_char a = false)
         fragment_head.
Proof.
  assert (Eq : forall k a, magic_char k = false -> Ascii.eqb k a = true ->
                           magic_char a = false).
  { intros k a Hk Ha. apply Ascii.eqb_eq in Ha. now subst. }
  unfold fragment_head, is_slash.
  repeat constructor; try exact digit_not_magic;
    intros a Ha; first [ now apply (Eq _ _ eq_refl Ha) | idtac ];
    apply Ascii.eqb_eq in Ha; now subst.
Qed.

Lemma fragment_no_magic (m : string) : is_path_fragment m = true -> has_magic m = false.
Proof.
  unfold is_path_fragment. intros F.
  destruct (match_classes fragment_head m) as [[h r]|] eqn:E; [|discriminate].
  destruct (match_classes_split _ _ _ _ E) as [-> _].
  rewrite has_magic_append, (all_digits_no_magic r F).
  now rewrite (match_classes_no_magic _ _ _ _ fragment_head_no_magic E).
Qed.

(** ** The path fragment *)

Section PathFragment.

Variable H : host.

Lemma path_prefix_run (accession : string) (results : json) (w : world) :
  api_json H (raw_files_url accession) accept_json = inr results ->
  get_submitted_file_path_prefix H accession w
  = (rbind (rbind results.[0].$["publicFileLocations"].[0].$["value"] re_search_value)
           group,
     record (Get (raw_files_url accession) accept_json) w).
Proof.
  intros Hb. unfold get_submitted_file_path_prefix.
  unfold bind at 1. rewrite get_all_raw_file_list_run, Hb.
  unfold bind, lift, ret.
  destruct (results.[0].$["publicFileLocations"].[0].$["value"]) as [v|e];
    [|reflexivity].
  cbn [rbind]. destruct (re_search_value v) as [m|e]; [|reflexivity].
  cbn [rbind]. now destruct (group m).
Qed.

Lemma first_value (first : json) (rest : list json) (r : FileRecord)
    (l0 : Location) (more : list Location) :
  as_record first = Some r ->
  rec_locations r = l0 :: more ->
  (JArr (first :: rest)).[0].$["publicFileLocations"].[0].$["value"]
  = Ok (JStr (loc_value l0)).
Proof.
  intros Hr Hl. pose proof (record_location first r 0 Hr) as L.
  rewrite Hl in L. cbn [nth_error] in L. now destruct L as [_ V].
Qed.

Lemma path_prefix_found
    (accession : string) (results : json) (first_file m : string) (w : world) :
  api_json H (raw_files_url accession) accept_json = inr results ->
  results.[0].$["publicFileLocations"].[0].$["value"] = Ok (JStr first_file) ->
  first_fragment first_file m ->
  get_submitted_file_path_prefix H accession w
  = (Ok m, record (Get (raw_files_url accession) accept_json) w).
Proof.
  intros Hb Hv Hm. rewrite (path_prefix_run accession _ w Hb), Hv.
  cbn [rbind re_search_value]. now rewrite (first_fragment_found _ _ Hm).
Qed.

(** C2. When [results[0]['publicFileLocations'][0]['value']] is the
    string [first_file], [get_submitted_file_path_prefix] returns the first
    substring of [first_file] that has the shape: four digits, ['/'], two
    digits, ['/'], [PXD] and digits (none starts further left, and it takes
    all the digits that follow); for the URI of the docstring's kind,
    [ftp://host/pride/data/archive/2018/10/PXD008644/7550GI_Y.raw], that is
    [2018/10/PXD008644]. *)
Theorem path_prefix_is_first_fragment
    (accession : string) (results : json) (first_file : string) (w : world) :
  api_json H (raw_files_url accession) accept_json = inr results ->
  results.[0].$["publicFileLocations"].[0].$["value"] = Ok (JStr first_file) ->
  (forall m, first_fragment first_file m ->
             fst (get_submitted_file_path_prefix H accession w) = Ok m)
  /\ (first_file = "ftp://host/pride/data/archive/2018/10/PXD008644/7550GI_Y.raw" ->
      fst (get_submitted_file_path_prefix H accession w) = Ok "2018/10/PXD008644").
Proof.
  intros Hb Hv. split.
  - intros m Hm. now rewrite (path_prefix_found accession results first_file m w Hb Hv Hm).
  - intros E.
    rewrite (path_prefix_found accession results first_file "2018/10/PXD008644" w Hb Hv);
      [reflexivity|].
    subst first_file. apply re_search_first. reflexivity.
Qed.

(** C5. [get_submitted_file_path_prefix] raises, with no handler on
    the way: an [IndexError] when the list of raw files is empty, an
    [AttributeError] (the [group] of no match) when the value of the first
    location of the first record has no substring of the shape. *)
Theorem path_prefix_failures (accession : string) (results : json) (w : world) :
  api_json H (raw_files_url accession) accept_json = inr results ->
  (results = JArr [] ->
   fst (get_submitted_file_path_prefix H accession w) = Raise IndexError)
  /\ (forall first_file,
        results.[0].$["publicFileLocations"].[0].$["value"] = Ok (JStr first_file) ->
        no_fragment first_file ->
        fst (get_submitted_file_path_prefix H accession w) = Raise AttributeError).
Proof.
  intros Hb. rewrite (path_prefix_run accession _ w Hb). cbn [fst]. split.
  - now intros ->.
  - intros first_file -> Hn.
    cbn [rbind re_search_value]. apply re_search_none in Hn. now rewrite Hn.
Qed.

End PathFragment.

Lemma path_prefix_is_first_fragment_witness :
  fst (get_submitted_file_path_prefix (serving (JArr [record_7550]))
         "PXD008644" sample_world)
  = Ok "2018/10/PXD008644".
Proof.
  apply (proj2 (path_prefix_is_first_fragment (serving (JArr [record_7550]))
                  "PXD008644" (JArr [record_7550])
                  "ftp://host/pride/data/archive/2018/10/PXD008644/7550GI_Y.raw"
                  sample_world eq_refl eq_refl)).
  reflexivity.
Defined.

Lemma path_prefix_failures_witness :
  fst (get_submitted_file_path_prefix (serving (JArr [])) "PXD008644" sample_world)
  = Raise IndexError
  /\ fst (get_submitted_file_path_prefix (serving (JArr [record_elsewhere]))
            "PXD008644" sample_world)
     = Raise AttributeError.
Proof.
  split.
  - apply (proj1 (path_prefix_failures (serving (JArr [])) "PXD008644" (JArr [])
                    sample_world eq_refl)).
    reflexivity.
  - apply (proj2 (path_prefix_failures (serving (JArr [record_elsewhere]))
                    "PXD008644" (JArr [record_elsewhere]) sample_world eq_refl)
             "ftp://host/pub/incoming/x.raw" eq_refl).
    apply re_search_none. reflexivity.
Defined.

(** ** Paths *)

Lemma split_slash_cons (s : string) : exists h t, split_slash s = h :: t.
Proof.
  induction s as [|c s [h [t IH]]]; simpl.
  - now exists "", [].
  - destruct (is_slash c); [now eexists _, _|]. rewrite IH. now eexists _, _.
Qed.

Lemma split_slash_append (x y : string) :
  split_slash (x ++ "/" ++ y) = (split_slash x ++ split_slash y)%list.
Proof.
  induction x as [|c x IH]; simpl; [reflexivity|].
  simpl in IH. rewrite IH.
  destruct (is_slash c); [reflexivity|].
  destruct (split_slash_cons x) as [h [t ->]]. reflexivity.
Qed.

Lemma split_slash_plain (y : string) : has_slash y = false -> split_slash y = [y].
Proof.
  induction y as [|c y IH]; simpl; [reflexivity|]. intros E.
  apply orb_false_elim in E as [-> E]. now rewrite (IH E).
Qed.

Lemma walk_app (a b : list string) (up : list node) (cur : node) :
  walk up cur (a ++ b)
  = match walk up cur a with
    | Some (up', cur') => walk up' cur' b
    | None => None
    end.
Proof.
  revert up cur; induction a as [|c a IH]; intros up cur; simpl; [reflexivity|].
  destruct cur as [d|es]; [reflexivity|].
  destruct (String.eqb c "" || String.eqb c "."); [apply IH|].
  destruct (String.eqb c "..").
  - destruct up; apply IH.
  - destruct (lookup c es); [apply IH | reflexivity].
Qed.

Lemma startswith_slash_append (x y : string) :
  truthy x = true -> startswith_slash (x ++ y) = startswith_slash x.
Proof. now destruct x. Qed.

Lemma truthy_append (x y : string) : truthy x = true -> truthy (x ++ y) = true.
Proof. now destruct x. Qed.

Lemma eqb_empty_truthy (x : string) : truthy x = true -> String.eqb x "" = false.
Proof. now destruct x. Qed.

(** A trailing ['/'] asks for a directory and changes nothing else. *)
Lemma resolve_trailing_slash (fs : filesystem) (x : string) :
  truthy x = true ->
  resolve fs (x ++ "/")
  = match resolve fs x with
    | Some (Dir es) => Some (Dir es)
    | _ => None
    end.
Proof.
  intros Hx. unfold resolve.
  rewrite (eqb_empty_truthy _ Hx), (eqb_empty_truthy _ (truthy_append x "/" Hx)).
  rewrite (startswith_slash_append x "/" Hx).
  replace (x ++ "/") with (x ++ "/" ++ "") by reflexivity.
  rewrite split_slash_append, app_assoc, walk_app. cbn [split_slash].
  destruct (walk [] (fs_root fs) _) as [[up [d|es]]|]; reflexivity.
Qed.

Lemma dir_at_trailing_slash (fs : filesystem) (x : string) :
  truthy x = true -> dir_at fs (x ++ "/") = dir_at fs x.
Proof.
  intros Hx. unfold dir_at. rewrite (resolve_trailing_slash fs x Hx).
  now destruct (resolve fs x) as [[d|es]|].
Qed.

Lemma dir_at_trailing_slashes (fs : filesystem) (t x : string) :
  all_slashes t = true -> truthy x = true -> dir_at fs (x ++ t) = dir_at fs x.
Proof.
  revert x; induction t as [|c t IH]; intros x Ht Hx; simpl in Ht.
  - now rewrite append_empty_r.
  - apply andb_prop in Ht as [Hc Ht]. unfold is_slash in Hc.
    apply Ascii.eqb_eq in Hc. subst c.
    replace (x ++ String "/" t) with ((x ++ "/") ++ t)
      by now rewrite append_assoc.
    rewrite (IH (x ++ "/") Ht (truthy_append x "/" Hx)).
    now apply dir_at_trailing_slash.
Qed.

(** [rstrip_slash] takes a run of ['/'] off the end. *)
Lemma rstrip_slash_spec (p : string) :
  exists t, p = rstrip_slash p ++ t /\ all_slashes t = true.
Proof.
  induction p as [|c p [t [Hp Ht]]]; simpl; [now exists ""|].
  destruct (rstrip_slash p) as [|c' r'] eqn:R.
  - destruct (is_slash c) eqn:C.
    + exists (String c p). split; [reflexivity|]. simpl. rewrite C.
      simpl in Hp. now rewrite Hp.
    + exists t. split; [|assumption]. simpl. simpl in Hp. now rewrite <- Hp.
  - exists t. split; [|assumption]. simpl. now rewrite Hp at 1.
Qed.

Lemma all_slashes_append (a b : string) :
  all_slashes (a ++ b) = all_slashes a && all_slashes b.
Proof.
  induction a as [|c a IH]; simpl; [reflexivity|].
  now rewrite IH, andb_assoc.
Qed.

Lemma rstrip_slash_truthy (p : string) :
  all_slashes p = false -> truthy (rstrip_slash p) = true.
Proof.
  intros Hp. destruct (rstrip_slash_spec p) as [t [E Ht]].
  destruct (rstrip_slash p); [|reflexivity].
  simpl in E. rewrite E, Ht in Hp. discriminate.
Qed.

Lemma dir_at_rstrip (fs : filesystem) (p : string) :
  all_slashes p = false -> dir_at fs (rstrip_slash p) = dir_at fs p.
Proof.
  intros Hp. destruct (rstrip_slash_spec p) as [t [E Ht]].
  rewrite E at 2. symmetry.
  apply dir_at_trailing_slashes; [assumption | now apply rstrip_slash_truthy].
Qed.

Lemma has_magic_rstrip (p : string) : has_magic p = false -> has_magic (rstrip_slash p) = false.
Proof.
  intros Hp. destruct (rstrip_slash_spec p) as [t [E _]].
  rewrite E, has_magic_append in Hp. now apply orb_false_elim in Hp as [-> _].
Qed.

Lemma endswith_slash_spec (p : string) :
  endswith_slash p = true -> exists x, p = x ++ "/".
Proof.
  induction p as [|c p IH]; simpl; [discriminate|].
  destruct p as [|c' p'].
  - unfold is_slash. intros E. apply Ascii.eqb_eq in E. subst. now exists "".
  - intros E. destruct (IH E) as [x ->]. now exists (String c x).
Qed.

Lemma endswith_slash_append (x : string) : endswith_slash (x ++ "/") = true.
Proof.
  induction x as [|c x IH]; [reflexivity|].
  simpl. destruct (x ++ "/") eqn:E; [now destruct x | assumption].
Qed.

Lemma truthy_endswith (p : string) : endswith_slash p = true -> truthy p = true.
Proof. now destruct p. Qed.

(** [os.path.split] of a directory prefix followed by a name. *)
Lemma path_split_in_directory (location name : string) :
  endswith_slash location = true ->
  has_slash name = false ->
  path_split (location ++ name)
  = (if all_slashes location then location else rstrip_slash location, name).
Proof.
  intros Hl Hn. pose proof (truthy_endswith _ Hl) as Ht.
  destruct (endswith_slash_spec _ Hl) as [x ->].
  unfold path_split. rewrite append_assoc, (rsplit1_append x name Hn), Ht.
  now destruct (all_slashes (x ++ "/")).
Qed.

(** The directory part [glob] works on is the directory of [location]. *)
Lemma dirname_in_directory (fs : filesystem) (location : string) :
  endswith_slash location = true ->
  has_magic location = false ->
  truthy (if all_slashes location then location else rstrip_slash location) = true
  /\ has_magic (if all_slashes location then location else rstrip_slash location)
     = false
  /\ dir_at fs (if all_slashes location then location else rstrip_slash location)
     = dir_at fs location.
Proof.
  intros Hl Hm. destruct (all_slashes location) eqn:A.
  - repeat split; trivial. now apply truthy_endswith.
  - repeat split.
    + now apply rstrip_slash_truthy.
    + now apply has_magic_rstrip.
    + now apply dir_at_rstrip.
Qed.

Lemma startswith_no_slash (n : string) : has_slash n = false -> startswith_slash n = false.
Proof. destruct n as [|c n]; simpl; [reflexivity|]. intros E. now apply orb_false_elim in E. Qed.

(** The name after the last ['/'] of a joined path is the name joined. *)
Lemma basename_path_join (d n : string) :
  truthy d = true -> has_slash n = false ->
  list_item (py_rsplit (path_join d n)) 1 = Ok n.
Proof.
  intros Hd Hn. unfold path_join, py_rsplit.
  rewrite (startswith_no_slash n Hn), Hd. cbn [negb orb].
  destruct (endswith_slash d) eqn:E.
  - destruct (endswith_slash_spec _ E) as [x ->].
    now rewrite append_assoc, (rsplit1_append x n Hn).
  - now rewrite (rsplit1_append d n Hn).
Qed.

Lemma filter_all {A : Type} (f : A -> bool) (xs : list A) :
  (forall x, f x = true) -> filter f xs = xs.
Proof.
  intros Hf. induction xs as [|x xs IH]; simpl; [reflexivity|].
  now rewrite Hf, IH.
Qed.

Lemma filter_filter {A : Type} (f g : A -> bool) (xs : list A) :
  filter f (filter g xs) = filter (fun x => f x && g x) xs.
Proof.
  induction xs as [|x xs IH]; simpl; [reflexivity|].
  destruct (g x); simpl.
  - rewrite andb_true_r. destruct (f x); now rewrite IH.
  - now rewrite andb_false_r.
Qed.

Lemma iterdir_dir_at (fs : filesystem) (d : string) :
  truthy d = true ->
  iterdir fs d false
  = match dir_at fs d with
    | Some es => map fst es
    | None => []
    end.
Proof.
  intros Hd. unfold iterdir, dir_at. rewrite (eqb_empty_truthy d Hd).
  destruct (resolve fs d) as [[x|es]|]; trivial.
  now rewrite filter_all.
Qed.

Section GlobInDirectory.

Variable H : host.
Variable fs : filesystem.
Variables location regex : string.
Hypothesis location_ends : endswith_slash location = true.
Hypothesis location_plain : has_magic location = false.
Hypothesis regex_no_slash : has_slash regex = false.

Lemma dirname_names : iterdir fs (glob_dirname location) false = dir_names fs location.
Proof.
  destruct (dirname_in_directory fs location location_ends location_plain)
    as [Ht [_ Hd]].
  unfold dir_names, glob_dirname.
  rewrite (iterdir_dir_at fs _ Ht), Hd.
  now rewrite (iterdir_dir_at fs _ (truthy_endswith _ location_ends)).
Qed.

(** A pattern with a wildcard: the entries of the directory that match. *)
Lemma glob_wildcard :
  has_magic regex = true ->
  glob (fnmatchcase H) fs (location ++ regex)
  = map (path_join (glob_dirname location))
        (filter (glob_match H regex) (dir_names fs location)).
Proof.
  intros Hr.
  destruct (dirname_in_directory fs location location_ends location_plain)
    as [Ht [Hm _]].
  fold (glob_dirname location) in Ht, Hm.
  unfold glob. cbn [iglob].
  rewrite (path_split_in_directory location regex location_ends regex_no_slash).
  fold (glob_dirname location).
  rewrite has_magic_append, Hr, orb_true_r. cbn [negb].
  rewrite Ht, Hm, andb_false_r. cbn [negb flat_map].
  rewrite app_nil_r. f_equal.
  unfold glob1. rewrite dirname_names.
  destruct (ishidden regex) eqn:Hh; cbn [negb].
  - apply filter_ext. intros n. unfold glob_match. now rewrite Hh, andb_true_r.
  - rewrite filter_filter. apply filter_ext. intros n. unfold glob_match.
    now rewrite Hh.
Qed.

Lemma valid_name_parts (n : string) :
  valid_name n = true ->
  truthy n = true /\ has_slash n = false
  /\ String.eqb n "." = false /\ String.eqb n ".." = false.
Proof.
  unfold valid_name. intros E.
  apply andb_prop in E as [E E4]. apply andb_prop in E as [E E3].
  apply andb_prop in E as [E1 E2].
  apply negb_true_iff in E2, E3, E4. now repeat split.
Qed.

(** A plain name: the path itself, when it exists. *)
Lemma glob_literal :
  has_magic regex = false ->
  valid_name regex = true ->
  glob (fnmatchcase H) fs (location ++ regex)
  = if lexists fs (location ++ regex) then [location ++ regex] else [].
Proof.
  intros Hr Hv. destruct (valid_name_parts regex Hv) as [Ht _].
  unfold glob. cbn [iglob].
  rewrite (path_split_in_directory location regex location_ends regex_no_slash).
  rewrite has_magic_append, location_plain, Hr. cbn [orb negb].
  now rewrite Ht.
Qed.

Lemma lexists_in_directory :
  valid_name regex = true ->
  lexists fs (location ++ regex)
  = match dir_at fs location with
    | Some es => match lookup regex es with Some _ => true | None => false end
    | None => false
    end.
Proof.
  intros Hv.
  destruct (valid_name_parts regex Hv) as [Ht [Hs [Hdot Hdots]]].
  pose proof (truthy_endswith _ location_ends) as Hl.
  destruct (endswith_slash_spec _ location_ends) as [x Hx].
  unfold lexists, dir_at, resolve.
  rewrite (eqb_empty_truthy _ Hl), (eqb_empty_truthy _ (truthy_append _ regex Hl)).
  rewrite (startswith_slash_append _ regex Hl).
  rewrite Hx at 2 4. rewrite append_assoc.
  replace (x ++ "/") with (x ++ "/" ++ "") by reflexivity.
  rewrite !split_slash_append, (split_slash_plain regex Hs). cbn [split_slash].
  rewrite !app_assoc, !walk_app.
  destruct (walk [] (fs_root fs) _) as [[up0 cur0]|]; [|reflexivity].
  destruct (walk up0 cur0 (split_slash x)) as [[up [d|es]]|]; try reflexivity.
  cbn [walk]. rewrite (eqb_empty_truthy regex Ht), Hdot, Hdots. cbn [orb].
  cbn [String.eqb Ascii.eqb Bool.eqb orb option_map snd].
  now destruct (lookup regex es).
Qed.

End GlobInDirectory.

(** ** Well-formed trees *)

Lemma lookup_wf (es : list (string * node)) (c : string) (n : node) :
  forallb (fun e => valid_name (fst e) && wf_node (snd e)) es = true ->
  lookup c es = Some n -> wf_node n = true.
Proof.
  induction es as [|[k v] es IH]; simpl; [discriminate|].
  intros E. apply andb_prop in E as [E1 E]. apply andb_prop in E1 as [_ Hv].
  destruct (String.eqb c k); [now intros [= <-] | now apply IH].
Qed.

Lemma walk_wf (comps : list string) (up : list node) (cur : node)
    (up' : list node) (cur' : node) :
  forallb wf_node up = true -> wf_node cur = true ->
  walk up cur comps = Some (up', cur') -> wf_node cur' = true.
Proof.
  revert up cur; induction comps as [|c comps IH]; intros up cur Hup Hcur; simpl.
  - now intros [= _ <-].
  - destruct cur as [d|es]; [discriminate|].
    destruct (String.eqb c "" || String.eqb c "."); [now apply IH|].
    destruct (String.eqb c "..").
    + destruct up as [|p up0]; [now apply IH|].
      simpl in Hup. apply andb_prop in Hup as [Hp Hup]. now apply IH.
    + destruct (lookup c es) as [n|] eqn:L; [|discriminate].
      apply IH.
      * cbn [forallb]. now rewrite Hcur, Hup.
      * simpl in Hcur. apply andb_prop in Hcur as [_ Hes].
        now apply (lookup_wf es c n).
Qed.

Lemma dir_at_wf (fs : filesystem) (p : string) (es : list (string * node)) :
  wf_fs fs = true -> dir_at fs p = Some es ->
  distinct (map fst es) = true /\ forallb valid_name (map fst es) = true.
Proof.
  unfold wf_fs, dir_at, resolve. intros Hwf.
  destruct (String.eqb p ""); [discriminate|].
  destruct (walk [] (fs_root fs) _) as [[up cur]|] eqn:W; [|discriminate].
  cbn [option_map snd]. destruct cur as [d|es']; [discriminate|]. intros [= <-].
  pose proof (walk_wf _ [] _ _ _ eq_refl Hwf W) as Hd. simpl in Hd.
  apply andb_prop in Hd as [Hd Hes]. split; [assumption|].
  clear -Hes. induction es' as [|[k v] es IH]; simpl in *; [reflexivity|].
  apply andb_prop in Hes as [Hk Hes]. apply andb_prop in Hk as [-> _].
  now apply IH.
Qed.

Lemma dir_names_valid (fs : filesystem) (location : string) :
  wf_fs fs = true -> truthy location = true ->
  distinct (dir_names fs location) = true
  /\ forallb valid_name (dir_names fs location) = true.
Proof.
  intros Hwf Hl. unfold dir_names. rewrite (iterdir_dir_at fs location Hl).
  destruct (dir_at fs location) as [es|] eqn:D; [|now split].
  now apply (dir_at_wf fs location).
Qed.

Lemma lookup_none_names {A : Type} (k : string) (es : list (string * A)) :
  lookup k es = None <-> py_in k (map fst es) = false.
Proof.
  induction es as [|[k' v] es IH]; simpl; [now split|].
  destruct (String.eqb k k'); simpl; [split; discriminate | exact IH].
Qed.

(** With one entry per name, the names equal to [k] are [k] itself or none. *)
Lemma filter_name {A : Type} (k : string) (es : list (string * A)) :
  distinct (map fst es) = true ->
  filter (fun n => String.eqb n k) (map fst es)
  = match lookup k es with
    | Some _ => [k]
    | None => []
    end.
Proof.
  induction es as [|[k' v] es IH]; simpl; [reflexivity|].
  intros E. apply andb_prop in E as [Hk' Hd]. apply negb_true_iff in Hk'.
  rewrite (String.eqb_sym k k').
  destruct (String.eqb k' k) eqn:Ek.
  - apply String.eqb_eq in Ek. subst k'.
    rewrite (IH Hd). apply lookup_none_names in Hk'. now rewrite Hk'.
  - now apply IH.
Qed.

(** ** What [glob] yields *)

Lemma path_join_truthy (d n : string) : truthy d = true -> truthy (path_join d n) = true.
Proof.
  intros Hd. unfold path_join. destruct n as [|c n]; simpl.
  - rewrite Hd. simpl. destruct (endswith_slash d).
    + now rewrite append_empty_r.
    + now apply truthy_append.
  - destruct (is_slash c); [reflexivity|]. rewrite Hd. simpl.
    destruct (endswith_slash d); now apply truthy_append.
Qed.

Lemma has_slash_startswith (n : string) : startswith_slash n = true -> has_slash n = true.
Proof. destruct n as [|c n]; simpl; [discriminate|]. now intros ->. Qed.

Lemma has_slash_endswith (d : string) : endswith_slash d = true -> has_slash d = true.
Proof.
  intros E. destruct (endswith_slash_spec d E) as [x ->].
  rewrite has_slash_append. simpl. apply orb_true_r.
Qed.

(** A path joined to a directory part that is not empty has a ['/']. *)
Lemma path_join_has_slash (d n : string) :
  truthy d = true -> has_slash (path_join d n) = true.
Proof.
  intros Hd. unfold path_join.
  destruct (startswith_slash n) eqn:Sn; [now apply has_slash_startswith|].
  rewrite Hd. simpl. destruct (endswith_slash d) eqn:Ed.
  - rewrite has_slash_append, (has_slash_endswith d Ed). reflexivity.
  - rewrite has_slash_append. simpl. apply orb_true_r.
Qed.

(** The directory part of a path is a prefix of it, not empty when the path
    has a ['/']. *)
Lemma path_split_prefix (p : string) :
  exists t, p = fst (path_split p) ++ t.
Proof.
  unfold path_split. destruct (rsplit1 p) as [[a b]|] eqn:R.
  - destruct (rsplit1_some p a b R) as [-> _].
    destruct (truthy (a ++ "/") && negb (all_slashes (a ++ "/"))); cbn [fst].
    + destruct (rstrip_slash_spec (a ++ "/")) as [t [E _]].
      exists (t ++ b).
      rewrite <- (append_assoc (rstrip_slash (a ++ "/")) t b), <- E.
      now rewrite append_assoc.
    + exists b. now rewrite append_assoc.
  - cbn [truthy andb fst]. now exists p.
Qed.

Lemma path_split_dirname_truthy (p : string) :
  has_slash p = true -> truthy (fst (path_split p)) = true.
Proof.
  intros Hs. unfold path_split. destruct (rsplit1 p) as [[a b]|] eqn:R.
  - assert (Ht : truthy (a ++ "/") = true) by now destruct a.
    rewrite Ht. cbn [andb]. destruct (all_slashes (a ++ "/")) eqn:A; cbn [negb fst].
    + exact Ht.
    + now apply rstrip_slash_truthy.
  - apply rsplit1_none in R. rewrite R in Hs. discriminate.
Qed.

Lemma path_split_shorter (p : string) :
  String.eqb (fst (path_split p)) p = false ->
  String.length (fst (path_split p)) < String.length p.
Proof.
  intros Hne. destruct (path_split_prefix p) as [t E].
  destruct t as [|c t].
  - rewrite append_empty_r in E. rewrite <- E, String.eqb_refl in Hne. discriminate.
  - rewrite E at 2. rewrite length_append. simpl. lia.
Qed.

Section GlobResults.

Variable fnmatch : string -> string -> bool.
Variable fs : filesystem.

(** Fuel beyond the length of the pattern changes nothing. *)
Lemma iglob_fuel (n m : nat) (p : string) (dironly : bool) :
  String.length p < n -> String.length p < m ->
  iglob fnmatch fs n p dironly = iglob fnmatch fs m p dironly.
Proof.
  revert m p dironly. induction n as [|n IH]; intros m p dironly Hn Hm; [lia|].
  destruct m as [|m]; [lia|]. cbn [iglob].
  pose proof (path_split_shorter p) as Hshort.
  destruct (path_split p) as [dirname basename]. cbn [fst] in Hshort.
  destruct (negb (has_magic p)); [reflexivity|].
  destruct (negb (truthy dirname)); [reflexivity|].
  destruct (String.eqb dirname p) eqn:E; cbn [negb andb]; [reflexivity|].
  destruct (has_magic dirname); [|reflexivity].
  rewrite (IH m dirname true); [reflexivity| |]; specialize (Hshort eq_refl); lia.
Qed.

Hypothesis fs_wf : wf_fs fs = true.

Lemma forallb_map_filter {A : Type} (f : string -> bool) (g : string * A -> bool)
    (es : list (string * A)) :
  forallb f (map fst es) = true -> forallb f (map fst (filter g es)) = true.
Proof.
  induction es as [|e es IH]; simpl; [reflexivity|].
  intros E. apply andb_prop in E as [He E].
  destruct (g e); simpl; [now rewrite He, IH | now apply IH].
Qed.

Lemma iterdir_valid (dirname : string) (dironly : bool) :
  forallb valid_name (iterdir fs dirname dironly) = true.
Proof.
  unfold iterdir.
  destruct (resolve fs (if String.eqb dirname "" then "." else dirname))
    as [[d|es]|] eqn:R; try reflexivity.
  apply forallb_map_filter.
  apply (dir_at_wf fs (if String.eqb dirname "" then "." else dirname) es fs_wf).
  unfold dir_at. now rewrite R.
Qed.

Lemma filter_keeps {A : Type} (f g : A -> bool) (xs : list A) :
  forallb f xs = true -> forallb f (filter g xs) = true.
Proof.
  induction xs as [|x xs IH]; simpl; [reflexivity|].
  intros E. apply andb_prop in E as [Hx E].
  destruct (g x); simpl; [now rewrite Hx, IH | now apply IH].
Qed.

Lemma glob1_valid (dirname pattern : string) (dironly : bool) :
  forallb valid_name (glob1 fnmatch fs dirname pattern dironly) = true.
Proof.
  unfold glob1. apply filter_keeps.
  destruct (negb (ishidden pattern)); [apply filter_keeps|]; apply iterdir_valid.
Qed.

Lemma valid_name_truthy (names : list string) :
  forallb valid_name names = true -> forallb truthy names = true.
Proof.
  induction names as [|n names IH]; simpl; [reflexivity|].
  intros E. apply andb_prop in E as [Hn E]. rewrite (IH E), andb_true_r.
  unfold valid_name in Hn. apply andb_prop in Hn as [Hn _].
  apply andb_prop in Hn as [Hn _]. now apply andb_prop in Hn as [Hn _].
Qed.

Lemma forallb_joined (P : string -> bool) (dirs : list string)
    (names : string -> list string) :
  forallb truthy dirs = true ->
  (forall d n, truthy d = true -> P (path_join d n) = true) ->
  forallb P (flat_map (fun d => map (path_join d) (names d)) dirs) = true.
Proof.
  intros Hd HP. induction dirs as [|d dirs IH]; simpl; [reflexivity|].
  simpl in Hd. apply andb_prop in Hd as [Hd1 Hd].
  rewrite forallb_app, (IH Hd), andb_true_r.
  induction (names d) as [|n ns IHn]; simpl; [reflexivity|].
  now rewrite (HP d n Hd1), IHn.
Qed.

(** No path that [glob] yields for a pattern that is not empty is empty. *)
Lemma iglob_truthy (n : nat) (p : string) (dironly : bool) :
  truthy p = true -> forallb truthy (iglob fnmatch fs n p dironly) = true.
Proof.
  revert p dironly; induction n as [|n IH]; intros p dironly Hp; [reflexivity|].
  cbn [iglob]. destruct (path_split p) as [dirname basename].
  destruct (negb (has_magic p)).
  - destruct (truthy basename).
    + destruct (lexists fs p); simpl; [now rewrite Hp | reflexivity].
    + destruct (isdir fs dirname); simpl; [now rewrite Hp | reflexivity].
  - destruct (truthy dirname) eqn:Hd; cbn [negb].
    + apply forallb_joined; [|intros d0 n0 H0; now apply path_join_truthy].
      destruct (negb (String.eqb dirname p) && has_magic dirname).
      * now apply IH.
      * simpl. now rewrite Hd.
    + apply valid_name_truthy, glob1_valid.
Qed.

(** Every path that [glob] yields for a pattern with a ['/'] has one. *)
Lemma iglob_has_slash (n : nat) (p : string) (dironly : bool) :
  has_slash p = true -> forallb has_slash (iglob fnmatch fs n p dironly) = true.
Proof.
  intros Hp. destruct n as [|n]; [reflexivity|]. cbn [iglob].
  pose proof (path_split_dirname_truthy p Hp) as Hd.
  destruct (path_split p) as [dirname basename]. cbn [fst] in Hd.
  destruct (negb (has_magic p)).
  - destruct (truthy basename).
    + destruct (lexists fs p); simpl; [now rewrite Hp | reflexivity].
    + destruct (isdir fs dirname); simpl; [now rewrite Hp | reflexivity].
  - rewrite Hd. cbn [negb].
    apply forallb_joined; [|intros d0 n0 H0; now apply path_join_has_slash].
    destruct (negb (String.eqb dirname p) && has_magic dirname).
    + now apply iglob_truthy.
    + simpl. now rewrite Hd.
Qed.

End GlobResults.

(** ** The local listing *)

Section Listing.

Variable H : host.

Lemma for_append_basenames (paths names acc : list string) (w : world) :
  Forall2 (fun p n => list_item (py_rsplit p) 1 = Ok n) paths names ->
  for_append paths
    (fun file =>
       logging_debug ("found file: " ++ file) ;;
       filename <- lift (list_item (py_rsplit file) 1) ;;
       ret filename) acc w
  = (Ok (acc ++ names)%list,
     {| w_fs := w_fs w;
        w_trace := (w_trace w
                    ++ map (fun p => Log DEBUG ("found file: " ++ p)) paths)%list |}).
Proof.
  intros Hall. revert acc w.
  induction Hall as [|p n paths names Hp Hrest IH]; intros acc w.
  - simpl. unfold ret. rewrite !app_nil_r. now destruct w.
  - cbn [for_append]. unfold bind at 1. unfold bind at 1.
    unfold logging_debug, emit. unfold bind at 1. unfold lift at 1.
    rewrite Hp. unfold ret at 1. rewrite IH.
    unfold record. cbn [w_fs w_trace map].
    now rewrite <- !app_assoc.
Qed.

Lemma get_files_from_dir_run (location regex : string) (names : list string)
    (w : world) :
  Forall2 (fun p n => list_item (py_rsplit p) 1 = Ok n)
          (glob (fnmatchcase H) (w_fs w) (location ++ regex)) names ->
  get_files_from_dir H location regex w
  = (Ok names,
     {| w_fs := w_fs w;
        w_trace := (w_trace w
                    ++ map (fun p => Log DEBUG ("found file: " ++ p))
                         (glob (fnmatchcase H) (w_fs w) (location ++ regex)))%list |}).
Proof.
  intros Hall. unfold get_files_from_dir. unfold bind at 1. unfold glob_glob.
  now rewrite (for_append_basenames _ names [] w Hall).
Qed.

Lemma basenames_of_joined (d : string) (names : list string) :
  truthy d = true ->
  forallb valid_name names = true ->
  Forall2 (fun p n => list_item (py_rsplit p) 1 = Ok n)
          (map (path_join d) names) names.
Proof.
  intros Hd. induction names as [|n names IH]; simpl; [constructor|].
  intros E. apply andb_prop in E as [Hn E]. constructor; [|now apply IH].
  apply basename_path_join; [assumption|].
  unfold valid_name in Hn. apply andb_prop in Hn as [Hn _].
  apply andb_prop in Hn as [Hn _]. apply andb_prop in Hn as [_ Hn].
  now apply negb_true_iff in Hn.
Qed.

Lemma forallb_filter {A : Type} (f g : A -> bool) (xs : list A) :
  forallb f xs = true -> forallb f (filter g xs) = true.
Proof.
  induction xs as [|x xs IH]; simpl; [reflexivity|].
  intros E. apply andb_prop in E as [Hx E].
  destruct (g x); simpl; [now rewrite Hx, IH | now apply IH].
Qed.

Lemma isdir_dir_names (fs : filesystem) (location : string) :
  truthy location = true -> isdir fs location = false -> dir_names fs location = [].
Proof.
  intros Hl. unfold isdir, dir_names. rewrite (iterdir_dir_at fs _ Hl).
  unfold dir_at. now destruct (resolve fs location) as [[d|es]|].
Qed.

(** What [get_files_from_dir] returns for a directory prefix. *)
Lemma listing_in_directory (location regex : string) (w : world) :
  wf_fs (w_fs w) = true ->
  endswith_slash location = true ->
  has_magic location = false ->
  has_slash regex = false ->
  has_magic regex || valid_name regex = true ->
  fst (get_files_from_dir H location regex w)
  = Ok (matching_names H (w_fs w) location regex)
  /\ w_fs (snd (get_files_from_dir H location regex w)) = w_fs w.
Proof.
  intros Hwf Hl Hm Hs Hr.
  pose proof (truthy_endswith _ Hl) as Ht.
  destruct (dir_names_valid (w_fs w) location Hwf Ht) as [Hdis Hval].
  assert (Hall : Forall2 (fun p n => list_item (py_rsplit p) 1 = Ok n)
                   (glob (fnmatchcase H) (w_fs w) (location ++ regex))
                   (matching_names H (w_fs w) location regex)).
  { unfold matching_names, shell_match.
    destruct (has_magic regex) eqn:Hmr.
    - rewrite (glob_wildcard H (w_fs w) location regex Hl Hm Hs Hmr).
      destruct (dirname_in_directory (w_fs w) location Hl Hm) as [Hd _].
      apply basenames_of_joined; [assumption | now apply forallb_filter].
    - simpl in Hr.
      rewrite (glob_literal H (w_fs w) location regex Hl Hm Hs Hmr Hr).
      rewrite (lexists_in_directory (w_fs w) location regex Hl Hr).
      unfold dir_names in *. rewrite (iterdir_dir_at _ _ Ht) in *.
      destruct (dir_at (w_fs w) location) as [es|]; [|constructor].
      rewrite (filter_name regex es Hdis).
      destruct (lookup regex es); constructor; [|constructor].
      destruct (endswith_slash_spec _ Hl) as [x ->].
      unfold py_rsplit. now rewrite append_assoc, (rsplit1_append x regex Hs). }
  now rewrite (get_files_from_dir_run location regex _ w Hall).
Qed.

Lemma basenames_of_paths (paths : list string) :
  forallb has_slash paths = true ->
  Forall2 (fun p n => list_item (py_rsplit p) 1 = Ok n)
          paths (map after_last_slash paths).
Proof.
  induction paths as [|p paths IH]; simpl; [constructor|].
  intros E. apply andb_prop in E as [Hp E].
  constructor; [now apply py_rsplit_item1 | now apply IH].
Qed.

(** C7 (amended). For a [location] that ends with ['/'],
    [get_files_from_dir] returns exactly the basenames (what follows the
    last ['/']) of the paths that match the shell pattern
    [location + regex], in the order [glob] yields them.  When moreover
    [location] has none of [*], [?], [[] and the pattern no ['/'] (a
    wildcard pattern, or a plain entry name), these are the names of the
    entries of the directory [location] that match the pattern, in the
    order the directory lists them; the empty list when the directory has
    no entry or does not exist. *)
Theorem get_files_from_dir_lists (location regex : string) (w : world) :
  wf_fs (w_fs w) = true ->
  endswith_slash location = true ->
  fst (get_files_from_dir H location regex w)
  = Ok (map after_last_slash (glob (fnmatchcase H) (w_fs w) (location ++ regex)))
  /\ (has_magic location = false ->
      has_slash regex = false ->
      has_magic regex || valid_name regex = true ->
      fst (get_files_from_dir H location regex w)
      = Ok (filter (shell_match H regex) (dir_names (w_fs w) location))
      /\ (isdir (w_fs w) location = false \/ dir_names (w_fs w) location = [] ->
          fst (get_files_from_dir H location regex w) = Ok [])).
Proof.
  intros Hwf Hl. split.
  - rewrite (get_files_from_dir_run location regex
               (map after_last_slash
                  (glob (fnmatchcase H) (w_fs w) (location ++ regex))) w);
      [reflexivity|].
    apply basenames_of_paths. unfold glob. apply iglob_has_slash; [assumption|].
    now rewrite has_slash_append, (has_slash_endswith location Hl).
  - intros Hm Hs Hr.
    destruct (listing_in_directory location regex w Hwf Hl Hm Hs Hr) as [E _].
    split; [exact E|]. intros Hempty. rewrite E. unfold matching_names.
    destruct Hempty as [Hd | ->]; [|reflexivity].
    now rewrite (isdir_dir_names _ _ (truthy_endswith _ Hl) Hd).
Qed.

End Listing.

Lemma get_files_from_dir_lists_witness :
  fst (get_files_from_dir (serving JNull) "/nfs/pride/2018/10/PXD008644/submitted/"
         "*.raw" sample_world)
  = Ok ["a.raw"; "b.raw"]
  /\ fst (get_files_from_dir (serving JNull) "/out/" "*.raw" sample_world) = Ok []
  /\ fst (get_files_from_dir (serving JNull) "/nowhere/" "*.raw" sample_world) = Ok [].
Proof.
  split; [|split].
  - apply (proj1 (proj2 (get_files_from_dir_lists (serving JNull)
                           "/nfs/pride/2018/10/PXD008644/submitted/" "*.raw"
                           sample_world eq_refl eq_refl)
                    eq_refl eq_refl eq_refl)).
  - apply (proj2 (proj2 (get_files_from_dir_lists (serving JNull)
                           "/out/" "*.raw" sample_world eq_refl eq_refl)
                    eq_refl eq_refl eq_refl)).
    right. reflexivity.
  - apply (proj2 (proj2 (get_files_from_dir_lists (serving JNull)
                           "/nowhere/" "*.raw" sample_world eq_refl eq_refl)
                    eq_refl eq_refl eq_refl)).
    left. reflexivity.
Defined.

(** C7 as stated fails for a [location] without the final ['/']: the
    directory [data] holds [a.raw], which matches [*.raw]; the call looks
    for [data*.raw] in the working directory, finds [data1.raw] there, a
    path with no ['/'], and raises on its second part.  With [/data] it
    returns [data1.raw], which is no entry of [/data]. *)
Lemma get_files_from_dir_needs_separator :
  isdir sample_fs "data" = true
  /\ filter (shell_match (serving JNull) "*.raw") (dir_names sample_fs "data")
     = ["a.raw"]
  /\ glob simple_fnmatch sample_fs "data*.raw" = ["data1.raw"]
  /\ fst (get_files_from_dir (serving JNull) "data" "*.raw" sample_world)
     = Raise IndexError
  /\ fst (get_files_from_dir (serving JNull) "/data" "*.raw" sample_world)
     = Ok ["data1.raw"].
Proof. repeat split. Qed.

(** ** The copy from a missing directory *)

Section MissingDirectory.

Variable H : host.

Lemma copies_logs {A : Type} (f : A -> string) (xs : list A) :
  copies (map (fun x => Log ERROR (f x)) xs) = [].
Proof. induction xs as [|x xs IH]; simpl; [reflexivity | exact IH]. Qed.

(** Nothing is listed under a prefix that is not a directory. *)
Lemma listing_of_missing_directory (location : string) (w : world) :
  endswith_slash location = true ->
  has_magic location = false ->
  isdir (w_fs w) location = false ->
  get_files_from_dir H location "*.raw" w = (Ok [], w).
Proof.
  intros Hl Hm Hd.
  assert (G : glob (fnmatchcase H) (w_fs w) (location ++ "*.raw") = []).
  { rewrite (glob_wildcard H (w_fs w) location "*.raw" Hl Hm eq_refl eq_refl).
    now rewrite (isdir_dir_names _ _ (truthy_endswith _ Hl) Hd). }
  rewrite (get_files_from_dir_run H location "*.raw" [] w).
  - rewrite G. simpl. rewrite app_nil_r. now destruct w.
  - rewrite G. constructor.
Qed.

(** C9 (amended). When [source_base_directory] has none of [*], [?],
    [[] and the directory [<base>/<fragment>/submitted/] does not exist,
    [copy_raw_files_from_dir] logs it and goes on: the listing is empty,
    the raw-file list is requested again, every record of it is reported
    as not found, no copy is attempted and nothing is raised. *)
Theorem missing_source_directory_is_logged
    (accession source_base_directory : string)
    (first : json) (rest : list json)
    (r : FileRecord) (recs : list FileRecord)
    (l0 : Location) (more : list Location) (fragment : string) (w : world) :
  api_json H (raw_files_url accession) accept_json = inr (JArr (first :: rest)) ->
  Forall2 (fun j r => as_record j = Some r) (first :: rest) (r :: recs) ->
  forallb copyable (r :: recs) = true ->
  rec_locations r = l0 :: more ->
  first_fragment (loc_value l0) fragment ->
  has_magic source_base_directory = false ->
  isdir (w_fs w) (source_base_directory ++ "/" ++ fragment ++ "/submitted/") = false ->
  fst (copy_raw_files_from_dir H accession source_base_directory w) = Ok tt
  /\ new_events w (snd (copy_raw_files_from_dir H accession source_base_directory w))
     = ([Get (raw_files_url accession) accept_json;
         Log ERROR ("Folder does not exists! "
                    ++ source_base_directory ++ "/" ++ fragment ++ "/submitted/");
         Get (raw_files_url accession) accept_json]
        ++ map (fun r => Log ERROR
                   (copy_name r ++ " not found in "
                    ++ source_base_directory ++ "/" ++ fragment ++ "/submitted/"))
               (r :: recs))%list
  /\ copies (new_events w
       (snd (copy_raw_files_from_dir H accession source_base_directory w))) = [].
Proof.
  intros Hb Hrecs Hc Hl Hf Hm Hd.
  set (dir := source_base_directory ++ "/" ++ fragment ++ "/submitted/") in *.
  assert (Hr : as_record first = Some r) by now inversion Hrecs.
  assert (Hends : endswith_slash dir = true).
  { unfold dir.
    replace (source_base_directory ++ "/" ++ fragment ++ "/submitted/")
      with ((source_base_directory ++ "/" ++ fragment ++ "/submitted") ++ "/").
    - apply endswith_slash_append.
    - now rewrite !append_assoc. }
  assert (Hplain : has_magic dir = false).
  { unfold dir. rewrite !has_magic_append, Hm.
    destruct Hf as [pre [post [_ [F _]]]]. now rewrite (fragment_no_magic _ F). }
  assert (Hrun : exists w',
             copy_raw_files_from_dir H accession source_base_directory w = (Ok tt, w')
             /\ w_trace w'
                = (w_trace w
                   ++ [Get (raw_files_url accession) accept_json;
                       Log ERROR ("Folder does not exists! " ++ dir);
                       Get (raw_files_url accession) accept_json]
                   ++ map (fun r => Log ERROR (copy_name r ++ " not found in " ++ dir))
                        (r :: recs))%list).
  { unfold copy_raw_files_from_dir. unfold bind at 1.
    rewrite (path_prefix_found H accession (JArr (first :: rest)) (loc_value l0)
               fragment w Hb (first_value first rest r l0 more Hr Hl) Hf).
    fold dir. rewrite bind_isdir. cbn [record w_fs]. rewrite Hd. cbn [negb].
    unfold bind at 1. unfold logging_exception, emit.
    unfold bind at 1.
    match goal with
    | |- context [get_files_from_dir H dir "*.raw" ?w2] =>
        rewrite (listing_of_missing_directory dir w2 Hends Hplain Hd)
    end.
    unfold bind at 1. rewrite get_all_raw_file_list_run, Hb.
    match goal with
    | |- context [copy_from_dir H dir [] _ ?w3] =>
        destruct (copy_loop H dir [] (first :: rest) (r :: recs) Hrecs Hc
                    (fun r0 fs0 _ (E : py_in (copy_name r0) [] = true) =>
                       False_ind _ (diff_false_true E)) w3)
          as [w' [-> Ht]]
    end.
    exists w'. split; [reflexivity|]. rewrite Ht.
    unfold record. cbn [w_trace]. rewrite <- !app_assoc. reflexivity. }
  destruct Hrun as [w' [-> Ht]]. cbn [fst snd].
  rewrite (new_events_app _ _ _ Ht). repeat split.
  rewrite copies_app. cbn [copies flat_map app].
  apply (copies_logs (fun r => copy_name r ++ " not found in " ++ dir)).
Qed.

End MissingDirectory.

Lemma missing_source_directory_is_logged_witness :
  fst (copy_raw_files_from_dir (serving (JArr [record_a; record_c]))
         "PXD008644" "/mnt" sample_world) = Ok tt
  /\ new_events sample_world
       (snd (copy_raw_files_from_dir (serving (JArr [record_a; record_c]))
               "PXD008644" "/mnt" sample_world))
     = [Get (raw_files_url "PXD008644") accept_json;
        Log ERROR "Folder does not exists! /mnt/2018/10/PXD008644/submitted/";
        Get (raw_files_url "PXD008644") accept_json;
        Log ERROR "a.raw not found in /mnt/2018/10/PXD008644/submitted/";
        Log ERROR "c.raw not found in /mnt/2018/10/PXD008644/submitted/"]
  /\ copies (new_events sample_world
       (snd (copy_raw_files_from_dir (serving (JArr [record_a; record_c]))
               "PXD008644" "/mnt" sample_world))) = [].
Proof.
  apply (missing_source_directory_is_logged (serving (JArr [record_a; record_c]))
           "PXD008644" "/mnt" record_a [record_c] typed_a [typed_c]
           {| loc_name := "FTP Protocol"; loc_value := archive ++ "a.raw" |}
           [{| loc_name := "Aspera Protocol"; loc_value := aspera ++ "a.raw" |}]
           "2018/10/PXD008644" sample_world); try reflexivity.
  - repeat constructor.
  - apply re_search_first. reflexivity.
Defined.

(** C9 as stated fails for a base directory with a wildcard in its name:
    [/nfs/*/2018/10/PXD008644/submitted/] is no directory, yet the pattern
    built from it lists the files of [/nfs/pride/...]; the copy of the first
    of them, from a source that does not exist, is attempted and raises. *)
Lemma wildcard_in_base_directory_lists_files :
  isdir sample_fs "/nfs/*/2018/10/PXD008644/submitted/" = false
  /\ fst (get_files_from_dir (copying (JArr [record_a; record_c]))
            "/nfs/*/2018/10/PXD008644/submitted/" "*.raw" sample_world)
     = Ok ["a.raw"; "b.raw"]
  /\ fst (copy_raw_files_from_dir (copying (JArr [record_a; record_c]))
            "PXD008644" "/nfs/*" sample_world)
     = Raise (External {| err_class := "FileNotFoundError";
                          err_text := "[Errno 2] No such file or directory" |})
  /\ copies (new_events sample_world
       (snd (copy_raw_files_from_dir (copying (JArr [record_a; record_c]))
               "PXD008644" "/nfs/*" sample_world)))
     = [("/nfs/*/2018/10/PXD008644/submitted/a.raw", "PXD008644-a.raw")].
Proof. repeat split. Qed.

(** ** The two requests by project *)

Section ProjectRequests.

Variable H : host.

(** X1. [get_all_raw_file_list] issues one GET, to
    [base + "files/byProject?accession=" + accession + ",fileCategory.value==RAW"]
    with the accession as it comes, under the header
    [Accept: application/JSON]; it returns the parsed body as it is, raises
    what the call or the parse raised, not wrapped, and leaves the file
    tree alone. *)
Theorem get_all_raw_file_list_request (project_accession : string) (w : world) :
  get_all_raw_file_list H project_accession w
  = (match api_json H
             (api_base_url ++ "files/byProject?accession=" ++ project_accession
                ++ ",fileCategory.value==RAW")
             [("Accept", "application/JSON")] with
     | inr body => Ok body
     | inl e => Raise (External e)
     end,
     {| w_fs := w_fs w;
        w_trace := (w_trace w ++
          [Get (api_base_url ++ "files/byProject?accession=" ++ project_accession
                  ++ ",fileCategory.value==RAW")
               [("Accept", "application/JSON")]])%list |}).
Proof.
  unfold get_all_raw_file_list. rewrite request_run. reflexivity.
Qed.

(** X2. [get_file_from_api] issues one GET, to
    [base + "files/byProject?accession=" + accession + ",fileName==" + file_name]
    with both arguments as they come, under the header
    [Accept: application/JSON], and leaves the file tree alone; it returns
    the parsed body as it is; a failure [e] of the call or of the parse (an
    instance of [Exception], as the errors of the collaborators are) is
    raised as the plain [Exception("File not found" + str(e))], the GET
    having been made. *)
Theorem get_file_from_api_request (accession file_name : string) (w : world) :
  get_file_from_api H accession file_name w
  = (match api_json H
             (api_base_url ++ "files/byProject?accession=" ++ accession
                ++ ",fileName==" ++ file_name)
             [("Accept", "application/JSON")] with
     | inr body => Ok body
     | inl e => Raise (Exception_ ("File not found" ++ err_text e))
     end,
     {| w_fs := w_fs w;
        w_trace := (w_trace w ++
          [Get (api_base_url ++ "files/byProject?accession=" ++ accession
                  ++ ",fileName==" ++ file_name)
               [("Accept", "application/JSON")]])%list |}).
Proof.
  rewrite get_file_from_api_run. unfold file_by_name_url, accept_json, record.
  reflexivity.
Qed.

End ProjectRequests.

Lemma get_file_from_api_request_witness :
  get_file_from_api (serving (JArr [record_a])) "PXD008644" "a.raw" sample_world
  = (Ok (JArr [record_a]),
     {| w_fs := sample_fs;
        w_trace :=
          [Get "https://www.ebi.ac.uk/pride/ws/archive/v2/files/byProject?accession=PXD008644,fileName==a.raw"
               [("Accept", "application/JSON")]] |})
  /\ get_file_from_api failing_api "PXD008644" "missing.raw" sample_world
     = (Raise (Exception_ "File not found404 Client Error: Not Found"),
        {| w_fs := sample_fs;
           w_trace :=
             [Get "https://www.ebi.ac.uk/pride/ws/archive/v2/files/byProject?accession=PXD008644,fileName==missing.raw"
                  [("Accept", "application/JSON")]] |}).
Proof.
  split.
  - exact (get_file_from_api_request (serving (JArr [record_a])) "PXD008644" "a.raw"
             sample_world).
  - exact (get_file_from_api_request failing_api "PXD008644" "missing.raw"
             sample_world).
Defined.

(** ** Batches *)

Lemma for_each_app {A : Type} (xs ys : list A) (body : A -> M unit) (w : world) :
  for_each (xs ++ ys) body w
  = bind (for_each xs body) (fun _ => for_each ys body) w.
Proof.
  revert w. induction xs as [|x xs IH]; intros w; [reflexivity|].
  cbn [app for_each]. unfold bind.
  destruct (body x w) as [[[]|e] w1]; [|reflexivity].
  rewrite IH. reflexivity.
Qed.

Lemma py_rsplit_item1_inv (s n : string) :
  list_item (py_rsplit s) 1 = Ok n -> has_slash s = true /\ n = after_last_slash s.
Proof.
  destruct (has_slash s) eqn:Hs.
  - rewrite (py_rsplit_item1 s Hs). now intros [= <-].
  - rewrite (py_rsplit_item1_none s Hs). discriminate.
Qed.

Lemma only_bind_lift {A B : Type} (P : event -> bool) (r : result A) (k : A -> M B) :
  (forall a, r = Ok a -> only P (k a)) -> only P (bind (lift r) k).
Proof.
  intros Hk w. unfold bind, lift. destruct r as [a|e].
  - apply (Hk a eq_refl).
  - exists []. simpl. now rewrite app_nil_r.
Qed.

Section Batches.

Variable H : host.

(** X3. A batch is its parts one after the other: the records of
    [a ++ b] are handled as those of [a], then, when that ends normally,
    those of [b] from the world it left; an exception in [a] ends the batch
    there.  The same for the download and for the copy, whatever the
    records are. *)
Theorem batches_run_in_sequence
    (a b : list json) (output_folder source_dir : string)
    (listing : list string) (w : world) :
  download_files_from_ftp H (JArr (a ++ b)) output_folder w
  = bind (download_files_from_ftp H (JArr a) output_folder)
         (fun _ => download_files_from_ftp H (JArr b) output_folder) w
  /\ copy_from_dir H source_dir listing (JArr (a ++ b)) w
     = bind (copy_from_dir H source_dir listing (JArr a))
            (fun _ => copy_from_dir H source_dir listing (JArr b)) w.
Proof.
  split.
  - exact (for_each_app a b _ w).
  - exact (for_each_app a b _ w).
Qed.

Lemma download_events_only (j : json) (output_folder : string) :
  only (download_event output_folder) (download_files_from_ftp H j output_folder).
Proof.
  unfold download_files_from_ftp, logging_debug.
  apply only_bind_lift; intros files _.
  apply only_for_each; intros file.
  apply only_bind_lift; intros name0 _.
  apply only_bind; [destruct (py_eq_str name0 "FTP Protocol"); apply only_lift|].
  intros ftp_filepath.
  apply only_bind_lift; intros msg _.
  apply only_bind; [now apply only_emit|]. intros _.
  apply only_bind_lift; intros parts Hparts.
  apply only_bind_lift; intros accession _.
  apply only_bind_lift; intros arrow _.
  apply only_bind_lift; intros part1 _.
  apply only_bind; [now apply only_emit|]. intros _.
  apply only_bind_lift; intros new_file_path Hname.
  apply only_bind_lift; intros url Hurl.
  apply only_os_call.
  destruct ftp_filepath as [| | |s| |]; try discriminate.
  injection Hparts as <-. injection Hurl as <-.
  destruct (py_rsplit_item1_inv s new_file_path Hname) as [Hs ->].
  cbn [download_event]. now rewrite Hs, String.eqb_refl.
Qed.

(** X4. Whatever the list of files holds and whatever the host does,
    [download_files_from_ftp] does nothing but log at level DEBUG and
    retrieve; every retrieval is of a URL that has a ['/'], and goes to
    [output_folder] followed, with nothing between, by what comes after the
    last ['/'] of that URL. *)
Theorem download_writes_under_output_folder
    (file_list_json : json) (output_folder : string) (w : world) :
  forallb (download_event output_folder)
    (new_events w (snd (download_files_from_ftp H file_list_json output_folder w)))
  = true
  /\ forall u f,
       In (u, f) (retrievals (new_events w
            (snd (download_files_from_ftp H file_list_json output_folder w)))) ->
       f = output_folder ++ after_last_slash u
       /\ exists a, u = a ++ "/" ++ after_last_slash u.
Proof.
  pose proof (only_new_events (download_event output_folder) _ w
                (download_events_only file_list_json output_folder)) as Hall.
  split; [exact Hall|].
  intros u f.
  induction (new_events w
               (snd (download_files_from_ftp H file_list_json output_folder w)))
    as [|e evs IH]; [intros []|].
  cbn [forallb] in Hall. apply andb_prop in Hall as [He Hrest].
  unfold retrievals. cbn [flat_map]. intros Hin. apply in_app_or in Hin as [Hin|Hin].
  - destruct e as [| | |u' f'|]; try contradiction.
    destruct Hin as [[= -> ->]|[]].
    cbn [download_event] in He. apply andb_prop in He as [Hs Hf].
    apply String.eqb_eq in Hf. split; [assumption|].
    destruct (after_last_slash_spec u Hs) as [a [E _]]. now exists a.
  - now apply IH.
Qed.

(** One record the download cannot serve. *)
Lemma download_one_unservable (file : json) (r : FileRecord) (out : string) (w : world) :
  as_record file = Some r ->
  downloadable r = false ->
  download_files_from_ftp H (JArr [file]) out w
  = (Raise IndexError,
     match ftp_location r with
     | Some u => record (Log DEBUG ("ftp_filepath:" ++ u)) w
     | None => w
     end).
Proof.
  intros Hr Hd. unfold download_files_from_ftp.
  unfold bind at 1. unfold lift at 1. cbn [py_iter for_each].
  rewrite bind_unit_ret.
  pose proof (record_location file r 0 Hr) as L0.
  pose proof (record_location file r 1 Hr) as L1.
  unfold downloadable in Hd. unfold ftp_location in *.
  destruct (rec_locations r) as [|l0 rest]; cbn [nth_error] in L0, L1.
  - destruct L0 as [N0 _]. unfold bind at 1. unfold lift at 1. now rewrite N0.
  - destruct L0 as [N0 V0]. unfold bind at 1. unfold lift at 1. rewrite N0.
    cbn [py_eq_str].
    destruct (String.eqb (loc_name l0) "FTP Protocol").
    + unfold bind at 1. unfold lift at 1. rewrite V0.
      unfold bind, lift, logging_debug, emit. cbn [str_add rsplit_method].
      rewrite (record_accession file r Hr). cbn [add_str].
      now rewrite (py_rsplit_item1_none _ Hd).
    + destruct rest as [|l1 rest]; cbn [nth_error] in L1.
      * destruct L1 as [_ V1]. unfold bind at 1. unfold lift at 1. now rewrite V1.
      * destruct L1 as [_ V1]. unfold bind at 1. unfold lift at 1. rewrite V1.
        unfold bind, lift, logging_debug, emit. cbn [str_add rsplit_method].
        rewrite (record_accession file r Hr). cbn [add_str].
        now rewrite (py_rsplit_item1_none _ Hd).
Qed.

(** X5. A record the download cannot serve ends the batch with an
    [IndexError], and nothing is retrieved for it or after it: a record
    with no location, or with one location only whose name is not
    ["FTP Protocol"], raises before anything is logged; one whose selected
    URI has no ['/'] raises after the URI is logged. *)
Theorem download_stops_at_unservable_record
    (file : json) (rest : list json) (r : FileRecord)
    (output_folder : string) (w : world) :
  as_record file = Some r ->
  downloadable r = false ->
  download_files_from_ftp H (JArr (file :: rest)) output_folder w
  = (Raise IndexError,
     match ftp_location r with
     | Some u => record (Log DEBUG ("ftp_filepath:" ++ u)) w
     | None => w
     end).
Proof.
  intros Hr Hd. rewrite download_cons. unfold bind.
  now rewrite (download_one_unservable file r output_folder w Hr Hd).
Qed.

(** X6. A body that is not a list: the download and the copy raise a
    [TypeError] before any event, for [null], a number, a boolean, and at
    the first key of an object or the first character of a string; an empty
    object and an empty string are looped over with no effect. *)
Theorem body_that_is_not_a_list
    (body : json) (output_folder source_dir : string)
    (listing : list string) (w : world) :
  is_list body = false ->
  download_files_from_ftp H body output_folder w = (not_a_list_outcome body, w)
  /\ copy_from_dir H source_dir listing body w = (not_a_list_outcome body, w).
Proof.
  intros Hb. unfold download_files_from_ftp, copy_from_dir.
  destruct body as [| | |s|xs|fields]; try discriminate; try (split; reflexivity).
  - destruct s as [|c s]; split; reflexivity.
  - destruct fields as [|[k v] fields]; split; reflexivity.
Qed.

End Batches.

Lemma download_writes_under_output_folder_witness :
  forallb (download_event "out/")
    (new_events sample_world
       (snd (download_files_from_ftp (serving JNull) (JArr [record_a; record_c])
               "out/" sample_world)))
  = true.
Proof.
  exact (proj1 (download_writes_under_output_folder (serving JNull)
                  (JArr [record_a; record_c]) "out/" sample_world)).
Defined.

Lemma download_stops_at_unservable_record_witness :
  download_files_from_ftp (serving JNull) (JArr [record_aspera_only; record_a])
    "out/" sample_world
  = (Raise IndexError, sample_world)
  /\ download_files_from_ftp (serving JNull) (JArr [record_bare; record_a])
       "out/" sample_world
     = (Raise IndexError, record (Log DEBUG "ftp_filepath:a.raw") sample_world).
Proof.
  split.
  - apply (download_stops_at_unservable_record (serving JNull) record_aspera_only
             [record_a]
             {| rec_accession := "PXD008644";
                rec_locations :=
                  [{| loc_name := "Aspera Protocol"; loc_value := aspera ++ "a.raw" |}] |}
             "out/" sample_world); reflexivity.
  - apply (download_stops_at_unservable_record (serving JNull) record_bare
             [record_a]
             {| rec_accession := "PXD008644";
                rec_locations :=
                  [{| loc_name := "FTP Protocol"; loc_value := "a.raw" |}] |}
             "out/" sample_world); reflexivity.
Defined.

Lemma body_that_is_not_a_list_witness :
  download_files_from_ftp (serving JNull) error_body "out/" sample_world
  = (Raise TypeError, sample_world)
  /\ copy_from_dir (serving JNull) "/data/" ["a.raw"] error_body sample_world
     = (Raise TypeError, sample_world).
Proof.
  apply (body_that_is_not_a_list (serving JNull) error_body "out/" "/data/"
           ["a.raw"] sample_world).
  reflexivity.
Defined.

(** ** The downloads, from the directory to the retrievals *)

Section Downloads.

Variable H : host.

(** The creation of a directory, then steps that create none. *)
Lemma mkdir_then {A : Type} (out : string) (k : unit -> M A) (w : world) :
  (forall x, only not_mkdir (k x)) ->
  mkdirs (new_events w
    (snd (bind (os_call (Mkdir out) (os_mkdir H out)) k w))) = [out]
  /\ hd_error (new_events w
       (snd (bind (os_call (Mkdir out) (os_mkdir H out)) k w))) = Some (Mkdir out)
  /\ (forall e, fst (os_mkdir H out (w_fs w)) = Some e ->
        fst (bind (os_call (Mkdir out) (os_mkdir H out)) k w) = Raise (External e)
        /\ new_events w (snd (bind (os_call (Mkdir out) (os_mkdir H out)) k w))
           = [Mkdir out]).
Proof.
  intros Hk. unfold bind.
  pose proof (os_call_trace (Mkdir out) (os_mkdir H out) w) as T.
  pose proof (os_call_result (Mkdir out) (os_mkdir H out) w) as R.
  destruct (os_call (Mkdir out) (os_mkdir H out) w) as [[[]|x] w1];
    cbn [fst snd] in *.
  - destruct (Hk tt w1) as [evs [E P]].
    rewrite T, <- app_assoc in E. rewrite (new_events_app _ _ _ E).
    cbn [app mkdirs flat_map hd_error]. fold (mkdirs evs).
    rewrite (forallb_not_mkdir evs P).
    split; [reflexivity|]. split; [reflexivity|].
    intros e He. rewrite He in R. discriminate.
  - rewrite (new_events_app _ _ _ T).
    split; [reflexivity|]. split; [reflexivity|].
    intros e He. rewrite He in R. injection R as ->. now split.
Qed.

(** X7. When the output directory is not there,
    [download_raw_files_from_ftp] and [download_file_from_ftp_by_name]
    start with [os.mkdir(output_folder)] and call it once only; when it
    raises, the exception goes up as it is and no request is made. *)
Theorem missing_output_directory_is_created
    (accession file_name output_folder : string) (w : world) :
  isdir (w_fs w) output_folder = false ->
  (mkdirs (new_events w
     (snd (download_raw_files_from_ftp H accession output_folder w)))
   = [output_folder]
   /\ hd_error (new_events w
        (snd (download_raw_files_from_ftp H accession output_folder w)))
      = Some (Mkdir output_folder)
   /\ (forall e, fst (os_mkdir H output_folder (w_fs w)) = Some e ->
         fst (download_raw_files_from_ftp H accession output_folder w)
         = Raise (External e)
         /\ new_events w
              (snd (download_raw_files_from_ftp H accession output_folder w))
            = [Mkdir output_folder]))
  /\ (mkdirs (new_events w
        (snd (download_file_from_ftp_by_name H accession file_name output_folder w)))
      = [output_folder]
      /\ hd_error (new_events w
           (snd (download_file_from_ftp_by_name H accession file_name
                   output_folder w)))
         = Some (Mkdir output_folder)
      /\ (forall e, fst (os_mkdir H output_folder (w_fs w)) = Some e ->
            fst (download_file_from_ftp_by_name H accession file_name
                   output_folder w)
            = Raise (External e)
            /\ new_events w
                 (snd (download_file_from_ftp_by_name H accession file_name
                         output_folder w))
               = [Mkdir output_folder])).
Proof.
  intros Hdir. split.
  - unfold download_raw_files_from_ftp. rewrite bind_isdir, Hdir. cbn [negb].
    apply mkdir_then. intros _.
    apply only_bind; [now apply only_get_all_raw_file_list|].
    intros body. apply download_makes_no_directory.
  - unfold download_file_from_ftp_by_name. rewrite bind_isdir, Hdir. cbn [negb].
    apply mkdir_then. intros _.
    apply only_bind; [now apply only_get_file_from_api|].
    intros body. apply download_makes_no_directory.
Qed.

(** The step that ensures the directory, when it ends normally. *)
Lemma ensure_directory {A : Type} (out : string) (k : unit -> M A) (w : world) :
  isdir (w_fs w) out = true \/ fst (os_mkdir H out (w_fs w)) = None ->
  exists w1,
    bind (if negb (isdir (w_fs w) out)
          then os_call (Mkdir out) (os_mkdir H out)
          else ret tt) k w
    = k tt w1
    /\ w_trace w1 = (w_trace w ++ ensure_events (w_fs w) out)%list.
Proof.
  intros Hok. unfold ensure_events.
  destruct (isdir (w_fs w) out) eqn:D; cbn [negb].
  - exists w. rewrite bind_ret_tt, app_nil_r. now split.
  - destruct Hok as [Hok|Hok]; [discriminate|]. unfold bind.
    pose proof (os_call_trace (Mkdir out) (os_mkdir H out) w) as T.
    pose proof (os_call_result (Mkdir out) (os_mkdir H out) w) as R.
    rewrite Hok in R.
    destruct (os_call (Mkdir out) (os_mkdir H out) w) as [[[]|x] w1];
      cbn [fst snd] in *; [|discriminate].
    now exists w1.
Qed.

(** X8. When the request fails, nothing is retrieved: the directory has
    been ensured, the one GET is made, and the failure leaves
    [download_raw_files_from_ftp] as it is and
    [download_file_from_ftp_by_name] wrapped in the plain [Exception] of
    [get_file_from_api]. *)
Theorem download_request_failure
    (accession file_name output_folder : string) (e : external_error) (w : world) :
  isdir (w_fs w) output_folder = true
  \/ fst (os_mkdir H output_folder (w_fs w)) = None ->
  (api_json H (raw_files_url accession) accept_json = inl e ->
   fst (download_raw_files_from_ftp H accession output_folder w)
   = Raise (External e)
   /\ new_events w (snd (download_raw_files_from_ftp H accession output_folder w))
      = (ensure_events (w_fs w) output_folder
         ++ [Get (raw_files_url accession) accept_json])%list)
  /\ (api_json H (file_by_name_url accession file_name) accept_json = inl e ->
      fst (download_file_from_ftp_by_name H accession file_name output_folder w)
      = Raise (Exception_ ("File not found" ++ err_text e))
      /\ new_events w
           (snd (download_file_from_ftp_by_name H accession file_name
                   output_folder w))
         = (ensure_events (w_fs w) output_folder
            ++ [Get (file_by_name_url accession file_name) accept_json])%list).
Proof.
  intros Hdir. split; intros Hapi.
  - unfold download_raw_files_from_ftp. rewrite bind_isdir.
    destruct (ensure_directory output_folder
                (fun _ => response_body <- get_all_raw_file_list H accession ;;
                          download_files_from_ftp H response_body output_folder)
                w Hdir) as [w1 [-> T]].
    unfold bind. rewrite get_all_raw_file_list_run, Hapi. cbn [fst snd].
    split; [reflexivity|]. apply new_events_app.
    unfold record. cbn [w_trace]. now rewrite T, <- app_assoc.
  - unfold download_file_from_ftp_by_name. rewrite bind_isdir.
    destruct (ensure_directory output_folder
                (fun _ => response <- get_file_from_api H accession file_name ;;
                          download_files_from_ftp H response output_folder)
                w Hdir) as [w1 [-> T]].
    unfold bind. rewrite get_file_from_api_run, Hapi. cbn [fst snd].
    split; [reflexivity|]. apply new_events_app.
    unfold record. cbn [w_trace]. now rewrite T, <- app_assoc.
Qed.

(** The loop over records it can serve, when every retrieval returns: the
    three events of each record, in list order, and a normal end. *)
Lemma download_loop_events (files : list json) (recs : list FileRecord) (out : string) :
  Forall2 (fun j r => as_record j = Some r) files recs ->
  forallb downloadable recs = true ->
  (forall u f fs, In (u, f) (expected_retrievals out recs) ->
                  fst (url_retrieve H u f fs) = None) ->
  forall w, exists w',
    download_files_from_ftp H (JArr files) out w = (Ok tt, w')
    /\ w_trace w' = (w_trace w ++ flat_map (download_steps out) recs)%list.
Proof.
  induction 1 as [|file r files recs Hr Hrest IH]; intros Hd Hok w.
  - exists w. rewrite download_nil. simpl. now rewrite app_nil_r.
  - simpl in Hd. apply andb_prop in Hd as [Hd1 Hd].
    unfold downloadable in Hd1.
    destruct (ftp_location r) as [u|] eqn:Hu; [|discriminate].
    rewrite download_cons. unfold bind at 1.
    rewrite (download_one H file r u out w Hr Hu Hd1).
    set (w2 := record _ (record _ w)).
    pose proof (os_call_trace (UrlRetrieve u (out ++ after_last_slash u))
                  (url_retrieve H u (out ++ after_last_slash u)) w2) as T.
    pose proof (os_call_result (UrlRetrieve u (out ++ after_last_slash u))
                  (url_retrieve H u (out ++ after_last_slash u)) w2) as R.
    rewrite Hok in R.
    2:{ simpl. unfold retrieval_of at 1. rewrite Hu. now left. }
    assert (T2 : w_trace w2
                 = (w_trace w ++ [Log DEBUG ("ftp_filepath:" ++ u);
                      Log DEBUG (rec_accession r ++ " -> " ++ after_last_slash u)])%list).
    { subst w2. unfold record. cbn [w_trace]. now rewrite <- app_assoc. }
    rewrite T2, <- app_assoc in T. cbn [app] in T. clearbody w2.
    destruct (os_call _ _ w2) as [[[]|e] w3]; cbn [fst snd] in *; [|discriminate].
    destruct (IH Hd (fun u' f' fs' Hin =>
                       Hok u' f' fs' (in_or_app _ _ _ (or_intror Hin))) w3)
      as [w' [Hrun Ht]].
    exists w'. split; [assumption|].
    rewrite Ht, T. cbn [flat_map]. unfold download_steps at 2. rewrite Hu.
    now rewrite <- app_assoc.
Qed.

(** X9. From the request to the retrievals: when the output directory
    is there or can be made, the answer is a list of records the download
    can serve and every retrieval returns, [download_raw_files_from_ftp]
    (for the raw files of the project) and
    [download_file_from_ftp_by_name] (for the files of that name) ensure
    the directory, make their one request, then log and retrieve each record
    of the answer in the order of the answer, and end normally. *)
Theorem download_end_to_end
    (accession file_name output_folder : string)
    (files : list json) (recs : list FileRecord) (w : world) :
  isdir (w_fs w) output_folder = true
  \/ fst (os_mkdir H output_folder (w_fs w)) = None ->
  Forall2 (fun j r => as_record j = Some r) files recs ->
  forallb downloadable recs = true ->
  (forall u f fs, In (u, f) (expected_retrievals output_folder recs) ->
                  fst (url_retrieve H u f fs) = None) ->
  (api_json H (raw_files_url accession) accept_json = inr (JArr files) ->
   fst (download_raw_files_from_ftp H accession output_folder w) = Ok tt
   /\ new_events w (snd (download_raw_files_from_ftp H accession output_folder w))
      = (ensure_events (w_fs w) output_folder
         ++ [Get (raw_files_url accession) accept_json]
         ++ flat_map (download_steps output_folder) recs)%list)
  /\ (api_json H (file_by_name_url accession file_name) accept_json
      = inr (JArr files) ->
      fst (download_file_from_ftp_by_name H accession file_name output_folder w)
      = Ok tt
      /\ new_events w
           (snd (download_file_from_ftp_by_name H accession file_name
                   output_folder w))
         = (ensure_events (w_fs w) output_folder
            ++ [Get (file_by_name_url accession file_name) accept_json]
            ++ flat_map (download_steps output_folder) recs)%list).
Proof.
  intros Hdir Hrecs Hd Hok. split; intros Hapi.
  - unfold download_raw_files_from_ftp. rewrite bind_isdir.
    destruct (ensure_directory output_folder
                (fun _ => response_body <- get_all_raw_file_list H accession ;;
                          download_files_from_ftp H response_body output_folder)
                w Hdir) as [w1 [-> T]].
    unfold bind. rewrite get_all_raw_file_list_run, Hapi.
    destruct (download_loop_events files recs output_folder Hrecs Hd Hok
                (record (Get (raw_files_url accession) accept_json) w1))
      as [w' [-> Ht]].
    cbn [fst snd]. split; [reflexivity|]. apply new_events_app.
    rewrite Ht. unfold record. cbn [w_trace]. now rewrite T, <- !app_assoc.
  - unfold download_file_from_ftp_by_name. rewrite bind_isdir.
    destruct (ensure_directory output_folder
                (fun _ => response <- get_file_from_api H accession file_name ;;
                          download_files_from_ftp H response output_folder)
                w Hdir) as [w1 [-> T]].
    unfold bind. rewrite get_file_from_api_run, Hapi.
    destruct (download_loop_events files recs output_folder Hrecs Hd Hok
                (record (Get (file_by_name_url accession file_name) accept_json) w1))
      as [w' [-> Ht]].
    cbn [fst snd]. split; [reflexivity|]. apply new_events_app.
    rewrite Ht. unfold record. cbn [w_trace]. now rewrite T, <- !app_assoc.
Qed.

End Downloads.

Lemma missing_output_directory_is_created_witness :
  mkdirs (new_events sample_world
    (snd (download_raw_files_from_ftp (serving (JArr [record_a])) "PXD008644"
            "/new/" sample_world)))
  = ["/new/"]
  /\ fst (download_file_from_ftp_by_name (no_parent (JArr [record_a])) "PXD008644"
            "a.raw" "/nowhere/new/" sample_world)
     = Raise (External {| err_class := "FileNotFoundError";
                          err_text := "[Errno 2] No such file or directory" |})
  /\ new_events sample_world
       (snd (download_file_from_ftp_by_name (no_parent (JArr [record_a])) "PXD008644"
               "a.raw" "/nowhere/new/" sample_world))
     = [Mkdir "/nowhere/new/"].
Proof.
  split.
  - exact (proj1 (proj1 (missing_output_directory_is_created
                           (serving (JArr [record_a])) "PXD008644" "a.raw" "/new/"
                           sample_world eq_refl))).
  - exact (proj2 (proj2 (proj2 (missing_output_directory_is_created
                                  (no_parent (JArr [record_a])) "PXD008644" "a.raw"
                                  "/nowhere/new/" sample_world eq_refl)))
             _ eq_refl).
Defined.

Lemma download_request_failure_witness :
  fst (download_raw_files_from_ftp failing_api "PXD008644" "/out/" sample_world)
  = Raise (External not_found)
  /\ fst (download_file_from_ftp_by_name failing_api "PXD008644" "missing.raw"
            "/new/" sample_world)
     = Raise (Exception_ "File not found404 Client Error: Not Found")
  /\ new_events sample_world
       (snd (download_file_from_ftp_by_name failing_api "PXD008644" "missing.raw"
               "/new/" sample_world))
     = [Mkdir "/new/"; Get (file_by_name_url "PXD008644" "missing.raw") accept_json].
Proof.
  split.
  - exact (proj1 (proj1 (download_request_failure failing_api "PXD008644"
                           "missing.raw" "/out/" not_found sample_world
                           (or_introl eq_refl))
                    eq_refl)).
  - exact (proj2 (download_request_failure failing_api "PXD008644"
                    "missing.raw" "/new/" not_found sample_world
                    (or_intror eq_refl))
             eq_refl).
Defined.

Lemma download_end_to_end_witness :
  fst (download_raw_files_from_ftp (serving (JArr [record_a; record_c]))
         "PXD008644" "/out/" sample_world) = Ok tt
  /\ new_events sample_world
       (snd (download_raw_files_from_ftp (serving (JArr [record_a; record_c]))
               "PXD008644" "/out/" sample_world))
     = [Get (raw_files_url "PXD008644") accept_json;
        Log DEBUG ("ftp_filepath:" ++ archive ++ "a.raw");
        Log DEBUG "PXD008644 -> a.raw";
        UrlRetrieve (archive ++ "a.raw") "/out/a.raw";
        Log DEBUG ("ftp_filepath:" ++ archive ++ "c.raw");
        Log DEBUG "PXD008644 -> c.raw";
        UrlRetrieve (archive ++ "c.raw") "/out/c.raw"].
Proof.
  refine (proj1 (download_end_to_end (serving (JArr [record_a; record_c]))
                   "PXD008644" "a.raw" "/out/" [record_a; record_c]
                   [typed_a; typed_c] sample_world (or_introl eq_refl) _ eq_refl _)
            eq_refl).
  - repeat constructor.
  - intros u f fs _. reflexivity.
Defined.

(** ** The path fragment: what comes back, and what is raised *)

Section PathFragmentOutcomes.

Variable H : host.

Lemma path_prefix_request_failure (accession : string) (e : external_error) (w : world) :
  api_json H (raw_files_url accession) accept_json = inl e ->
  get_submitted_file_path_prefix H accession w
  = (Raise (External e), record (Get (raw_files_url accession) accept_json) w).
Proof.
  intros Hb. unfold get_submitted_file_path_prefix.
  unfold bind at 1. now rewrite get_all_raw_file_list_run, Hb.
Qed.

Lemma path_prefix_world (accession : string) (w : world) :
  snd (get_submitted_file_path_prefix H accession w)
  = record (Get (raw_files_url accession) accept_json) w.
Proof.
  destruct (api_json H (raw_files_url accession) accept_json) as [e|results] eqn:Hb.
  - now rewrite (path_prefix_request_failure accession e w Hb).
  - now rewrite (path_prefix_run H accession results w Hb).
Qed.

(** X10. Whatever [get_submitted_file_path_prefix] returns has the
    shape [\d{4}/\d{2}/PXD\d*] and none of the characters [*], [?], [[]; and
    it returns only when the request succeeded and the value of the first
    location of the first record is a string, of which the result is the
    first substring of that shape. *)
Theorem path_prefix_is_a_fragment (accession : string) (w : world) (m : string) :
  fst (get_submitted_file_path_prefix H accession w) = Ok m ->
  is_path_fragment m = true
  /\ has_magic m = false
  /\ exists results first_file,
       api_json H (raw_files_url accession) accept_json = inr results
       /\ results.[0].$["publicFileLocations"].[0].$["value"] = Ok (JStr first_file)
       /\ first_fragment first_file m.
Proof.
  destruct (api_json H (raw_files_url accession) accept_json) as [e|results] eqn:Hb.
  - rewrite (path_prefix_request_failure accession e w Hb). discriminate.
  - rewrite (path_prefix_run H accession results w Hb). cbn [fst].
    destruct (results.[0].$["publicFileLocations"].[0].$["value"]) as [v|e] eqn:Hv;
      [|discriminate].
    cbn [rbind]. destruct v as [| | |s| |]; try discriminate.
    cbn [re_search_value rbind].
    destruct (re_search s) as [m'|] eqn:R; [|discriminate].
    intros [= ->]. pose proof (re_search_first s m R) as F.
    assert (Hm : is_path_fragment m = true).
    { now destruct F as [pre [post [_ [Hm _]]]]. }
    split; [exact Hm|]. split; [now apply fragment_no_magic|].
    now exists results, s.
Qed.

(** X11. What [get_submitted_file_path_prefix] raises on an answer
    that is not a list of records with locations, one GET having been made
    in every case: a failure of the request goes up as it is; a body that is
    an object, or a first record without [publicFileLocations], is a
    [KeyError]; a first record with no location is an [IndexError]; a first
    location value that is not a string is a [TypeError]. *)
Theorem path_prefix_on_malformed_answer (accession : string) (w : world) :
  snd (get_submitted_file_path_prefix H accession w)
  = {| w_fs := w_fs w;
       w_trace := (w_trace w ++ [Get (raw_files_url accession) accept_json])%list |}
  /\ (forall e,
        api_json H (raw_files_url accession) accept_json = inl e ->
        fst (get_submitted_file_path_prefix H accession w) = Raise (External e))
  /\ (forall results,
        api_json H (raw_files_url accession) accept_json = inr results ->
        (forall fields, results = JObj fields ->
           fst (get_submitted_file_path_prefix H accession w) = Raise KeyError)
        /\ (forall fields rest,
              results = JArr (JObj fields :: rest) ->
              lookup "publicFileLocations" fields = None ->
              fst (get_submitted_file_path_prefix H accession w) = Raise KeyError)
        /\ (forall fields rest,
              results = JArr (JObj fields :: rest) ->
              lookup "publicFileLocations" fields = Some (JArr []) ->
              fst (get_submitted_file_path_prefix H accession w) = Raise IndexError)
        /\ (forall v,
              results.[0].$["publicFileLocations"].[0].$["value"] = Ok v ->
              (forall s, v <> JStr s) ->
              fst (get_submitted_file_path_prefix H accession w) = Raise TypeError)).
Proof.
  split; [apply path_prefix_world|]. split.
  - intros e Hb. now rewrite (path_prefix_request_failure accession e w Hb).
  - intros results Hb. rewrite (path_prefix_run H accession results w Hb).
    cbn [fst]. repeat split.
    + now intros fields ->.
    + intros fields rest -> Hl. cbn [evaluated rbind getitem_int nth_error getitem_str].
      now rewrite Hl.
    + intros fields rest -> Hl. cbn [evaluated rbind getitem_int nth_error getitem_str].
      now rewrite Hl.
    + intros v -> Hv. cbn [rbind].
      destruct v as [| | |s| |]; try reflexivity. now destruct (Hv s).
Qed.

End PathFragmentOutcomes.

Lemma path_prefix_is_a_fragment_witness :
  is_path_fragment "2018/10/PXD008644" = true
  /\ has_magic "2018/10/PXD008644" = false
  /\ exists results first_file,
       api_json (serving (JArr [record_7550])) (raw_files_url "PXD008644") accept_json
       = inr results
       /\ results.[0].$["publicFileLocations"].[0].$["value"] = Ok (JStr first_file)
       /\ first_fragment first_file "2018/10/PXD008644".
Proof.
  exact (path_prefix_is_a_fragment (serving (JArr [record_7550])) "PXD008644"
           sample_world "2018/10/PXD008644" eq_refl).
Defined.

Lemma path_prefix_on_malformed_answer_witness :
  fst (get_submitted_file_path_prefix failing_api "PXD008644" sample_world)
  = Raise (External not_found)
  /\ fst (get_submitted_file_path_prefix (serving error_body) "PXD008644" sample_world)
     = Raise KeyError
  /\ fst (get_submitted_file_path_prefix
            (serving (JArr [JObj [("accession", JStr "PXD008644")]]))
            "PXD008644" sample_world)
     = Raise KeyError
  /\ fst (get_submitted_file_path_prefix
            (serving (JArr [record_json "PXD008644" "a.raw" []]))
            "PXD008644" sample_world)
     = Raise IndexError
  /\ fst (get_submitted_file_path_prefix
            (serving (JArr [record_json "PXD008644" "a.raw"
                              [JObj [("name", JStr "FTP Protocol"); ("value", JNull)]]]))
            "PXD008644" sample_world)
     = Raise TypeError.
Proof.
  split; [|split; [|split; [|split]]].
  - exact (proj1 (proj2 (path_prefix_on_malformed_answer failing_api "PXD008644"
                           sample_world))
             not_found eq_refl).
  - exact (proj1 (proj2 (proj2 (path_prefix_on_malformed_answer (serving error_body)
                                  "PXD008644" sample_world))
                    error_body eq_refl)
             _ eq_refl).
  - exact (proj1 (proj2 (proj2 (proj2 (path_prefix_on_malformed_answer
                                         (serving (JArr [JObj [("accession", JStr "PXD008644")]]))
                                         "PXD008644" sample_world))
                           _ eq_refl))
             _ _ eq_refl eq_refl).
  - exact (proj1 (proj2 (proj2 (proj2 (proj2 (path_prefix_on_malformed_answer
                                         (serving (JArr [record_json "PXD008644" "a.raw" []]))
                                         "PXD008644" sample_world))
                           _ eq_refl)))
             _ _ eq_refl eq_refl).
  - refine (proj2 (proj2 (proj2 (proj2 (proj2 (path_prefix_on_malformed_answer
                                         (serving (JArr [record_json "PXD008644" "a.raw"
                              [JObj [("name", JStr "FTP Protocol"); ("value", JNull)]]]))
                                         "PXD008644" sample_world))
                           _ eq_refl)))
             JNull eq_refl _).
    intros s. discriminate.
Defined.

(** ** The listing, for any location and pattern *)

Lemma path_split_plain (p : string) : has_slash p = false -> path_split p = ("", p).
Proof.
  intros Hp. apply rsplit1_none in Hp. unfold path_split. now rewrite Hp.
Qed.

Lemma valid_names_plain (names : list string) :
  forallb valid_name names = true ->
  forallb (fun n => negb (has_slash n)) names = true.
Proof.
  induction names as [|n names IH]; simpl; [reflexivity|].
  intros E. apply andb_prop in E as [Hn E]. rewrite (IH E), andb_true_r.
  destruct (valid_name_parts n Hn) as [_ [-> _]]. reflexivity.
Qed.

Lemma basenames_plain (paths : list string) :
  forallb has_slash paths = true ->
  forallb (fun n => negb (has_slash n)) (map after_last_slash paths) = true.
Proof.
  induction paths as [|p paths IH]; simpl; [reflexivity|].
  intros E. apply andb_prop in E as [Hp E]. rewrite (IH E), andb_true_r.
  destruct (after_last_slash_spec p Hp) as [a [_ ->]]. reflexivity.
Qed.

Section PlainPatterns.

Variable fnmatch : string -> string -> bool.
Variable fs : filesystem.
Hypothesis fs_wf : wf_fs fs = true.

(** No path that [glob] yields for a pattern without ['/'] has one. *)
Lemma iglob_plain (n : nat) (p : string) (dironly : bool) :
  has_slash p = false ->
  forallb (fun x => negb (has_slash x)) (iglob fnmatch fs n p dironly) = true.
Proof.
  intros Hp. destruct n as [|n]; [reflexivity|]. cbn [iglob].
  rewrite (path_split_plain p Hp).
  destruct (negb (has_magic p)).
  - destruct (truthy p).
    + destruct (lexists fs p); simpl; [now rewrite Hp | reflexivity].
    + destruct (isdir fs ""); simpl; [now rewrite Hp | reflexivity].
  - cbn [truthy negb]. apply valid_names_plain, glob1_valid, fs_wf.
Qed.

End PlainPatterns.

Section ListingOutcome.

Variable H : host.

Lemma get_files_from_dir_raises (location regex p : string) (rest : list string)
    (w : world) :
  glob (fnmatchcase H) (w_fs w) (location ++ regex) = p :: rest ->
  has_slash p = false ->
  get_files_from_dir H location regex w
  = (Raise IndexError, record (Log DEBUG ("found file: " ++ p)) w).
Proof.
  intros HG Hp. unfold get_files_from_dir. unfold bind at 1. unfold glob_glob.
  rewrite HG. cbn [for_append].
  unfold bind, logging_debug, emit, lift.
  now rewrite (py_rsplit_item1_none p Hp).
Qed.

(** X12. [get_files_from_dir] over any location and pattern.  When
    [location + regex] has a ['/'], every path [glob] yields has one: each
    is logged, and the names returned are what follows the last ['/'] of
    each, in that order, none with a ['/'] in it.  When [location + regex]
    has no ['/'], no path [glob] yields has one: with no match the result is
    the empty list, and with a match the first path is logged and
    [file.rsplit('/', 1)[1]] raises an [IndexError].  The file tree is read
    only. *)
Theorem get_files_from_dir_outcome (location regex : string) (w : world) :
  wf_fs (w_fs w) = true ->
  (has_slash (location ++ regex) = true ->
   get_files_from_dir H location regex w
   = (Ok (map after_last_slash (glob (fnmatchcase H) (w_fs w) (location ++ regex))),
      {| w_fs := w_fs w;
         w_trace := (w_trace w
                     ++ map (fun p => Log DEBUG ("found file: " ++ p))
                          (glob (fnmatchcase H) (w_fs w) (location ++ regex)))%list |})
   /\ forallb (fun n => negb (has_slash n))
        (map after_last_slash (glob (fnmatchcase H) (w_fs w) (location ++ regex)))
      = true)
  /\ (has_slash (location ++ regex) = false ->
      get_files_from_dir H location regex w
      = match glob (fnmatchcase H) (w_fs w) (location ++ regex) with
        | [] => (Ok [], w)
        | p :: _ => (Raise IndexError, record (Log DEBUG ("found file: " ++ p)) w)
        end).
Proof.
  intros Hwf. split; intros Hs.
  - assert (Hall : forallb has_slash
                     (glob (fnmatchcase H) (w_fs w) (location ++ regex)) = true).
    { unfold glob. now apply iglob_has_slash. }
    split; [|now apply basenames_plain].
    apply get_files_from_dir_run. now apply basenames_of_paths.
  - pose proof (iglob_plain (fnmatchcase H) (w_fs w) Hwf
                  (S (String.length (location ++ regex))) (location ++ regex)
                  false Hs) as Hall.
    fold (glob (fnmatchcase H) (w_fs w) (location ++ regex)) in Hall.
    destruct (glob (fnmatchcase H) (w_fs w) (location ++ regex)) as [|p rest] eqn:HG.
    + rewrite (get_files_from_dir_run H location regex [] w).
      * rewrite HG. cbn [map]. rewrite app_nil_r. now destruct w.
      * rewrite HG. constructor.
    + cbn [forallb] in Hall. apply andb_prop in Hall as [Hp _].
      apply negb_true_iff in Hp.
      now apply (get_files_from_dir_raises location regex p rest w).
Qed.

End ListingOutcome.

Lemma get_files_from_dir_outcome_witness :
  get_files_from_dir (serving JNull) "/data" "/*.raw" sample_world
  = (Ok ["a.raw"],
     {| w_fs := sample_fs; w_trace := [Log DEBUG "found file: /data/a.raw"] |})
  /\ get_files_from_dir (serving JNull) "data" "*.raw" sample_world
     = (Raise IndexError, record (Log DEBUG "found file: data1.raw") sample_world)
  /\ get_files_from_dir (serving JNull) "" "*.txt" sample_world
     = (Ok [], sample_world).
Proof.
  split; [|split].
  - exact (proj1 (proj1 (get_files_from_dir_outcome (serving JNull) "/data" "/*.raw"
                           sample_world eq_refl)
                    eq_refl)).
  - exact (proj2 (get_files_from_dir_outcome (serving JNull) "data" "*.raw"
                    sample_world eq_refl)
             eq_refl).
  - exact (proj2 (get_files_from_dir_outcome (serving JNull) "" "*.txt"
                    sample_world eq_refl)
             eq_refl).
Defined.

(** ** The copy, for any list of records *)

Lemma ends_with_append (a s : string) : ends_with s (a ++ s) = true.
Proof.
  induction a as [|c a IH]; cbn [append].
  - destruct s; cbn [ends_with]; now rewrite String.eqb_refl.
  - cbn [ends_with]. rewrite IH. apply orb_true_r.
Qed.

Lemma ends_with_spec (suffix s : string) :
  ends_with suffix s = true -> exists a, s = a ++ suffix.
Proof.
  induction s as [|c s IH]; cbn [ends_with].
  - rewrite orb_false_r. intros E. apply String.eqb_eq in E. now exists "".
  - intros E. apply orb_prop in E as [E|E].
    + apply String.eqb_eq in E. now exists "".
    + destruct (IH E) as [a ->]. now exists (String c a).
Qed.

Lemma py_in_In (x : string) (xs : list string) : py_in x xs = true -> In x xs.
Proof.
  unfold py_in. intros E. apply existsb_exists in E as [y [Hin Hy]].
  apply String.eqb_eq in Hy. now subst.
Qed.

Section CopyOfAnyList.

Variable H : host.

Lemma copy_events_only (dir : string) (listing : list string) (j : json) :
  only (copy_event dir listing) (copy_from_dir H dir listing j).
Proof.
  unfold copy_from_dir, logging_error.
  apply only_bind_lift; intros files _.
  apply only_for_each; intros file.
  apply only_bind_lift; intros ftp_filepath _.
  apply only_bind_lift; intros parts Hparts.
  apply only_bind_lift; intros name Hname.
  destruct (py_in name listing) eqn:Hin; [|now apply only_emit].
  apply only_bind_lift; intros accession _.
  apply only_bind_lift; intros prefix Hprefix.
  apply only_os_call.
  destruct ftp_filepath as [| | |s| |]; try discriminate.
  injection Hparts as <-.
  destruct (py_rsplit_item1_inv s name Hname) as [Hs ->].
  destruct accession as [| | |a| |]; try discriminate.
  injection Hprefix as <-.
  cbn [copy_event]. apply existsb_exists. exists (after_last_slash s).
  split; [now apply py_in_In|].
  rewrite String.eqb_refl, append_assoc, ends_with_append.
  destruct (after_last_slash_spec s Hs) as [x [_ ->]]. reflexivity.
Qed.

(** X13. Whatever the list of files holds and whatever the host does,
    [copy_from_dir] does nothing but log at level ERROR and copy; every
    copy is of [source_dir + n], for a name [n] of the listing that has no
    ['/'], to a name that ends with [-n].  With an empty listing nothing is
    copied. *)
Theorem copy_takes_listed_names_only
    (source_dir : string) (listing : list string) (file_list_json : json)
    (w : world) :
  forallb (copy_event source_dir listing)
    (new_events w (snd (copy_from_dir H source_dir listing file_list_json w)))
  = true
  /\ (forall s d,
        In (s, d) (copies (new_events w
             (snd (copy_from_dir H source_dir listing file_list_json w)))) ->
        exists n a,
          In n listing /\ has_slash n = false
          /\ s = source_dir ++ n /\ d = a ++ "-" ++ n)
  /\ (listing = [] ->
      copies (new_events w
        (snd (copy_from_dir H source_dir listing file_list_json w))) = []).
Proof.
  pose proof (only_new_events (copy_event source_dir listing) _ w
                (copy_events_only source_dir listing file_list_json)) as Hall.
  assert (Hcopies : forall s d,
             In (s, d) (copies (new_events w
                  (snd (copy_from_dir H source_dir listing file_list_json w)))) ->
             exists n a,
               In n listing /\ has_slash n = false
               /\ s = source_dir ++ n /\ d = a ++ "-" ++ n).
  { intros s d.
    induction (new_events w
                 (snd (copy_from_dir H source_dir listing file_list_json w)))
      as [|e evs IH]; [intros []|].
    cbn [forallb] in Hall. apply andb_prop in Hall as [He Hrest].
    unfold copies. cbn [flat_map]. intros Hin. apply in_app_or in Hin as [Hin|Hin].
    - destruct e as [| | | |s' d']; try contradiction.
      destruct Hin as [[= -> ->]|[]].
      cbn [copy_event] in He. apply existsb_exists in He as [n [Hn He]].
      apply andb_prop in He as [He Hplain]. apply andb_prop in He as [Hsrc Hdst].
      apply String.eqb_eq in Hsrc. apply negb_true_iff in Hplain.
      destruct (ends_with_spec _ _ Hdst) as [a Ha].
      now exists n, a.
    - now apply IH. }
  split; [exact Hall|]. split; [exact Hcopies|].
  intros ->.
  destruct (copies (new_events w
              (snd (copy_from_dir H source_dir [] file_list_json w))))
    as [|[s d] rest]; [reflexivity|].
  destruct (Hcopies s d (or_introl eq_refl)) as [n [a [[] _]]].
Qed.

(** X14. A record without [accession].  The copy reads the key only
    for a file that is in the listing: the record raises a [KeyError]
    there, before any copy, and is reported as not found and passed over
    otherwise.  The download reads the key for every record, once the URI
    is logged and before the retrieval. *)
Theorem record_without_accession
    (file : json) (rest : list json) (u : string)
    (source_dir output_folder : string) (listing : list string) (w : world) :
  file.$["accession"] = Raise KeyError ->
  file.$["publicFileLocations"].[0].$["value"] = Ok (JStr u) ->
  has_slash u = true ->
  copy_from_dir H source_dir listing (JArr (file :: rest)) w
  = (if py_in (after_last_slash u) listing
     then (Raise KeyError, w)
     else copy_from_dir H source_dir listing (JArr rest)
            (record (Log ERROR (after_last_slash u ++ " not found in " ++ source_dir)) w))
  /\ (file.$["publicFileLocations"].[0].$["name"] = Ok (JStr "FTP Protocol") ->
      download_files_from_ftp H (JArr (file :: rest)) output_folder w
      = (Raise KeyError, record (Log DEBUG ("ftp_filepath:" ++ u)) w)).
Proof.
  intros Ha Hv Hs. split.
  - rewrite copy_cons. unfold bind at 1.
    unfold copy_from_dir at 1. unfold bind at 1. unfold lift at 1.
    cbn [py_iter for_each]. rewrite bind_unit_ret.
    unfold bind at 1. unfold lift at 1. rewrite Hv.
    unfold bind at 1. unfold lift at 1. cbn [rsplit_method].
    unfold bind at 1. unfold lift at 1. rewrite (py_rsplit_item1 _ Hs).
    destruct (py_in (after_last_slash u) listing).
    + unfold bind at 1. unfold lift at 1. now rewrite Ha.
    + reflexivity.
  - intros Hn. rewrite download_cons. unfold bind at 1.
    unfold download_files_from_ftp at 1. unfold bind at 1. unfold lift at 1.
    cbn [py_iter for_each]. rewrite bind_unit_ret.
    unfold bind at 1. unfold lift at 1. rewrite Hn.
    replace (py_eq_str (JStr "FTP Protocol") "FTP Protocol") with true by reflexivity.
    unfold bind at 1. unfold lift at 1. rewrite Hv.
    unfold bind, lift, logging_debug, emit. cbn [str_add rsplit_method].
    now rewrite Ha.
Qed.

(** One record the copy cannot read. *)
Lemma copy_one_unreadable (file : json) (r : FileRecord)
    (source_dir : string) (listing : list string) (w : world) :
  as_record file = Some r ->
  copyable r = false ->
  copy_from_dir H source_dir listing (JArr [file]) w = (Raise IndexError, w).
Proof.
  intros Hr Hc. unfold copy_from_dir. unfold bind at 1. unfold lift at 1.
  cbn [py_iter for_each]. rewrite bind_unit_ret.
  pose proof (record_location file r 0 Hr) as L0.
  unfold copyable, first_location in Hc.
  destruct (rec_locations r) as [|l0 more]; cbn [nth_error] in L0.
  - destruct L0 as [_ V0]. unfold bind at 1. unfold lift at 1. now rewrite V0.
  - destruct L0 as [_ V0]. unfold bind at 1. unfold lift at 1. rewrite V0.
    unfold bind at 1. unfold lift at 1. cbn [rsplit_method].
    unfold bind at 1. unfold lift at 1. now rewrite (py_rsplit_item1_none _ Hc).
Qed.

(** X21. A record the copy cannot read ends the batch with an
    [IndexError] before any event, whatever the listing holds: a record with
    no location, or one whose first location value has no ['/']; the
    records after it are not looked at. *)
Theorem copy_stops_at_unreadable_record
    (file : json) (rest : list json) (r : FileRecord)
    (source_dir : string) (listing : list string) (w : world) :
  as_record file = Some r ->
  copyable r = false ->
  copy_from_dir H source_dir listing (JArr (file :: rest)) w = (Raise IndexError, w).
Proof.
  intros Hr Hc. rewrite copy_cons. unfold bind.
  now rewrite (copy_one_unreadable file r source_dir listing w Hr Hc).
Qed.

End CopyOfAnyList.

Lemma copy_stops_at_unreadable_record_witness :
  copy_from_dir (serving JNull) "/data/" ["a.raw"] (JArr [record_bare; record_a])
    sample_world
  = (Raise IndexError, sample_world)
  /\ copy_from_dir (serving JNull) "/data/" ["a.raw"]
       (JArr [record_json "PXD008644" "a.raw" []; record_a]) sample_world
     = (Raise IndexError, sample_world).
Proof.
  split.
  - apply (copy_stops_at_unreadable_record (serving JNull) record_bare [record_a]
             {| rec_accession := "PXD008644";
                rec_locations :=
                  [{| loc_name := "FTP Protocol"; loc_value := "a.raw" |}] |}
             "/data/" ["a.raw"] sample_world); reflexivity.
  - apply (copy_stops_at_unreadable_record (serving JNull)
             (record_json "PXD008644" "a.raw" []) [record_a]
             {| rec_accession := "PXD008644"; rec_locations := [] |}
             "/data/" ["a.raw"] sample_world); reflexivity.
Defined.

Lemma copy_takes_listed_names_only_witness :
  copies (new_events sample_world
    (snd (copy_from_dir (serving JNull) "/data/" [] (JArr [record_a; record_c])
            sample_world))) = [].
Proof.
  exact (proj2 (proj2 (copy_takes_listed_names_only (serving JNull) "/data/" []
                         (JArr [record_a; record_c]) sample_world))
           eq_refl).
Defined.

Lemma record_without_accession_witness :
  copy_from_dir (serving JNull) "/data/" ["a.raw"]
    (JArr [record_nameless "a.raw"; record_a]) sample_world
  = (Raise KeyError, sample_world)
  /\ fst (copy_from_dir (serving JNull) "/data/" ["a.raw"]
            (JArr [record_nameless "z.raw"; record_a]) sample_world)
     = Ok tt
  /\ download_files_from_ftp (serving JNull)
       (JArr [record_nameless "a.raw"; record_a]) "/out/" sample_world
     = (Raise KeyError,
        record (Log DEBUG ("ftp_filepath:" ++ archive ++ "a.raw")) sample_world).
Proof.
  split; [|split].
  - exact (proj1 (record_without_accession (serving JNull) (record_nameless "a.raw")
                    [record_a] (archive ++ "a.raw") "/data/" "/out/" ["a.raw"]
                    sample_world eq_refl eq_refl eq_refl)).
  - rewrite (proj1 (record_without_accession (serving JNull) (record_nameless "z.raw")
                      [record_a] (archive ++ "z.raw") "/data/" "/out/" ["a.raw"]
                      sample_world eq_refl eq_refl eq_refl)).
    reflexivity.
  - exact (proj2 (record_without_accession (serving JNull) (record_nameless "a.raw")
                    [record_a] (archive ++ "a.raw") "/data/" "/out/" ["a.raw"]
                    sample_world eq_refl eq_refl eq_refl)
             eq_refl).
Defined.

(** ** The copies, from the path fragment to the loop *)

Lemma endswith_slash_app (a b : string) :
  truthy b = true -> endswith_slash (a ++ b) = endswith_slash b.
Proof.
  intros Hb. induction a as [|c a IH]; [reflexivity|].
  cbn [append endswith_slash]. destruct (a ++ b) eqn:E; [|exact IH].
  destruct a; [|discriminate]. simpl in E. subst b. discriminate.
Qed.

Lemma rstrip_slash_one (x : string) :
  truthy x = true -> endswith_slash x = false -> rstrip_slash (x ++ "/") = x.
Proof.
  induction x as [|c x IH]; [discriminate|]. intros _ He.
  cbn [append rstrip_slash]. destruct x as [|c' x'].
  - cbn [append rstrip_slash]. cbn [endswith_slash] in He.
    replace (is_slash "/") with true by reflexivity. now rewrite He.
  - rewrite (IH eq_refl He). reflexivity.
Qed.

Lemma all_slashes_endswith (x : string) :
  truthy x = true -> all_slashes x = true -> endswith_slash x = true.
Proof.
  induction x as [|c x IH]; [discriminate|]. intros _ Ha.
  cbn [all_slashes] in Ha. apply andb_prop in Ha as [Hc Ha].
  cbn [endswith_slash]. destruct x as [|c' x']; [exact Hc|].
  now apply IH.
Qed.

Lemma glob_dirname_one (x : string) :
  truthy x = true -> endswith_slash x = false -> glob_dirname (x ++ "/") = x.
Proof.
  intros Ht He. unfold glob_dirname.
  destruct (all_slashes (x ++ "/")) eqn:A.
  - rewrite all_slashes_append in A. apply andb_prop in A as [A _].
    rewrite (all_slashes_endswith x Ht A) in He. discriminate.
  - now apply rstrip_slash_one.
Qed.

Lemma path_join_name (x n : string) :
  truthy x = true -> endswith_slash x = false -> valid_name n = true ->
  path_join x n = (x ++ "/") ++ n.
Proof.
  intros Ht He Hn. destruct (valid_name_parts n Hn) as [_ [Hs _]].
  unfold path_join. rewrite (startswith_no_slash n Hs), Ht, He. cbn [negb orb].
  now rewrite append_assoc.
Qed.

Lemma forallb_In {A : Type} (f : A -> bool) (xs : list A) (x : A) :
  forallb f xs = true -> In x xs -> f x = true.
Proof. intros E Hin. rewrite forallb_forall in E. now apply E. Qed.

Section PlainDirectory.

Variable H : host.
Variable fs : filesystem.
Variables x regex : string.
Hypothesis fs_wf : wf_fs fs = true.
Hypothesis x_truthy : truthy x = true.
Hypothesis x_no_slash_end : endswith_slash x = false.
Hypothesis x_plain : has_magic x = false.
Hypothesis regex_no_slash : has_slash regex = false.
Hypothesis regex_shape : has_magic regex || valid_name regex = true.

(** What [glob] yields in the directory [x/]: the path [x/n] of each entry
    [n] that matches, in the order of the directory. *)
Lemma glob_in_plain_directory :
  glob (fnmatchcase H) fs ((x ++ "/") ++ regex)
  = map (fun n => (x ++ "/") ++ n) (matching_names H fs (x ++ "/") regex).
Proof.
  pose proof (endswith_slash_append x) as Hl.
  assert (Hm : has_magic (x ++ "/") = false).
  { now rewrite has_magic_append, x_plain. }
  pose proof (truthy_endswith _ Hl) as Ht.
  destruct (dir_names_valid fs (x ++ "/") fs_wf Ht) as [Hdis Hval].
  pose proof regex_shape as Hr.
  unfold matching_names, shell_match.
  destruct (has_magic regex) eqn:Hmr.
  - rewrite (glob_wildcard H fs (x ++ "/") regex Hl Hm regex_no_slash Hmr).
    rewrite (glob_dirname_one x x_truthy x_no_slash_end).
    apply map_ext_in. intros n Hin. apply filter_In in Hin as [Hin _].
    apply path_join_name; trivial. now apply (forallb_In _ _ _ Hval).
  - simpl in Hr.
    rewrite (glob_literal H fs (x ++ "/") regex Hl Hm regex_no_slash Hmr Hr).
    rewrite (lexists_in_directory fs (x ++ "/") regex Hl Hr).
    unfold dir_names in *. rewrite (iterdir_dir_at _ _ Ht) in *.
    destruct (dir_at fs (x ++ "/")) as [es|]; [|reflexivity].
    rewrite (filter_name regex es Hdis).
    now destruct (lookup regex es).
Qed.

Lemma matching_names_valid :
  forallb valid_name (matching_names H fs (x ++ "/") regex) = true.
Proof.
  pose proof (truthy_endswith _ (endswith_slash_append x)) as Ht.
  destruct (dir_names_valid fs (x ++ "/") fs_wf Ht) as [_ Hval].
  unfold matching_names. now apply forallb_filter.
Qed.

Lemma basenames_in_directory (names : list string) :
  forallb valid_name names = true ->
  Forall2 (fun p n => list_item (py_rsplit p) 1 = Ok n)
          (map (fun n => (x ++ "/") ++ n) names) names.
Proof.
  induction names as [|n names IH]; simpl; [constructor|].
  intros E. apply andb_prop in E as [Hn E]. constructor; [|now apply IH].
  destruct (valid_name_parts n Hn) as [_ [Hs _]].
  unfold py_rsplit. now rewrite append_assoc, (rsplit1_append x n Hs).
Qed.

End PlainDirectory.

Section CopyFlows.

Variable H : host.

Lemma submitted_dir_split (base fragment : string) :
  submitted_dir base fragment = (base ++ "/" ++ fragment ++ "/submitted") ++ "/".
Proof. unfold submitted_dir. now rewrite !append_assoc. Qed.

Lemma submitted_dir_parts (base fragment : string) :
  has_magic base = false ->
  is_path_fragment fragment = true ->
  truthy (base ++ "/" ++ fragment ++ "/submitted") = true
  /\ endswith_slash (base ++ "/" ++ fragment ++ "/submitted") = false
  /\ has_magic (base ++ "/" ++ fragment ++ "/submitted") = false.
Proof.
  intros Hb Hf. repeat split.
  - destruct base; reflexivity.
  - replace (base ++ "/" ++ fragment ++ "/submitted")
      with ((base ++ "/" ++ fragment) ++ "/submitted")
      by now rewrite !append_assoc.
    now rewrite endswith_slash_app.
  - now rewrite !has_magic_append, Hb, (fragment_no_magic _ Hf).
Qed.

(** The listing of the directory [<base>/<fragment>/submitted/]. *)
Lemma listing_of_submitted_dir (base fragment regex : string) (w : world) :
  wf_fs (w_fs w) = true ->
  has_magic base = false ->
  is_path_fragment fragment = true ->
  has_slash regex = false ->
  has_magic regex || valid_name regex = true ->
  get_files_from_dir H (submitted_dir base fragment) regex w
  = (Ok (matching_names H (w_fs w) (submitted_dir base fragment) regex),
     {| w_fs := w_fs w;
        w_trace := (w_trace w
          ++ map (fun n => Log DEBUG ("found file: " ++ submitted_dir base fragment ++ n))
               (matching_names H (w_fs w) (submitted_dir base fragment) regex))%list |}).
Proof.
  intros Hwf Hb Hf Hs Hr.
  destruct (submitted_dir_parts base fragment Hb Hf) as [Ht [He Hm]].
  rewrite (submitted_dir_split base fragment).
  set (x := base ++ "/" ++ fragment ++ "/submitted") in *.
  rewrite (get_files_from_dir_run H (x ++ "/") regex
             (matching_names H (w_fs w) (x ++ "/") regex) w).
  - rewrite (glob_in_plain_directory H (w_fs w) x regex Hwf Ht He Hm Hs Hr).
    now rewrite map_map.
  - rewrite (glob_in_plain_directory H (w_fs w) x regex Hwf Ht He Hm Hs Hr).
    apply basenames_in_directory. now apply matching_names_valid.
Qed.

Lemma isdir_dir_at (fs : filesystem) (p : string) :
  isdir fs p = match dir_at fs p with Some _ => true | None => false end.
Proof. unfold isdir, dir_at. now destruct (resolve fs p) as [[d|es]|]. Qed.

Lemma found_names_magic (fs : filesystem) (dir regex : string) :
  has_magic regex = true ->
  found_names H fs dir regex = matching_names H fs dir regex.
Proof.
  intros Hm. unfold found_names, matching_names. rewrite Hm.
  apply filter_ext. intros n. unfold shell_match. now rewrite Hm.
Qed.

Lemma basenames_after_directory (x : string) (names : list string) :
  forallb (fun n => negb (has_slash n)) names = true ->
  Forall2 (fun p n => list_item (py_rsplit p) 1 = Ok n)
          (map (fun n => (x ++ "/") ++ n) names) names.
Proof.
  induction names as [|n names IH]; simpl; [constructor|].
  intros E. apply andb_prop in E as [Hn E]. apply negb_true_iff in Hn.
  constructor; [|now apply IH].
  unfold py_rsplit. now rewrite append_assoc, (rsplit1_append x n Hn).
Qed.

(** What [glob] yields for a path without [*], [?], [[] under [x/]. *)
Lemma glob_plain_name (fs : filesystem) (x regex : string) :
  truthy x = true ->
  has_magic x = false ->
  has_magic regex = false ->
  has_slash regex = false ->
  glob (fnmatchcase H) fs ((x ++ "/") ++ regex)
  = map (fun n => (x ++ "/") ++ n) (found_names H fs (x ++ "/") regex)
  /\ forallb (fun n => negb (has_slash n)) (found_names H fs (x ++ "/") regex) = true.
Proof.
  intros Ht Hm Hmr Hs.
  pose proof (endswith_slash_append x) as Hl.
  unfold glob. cbn [iglob].
  rewrite (path_split_in_directory (x ++ "/") regex Hl Hs).
  rewrite !has_magic_append, Hm, Hmr. cbn [has_magic magic_char orb negb].
  replace (Ascii.eqb "/" "*" || Ascii.eqb "/" "?" || Ascii.eqb "/" "[") with false
    by reflexivity.
  cbn [orb negb]. unfold found_names. rewrite Hmr.
  destruct (truthy regex).
  - destruct (lexists fs ((x ++ "/") ++ regex)); cbn [map forallb]; [|now split].
    now rewrite Hs.
  - fold (glob_dirname (x ++ "/")).
    assert (E : isdir fs (glob_dirname (x ++ "/")) = isdir fs (x ++ "/")).
    { rewrite !isdir_dir_at. unfold glob_dirname.
      destruct (all_slashes (x ++ "/")) eqn:A; [reflexivity|].
      now rewrite (dir_at_rstrip fs (x ++ "/") A). }
    rewrite E.
    destruct (isdir fs (x ++ "/")); cbn [map forallb]; [|now split].
    now rewrite Hs.
Qed.

(** The search of the directory [<base>/<fragment>/submitted/] for any
    pattern without ['/']. *)
Lemma listing_of_submitted_dir_any (base fragment regex : string) (w : world) :
  wf_fs (w_fs w) = true ->
  has_magic base = false ->
  is_path_fragment fragment = true ->
  has_slash regex = false ->
  get_files_from_dir H (submitted_dir base fragment) regex w
  = (Ok (found_names H (w_fs w) (submitted_dir base fragment) regex),
     {| w_fs := w_fs w;
        w_trace := (w_trace w
          ++ map (fun n => Log DEBUG ("found file: " ++ submitted_dir base fragment ++ n))
               (found_names H (w_fs w) (submitted_dir base fragment) regex))%list |}).
Proof.
  intros Hwf Hb Hf Hs. destruct (has_magic regex) eqn:Hmr.
  - rewrite (found_names_magic _ _ _ Hmr).
    apply listing_of_submitted_dir; trivial. now rewrite Hmr.
  - destruct (submitted_dir_parts base fragment Hb Hf) as [Ht [He Hm]].
    rewrite (submitted_dir_split base fragment).
    set (x := base ++ "/" ++ fragment ++ "/submitted") in *.
    destruct (glob_plain_name (w_fs w) x regex Ht Hm Hmr Hs) as [G Hplain].
    rewrite (get_files_from_dir_run H (x ++ "/") regex
               (found_names H (w_fs w) (x ++ "/") regex) w).
    + now rewrite G, map_map.
    + rewrite G. now apply basenames_after_directory.
Qed.

(** The steps the two copies share, the second request being any request
    that returns [files]. *)
Lemma copy_flow
    (accession base regex request_url : string) (request : M json)
    (results : json) (first_file fragment : string)
    (files : list json) (recs : list FileRecord) (w : world) :
  api_json H (raw_files_url accession) accept_json = inr results ->
  results.[0].$["publicFileLocations"].[0].$["value"] = Ok (JStr first_file) ->
  first_fragment first_file fragment ->
  (forall w2, request w2
              = (Ok (JArr files), record (Get request_url accept_json) w2)) ->
  Forall2 (fun j r => as_record j = Some r) files recs ->
  forallb copyable recs = true ->
  wf_fs (w_fs w) = true ->
  has_magic base = false ->
  has_slash regex = false ->
  has_magic regex || valid_name regex = true ->
  (forall r fs, In r recs ->
     py_in (copy_name r)
       (matching_names H (w_fs w) (submitted_dir base fragment) regex) = true ->
     fst (shutil_copy2 H (submitted_dir base fragment ++ copy_name r)
            (rec_accession r ++ "-" ++ copy_name r) fs) = None) ->
  exists w',
    (path_fragment <- get_submitted_file_path_prefix H accession ;;
     d <- os_path_isdir (base ++ "/" ++ path_fragment ++ "/submitted/") ;;
     (if negb d
      then logging_exception
             ("Folder does not exists! " ++ base ++ "/" ++ path_fragment ++ "/submitted/")
      else ret tt) ;;
     file_list_from_dir <-
       get_files_from_dir H (base ++ "/" ++ path_fragment ++ "/submitted/") regex ;;
     response_body <- request ;;
     copy_from_dir H (base ++ "/" ++ path_fragment ++ "/submitted/")
       file_list_from_dir response_body) w
    = (Ok tt, w')
    /\ w_trace w'
       = (w_trace w
          ++ listing_events accession (w_fs w) (submitted_dir base fragment)
               (matching_names H (w_fs w) (submitted_dir base fragment) regex)
               request_url
          ++ map (copy_step (submitted_dir base fragment)
                    (matching_names H (w_fs w) (submitted_dir base fragment) regex))
               recs)%list.
Proof.
  intros Hb Hv Hf Hreq Hrecs Hc Hwf Hm Hs Hr Hok.
  assert (Hshape : is_path_fragment fragment = true).
  { now destruct Hf as [pre [post [_ [F _]]]]. }
  unfold bind at 1.
  rewrite (path_prefix_found H accession results first_file fragment w Hb Hv Hf).
  fold (submitted_dir base fragment).
  set (dir := submitted_dir base fragment) in *.
  set (names := matching_names H (w_fs w) dir regex) in *.
  rewrite bind_isdir. cbn [record w_fs].
  assert (Hlist : forall w2, w_fs w2 = w_fs w ->
             get_files_from_dir H dir regex w2
             = (Ok names,
                {| w_fs := w_fs w;
                   w_trace := (w_trace w2
                     ++ map (fun n => Log DEBUG ("found file: " ++ dir ++ n)) names)%list |})).
  { intros w2 E. subst dir names. rewrite <- E.
    apply listing_of_submitted_dir; trivial. now rewrite E. }
  assert (Hloop : forall w4, exists w',
             copy_from_dir H dir names (JArr files) w4 = (Ok tt, w')
             /\ w_trace w' = (w_trace w4 ++ map (copy_step dir names) recs)%list).
  { apply copy_loop; assumption. }
  unfold listing_events.
  destruct (isdir (w_fs w) dir) eqn:D; cbn [negb].
  - rewrite bind_ret_tt. unfold bind at 1. match goal with
    | |- context [get_files_from_dir H dir regex ?w2] => rewrite (Hlist w2 eq_refl)
    end.
    unfold bind at 1. rewrite Hreq.
    match goal with
    | |- context [copy_from_dir H dir names (JArr files) ?w4] =>
        destruct (Hloop w4) as [w' [-> Ht]]
    end.
    exists w'. split; [reflexivity|]. rewrite Ht.
    unfold record. cbn [w_trace app]. now rewrite <- !app_assoc.
  - unfold bind at 1. unfold logging_exception, emit.
    unfold bind at 1. match goal with
    | |- context [get_files_from_dir H dir regex ?w2] => rewrite (Hlist w2 eq_refl)
    end.
    unfold bind at 1. rewrite Hreq.
    match goal with
    | |- context [copy_from_dir H dir names (JArr files) ?w4] =>
        destruct (Hloop w4) as [w' [-> Ht]]
    end.
    exists w'. split; [reflexivity|]. rewrite Ht.
    unfold record. cbn [w_trace app]. now rewrite <- !app_assoc.
Qed.

(** The same steps for any pattern without ['/']. *)
Lemma copy_flow_any
    (accession base regex request_url : string) (request : M json)
    (results : json) (first_file fragment : string)
    (files : list json) (recs : list FileRecord) (w : world) :
  api_json H (raw_files_url accession) accept_json = inr results ->
  results.[0].$["publicFileLocations"].[0].$["value"] = Ok (JStr first_file) ->
  first_fragment first_file fragment ->
  (forall w2, request w2
              = (Ok (JArr files), record (Get request_url accept_json) w2)) ->
  Forall2 (fun j r => as_record j = Some r) files recs ->
  forallb copyable recs = true ->
  wf_fs (w_fs w) = true ->
  has_magic base = false ->
  has_slash regex = false ->
  (forall r fs, In r recs ->
     py_in (copy_name r)
       (found_names H (w_fs w) (submitted_dir base fragment) regex) = true ->
     fst (shutil_copy2 H (submitted_dir base fragment ++ copy_name r)
            (rec_accession r ++ "-" ++ copy_name r) fs) = None) ->
  exists w',
    (path_fragment <- get_submitted_file_path_prefix H accession ;;
     d <- os_path_isdir (base ++ "/" ++ path_fragment ++ "/submitted/") ;;
     (if negb d
      then logging_exception
             ("Folder does not exists! " ++ base ++ "/" ++ path_fragment ++ "/submitted/")
      else ret tt) ;;
     file_list_from_dir <-
       get_files_from_dir H (base ++ "/" ++ path_fragment ++ "/submitted/") regex ;;
     response_body <- request ;;
     copy_from_dir H (base ++ "/" ++ path_fragment ++ "/submitted/")
       file_list_from_dir response_body) w
    = (Ok tt, w')
    /\ w_trace w'
       = (w_trace w
          ++ listing_events accession (w_fs w) (submitted_dir base fragment)
               (found_names H (w_fs w) (submitted_dir base fragment) regex)
               request_url
          ++ map (copy_step (submitted_dir base fragment)
                    (found_names H (w_fs w) (submitted_dir base fragment) regex))
               recs)%list.
Proof.
  intros Hb Hv Hf Hreq Hrecs Hc Hwf Hm Hs Hok.
  assert (Hshape : is_path_fragment fragment = true).
  { now destruct Hf as [pre [post [_ [F _]]]]. }
  unfold bind at 1.
  rewrite (path_prefix_found H accession results first_file fragment w Hb Hv Hf).
  fold (submitted_dir base fragment).
  set (dir := submitted_dir base fragment) in *.
  set (names := found_names H (w_fs w) dir regex) in *.
  rewrite bind_isdir. cbn [record w_fs].
  assert (Hlist : forall w2, w_fs w2 = w_fs w ->
             get_files_from_dir H dir regex w2
             = (Ok names,
                {| w_fs := w_fs w;
                   w_trace := (w_trace w2
                     ++ map (fun n => Log DEBUG ("found file: " ++ dir ++ n)) names)%list |})).
  { intros w2 E. subst dir names. rewrite <- E.
    apply listing_of_submitted_dir_any; trivial. now rewrite E. }
  assert (Hloop : forall w4, exists w',
             copy_from_dir H dir names (JArr files) w4 = (Ok tt, w')
             /\ w_trace w' = (w_trace w4 ++ map (copy_step dir names) recs)%list).
  { apply copy_loop; assumption. }
  unfold listing_events.
  destruct (isdir (w_fs w) dir) eqn:D; cbn [negb].
  - rewrite bind_ret_tt. unfold bind at 1. match goal with
    | |- context [get_files_from_dir H dir regex ?w2] => rewrite (Hlist w2 eq_refl)
    end.
    unfold bind at 1. rewrite Hreq.
    match goal with
    | |- context [copy_from_dir H dir names (JArr files) ?w4] =>
        destruct (Hloop w4) as [w' [-> Ht]]
    end.
    exists w'. split; [reflexivity|]. rewrite Ht.
    unfold record. cbn [w_trace app]. now rewrite <- !app_assoc.
  - unfold bind at 1. unfold logging_exception, emit.
    unfold bind at 1. match goal with
    | |- context [get_files_from_dir H dir regex ?w2] => rewrite (Hlist w2 eq_refl)
    end.
    unfold bind at 1. rewrite Hreq.
    match goal with
    | |- context [copy_from_dir H dir names (JArr files) ?w4] =>
        destruct (Hloop w4) as [w' [-> Ht]]
    end.
    exists w'. split; [reflexivity|]. rewrite Ht.
    unfold record. cbn [w_trace app]. now rewrite <- !app_assoc.
Qed.

End CopyFlows.

Section CopyEntryPoints.

Variable H : host.

(** X15. [copy_raw_files_from_dir] from the request to the copies, for
    a base directory without [*], [?], [[]: the raw files of the project
    are requested and the path fragment is read off the first record; the
    directory [<base>/<fragment>/submitted/] is listed for [*.raw] (an error
    record first when it is no directory, which does not stop the run, and a
    debug record per file found); the raw files are requested a second time;
    then every record of the answer is copied from that directory or
    reported as not found, by its name in that listing.  With records that
    have a location with a ['/'] and copies that return, the run ends
    normally. *)
Theorem copy_raw_files_from_dir_flow
    (accession source_base_directory : string)
    (files : list json) (recs : list FileRecord)
    (first_file fragment : string) (w : world) :
  api_json H (raw_files_url accession) accept_json = inr (JArr files) ->
  (JArr files).[0].$["publicFileLocations"].[0].$["value"] = Ok (JStr first_file) ->
  first_fragment first_file fragment ->
  Forall2 (fun j r => as_record j = Some r) files recs ->
  forallb copyable recs = true ->
  wf_fs (w_fs w) = true ->
  has_magic source_base_directory = false ->
  (forall r fs, In r recs ->
     py_in (copy_name r)
       (matching_names H (w_fs w)
          (submitted_dir source_base_directory fragment) "*.raw") = true ->
     fst (shutil_copy2 H
            (submitted_dir source_base_directory fragment ++ copy_name r)
            (rec_accession r ++ "-" ++ copy_name r) fs) = None) ->
  fst (copy_raw_files_from_dir H accession source_base_directory w) = Ok tt
  /\ new_events w (snd (copy_raw_files_from_dir H accession source_base_directory w))
     = (listing_events accession (w_fs w)
          (submitted_dir source_base_directory fragment)
          (matching_names H (w_fs w)
             (submitted_dir source_base_directory fragment) "*.raw")
          (raw_files_url accession)
        ++ map (copy_step (submitted_dir source_base_directory fragment)
                  (matching_names H (w_fs w)
                     (submitted_dir source_base_directory fragment) "*.raw"))
             recs)%list.
Proof.
  intros Hb Hv Hf Hrecs Hc Hwf Hm Hok.
  destruct (copy_flow H accession source_base_directory "*.raw"
              (raw_files_url accession) (get_all_raw_file_list H accession)
              (JArr files) first_file fragment files recs w Hb Hv Hf)
    as [w' [Hrun Ht]]; trivial.
  { intros w2. now rewrite get_all_raw_file_list_run, Hb. }
  unfold copy_raw_files_from_dir. rewrite Hrun. cbn [fst snd].
  split; [reflexivity|]. apply new_events_app. exact Ht.
Qed.

(** X16. [copy_file_from_dir_by_name] from the request to the copies,
    for a base directory without [*], [?], [[] and any file name without
    ['/']: the raw files of the project are requested for the path fragment;
    the directory [<base>/<fragment>/submitted/] is searched for the file
    name (an error record first when the directory is not there).  The file
    name is read as a shell pattern: with one of [*], [?], [[] in it, the
    names found are the entries that match; without, the name itself when
    [<dir><file_name>] is there (for the empty name, when the directory is
    there).  A debug record is written per name found; the files of that
    name are requested; then every record of that answer is copied from the
    directory or reported as not found, by its name among the names
    found. *)
Theorem copy_file_from_dir_by_name_flow
    (accession file_name input_folder : string)
    (results : json) (first_file fragment : string)
    (files : list json) (recs : list FileRecord) (w : world) :
  api_json H (raw_files_url accession) accept_json = inr results ->
  results.[0].$["publicFileLocations"].[0].$["value"] = Ok (JStr first_file) ->
  first_fragment first_file fragment ->
  api_json H (file_by_name_url accession file_name) accept_json = inr (JArr files) ->
  Forall2 (fun j r => as_record j = Some r) files recs ->
  forallb copyable recs = true ->
  wf_fs (w_fs w) = true ->
  has_magic input_folder = false ->
  has_slash file_name = false ->
  (forall r fs, In r recs ->
     py_in (copy_name r)
       (found_names H (w_fs w)
          (submitted_dir input_folder fragment) file_name) = true ->
     fst (shutil_copy2 H
            (submitted_dir input_folder fragment ++ copy_name r)
            (rec_accession r ++ "-" ++ copy_name r) fs) = None) ->
  fst (copy_file_from_dir_by_name H accession file_name input_folder w) = Ok tt
  /\ new_events w
       (snd (copy_file_from_dir_by_name H accession file_name input_folder w))
     = (listing_events accession (w_fs w)
          (submitted_dir input_folder fragment)
          (found_names H (w_fs w)
             (submitted_dir input_folder fragment) file_name)
          (file_by_name_url accession file_name)
        ++ map (copy_step (submitted_dir input_folder fragment)
                  (found_names H (w_fs w)
                     (submitted_dir input_folder fragment) file_name))
             recs)%list.
Proof.
  intros Hb Hv Hf Hb2 Hrecs Hc Hwf Hm Hs Hok.
  destruct (copy_flow_any H accession input_folder file_name
              (file_by_name_url accession file_name)
              (get_file_from_api H accession file_name)
              results first_file fragment files recs w Hb Hv Hf)
    as [w' [Hrun Ht]]; trivial.
  { intros w2. now rewrite get_file_from_api_run, Hb2. }
  unfold copy_file_from_dir_by_name. rewrite Hrun. cbn [fst snd].
  split; [reflexivity|]. apply new_events_app. exact Ht.
Qed.

Lemma bind_raises {A B : Type} (c : M A) (k : A -> M B) (e : exn) (w : world) :
  fst (c w) = Raise e -> bind c k w = (Raise e, snd (c w)).
Proof. unfold bind. destruct (c w) as [[a|e'] w1]; cbn [fst snd]; congruence. Qed.

Lemma copy_stops_with_prefix
    (accession file_name base : string) (e : exn) (w : world) :
  fst (get_submitted_file_path_prefix H accession w) = Raise e ->
  copy_raw_files_from_dir H accession base w
  = (Raise e, record (Get (raw_files_url accession) accept_json) w)
  /\ copy_file_from_dir_by_name H accession file_name base w
     = (Raise e, record (Get (raw_files_url accession) accept_json) w).
Proof.
  intros He. unfold copy_raw_files_from_dir, copy_file_from_dir_by_name.
  rewrite !(bind_raises _ _ e w He), path_prefix_world. now split.
Qed.

(** X17. Both copies need the path fragment, which is read off the raw
    files of the project: when that request fails, when the project has no
    raw file, or when the first location of the first one has no fragment,
    [copy_raw_files_from_dir] and [copy_file_from_dir_by_name] raise what
    [get_submitted_file_path_prefix] raised, the one GET having been made:
    the directory is not looked at, the file of that name is not requested
    (its failure would be wrapped; this one is not), nothing is copied. *)
Theorem copy_stops_without_path_fragment
    (accession file_name base : string) (w : world) :
  (forall e,
     api_json H (raw_files_url accession) accept_json = inl e ->
     copy_raw_files_from_dir H accession base w
     = (Raise (External e), record (Get (raw_files_url accession) accept_json) w)
     /\ copy_file_from_dir_by_name H accession file_name base w
        = (Raise (External e), record (Get (raw_files_url accession) accept_json) w))
  /\ (api_json H (raw_files_url accession) accept_json = inr (JArr []) ->
      copy_raw_files_from_dir H accession base w
      = (Raise IndexError, record (Get (raw_files_url accession) accept_json) w)
      /\ copy_file_from_dir_by_name H accession file_name base w
         = (Raise IndexError, record (Get (raw_files_url accession) accept_json) w))
  /\ (forall results first_file,
        api_json H (raw_files_url accession) accept_json = inr results ->
        results.[0].$["publicFileLocations"].[0].$["value"] = Ok (JStr first_file) ->
        no_fragment first_file ->
        copy_raw_files_from_dir H accession base w
        = (Raise AttributeError, record (Get (raw_files_url accession) accept_json) w)
        /\ copy_file_from_dir_by_name H accession file_name base w
           = (Raise AttributeError,
              record (Get (raw_files_url accession) accept_json) w)).
Proof.
  split; [|split].
  - intros e Hb. apply copy_stops_with_prefix.
    now rewrite (path_prefix_request_failure H accession e w Hb).
  - intros Hb. apply copy_stops_with_prefix.
    now rewrite (path_prefix_run H accession _ w Hb).
  - intros results first_file Hb Hv Hn. apply copy_stops_with_prefix.
    rewrite (path_prefix_run H accession _ w Hb), Hv.
    cbn [fst rbind re_search_value]. apply re_search_none in Hn. now rewrite Hn.
Qed.

End CopyEntryPoints.

Lemma copy_raw_files_from_dir_flow_witness :
  fst (copy_raw_files_from_dir (serving (JArr [record_a; record_c]))
         "PXD008644" "/nfs/pride" sample_world) = Ok tt
  /\ new_events sample_world
       (snd (copy_raw_files_from_dir (serving (JArr [record_a; record_c]))
               "PXD008644" "/nfs/pride" sample_world))
     = [Get (raw_files_url "PXD008644") accept_json;
        Log DEBUG "found file: /nfs/pride/2018/10/PXD008644/submitted/a.raw";
        Log DEBUG "found file: /nfs/pride/2018/10/PXD008644/submitted/b.raw";
        Get (raw_files_url "PXD008644") accept_json;
        Copy2 "/nfs/pride/2018/10/PXD008644/submitted/a.raw" "PXD008644-a.raw";
        Log ERROR "c.raw not found in /nfs/pride/2018/10/PXD008644/submitted/"].
Proof.
  refine (copy_raw_files_from_dir_flow (serving (JArr [record_a; record_c]))
            "PXD008644" "/nfs/pride" [record_a; record_c] [typed_a; typed_c]
            (archive ++ "a.raw") "2018/10/PXD008644" sample_world
            eq_refl eq_refl _ _ eq_refl eq_refl eq_refl _).
  - apply re_search_first. reflexivity.
  - repeat constructor.
  - intros r fs _ _. reflexivity.
Defined.

Lemma copy_file_from_dir_by_name_flow_witness :
  (fst (copy_file_from_dir_by_name (serving (JArr [record_a]))
          "PXD008644" "a.raw" "/nfs/pride" sample_world) = Ok tt
   /\ new_events sample_world
        (snd (copy_file_from_dir_by_name (serving (JArr [record_a]))
                "PXD008644" "a.raw" "/nfs/pride" sample_world))
      = [Get (raw_files_url "PXD008644") accept_json;
         Log DEBUG "found file: /nfs/pride/2018/10/PXD008644/submitted/a.raw";
         Get (file_by_name_url "PXD008644" "a.raw") accept_json;
         Copy2 "/nfs/pride/2018/10/PXD008644/submitted/a.raw" "PXD008644-a.raw"])
  /\ (fst (copy_file_from_dir_by_name (serving (JArr [record_a]))
             "PXD008644" "" "/nfs/pride" sample_world) = Ok tt
      /\ new_events sample_world
           (snd (copy_file_from_dir_by_name (serving (JArr [record_a]))
                   "PXD008644" "" "/nfs/pride" sample_world))
         = [Get (raw_files_url "PXD008644") accept_json;
            Log DEBUG "found file: /nfs/pride/2018/10/PXD008644/submitted/";
            Get (file_by_name_url "PXD008644" "") accept_json;
            Log ERROR "a.raw not found in /nfs/pride/2018/10/PXD008644/submitted/"]).
Proof.
  split.
  - refine (copy_file_from_dir_by_name_flow (serving (JArr [record_a]))
              "PXD008644" "a.raw" "/nfs/pride" (JArr [record_a])
              (archive ++ "a.raw") "2018/10/PXD008644" [record_a] [typed_a]
              sample_world
              eq_refl eq_refl _ eq_refl _ eq_refl eq_refl eq_refl eq_refl _).
    + apply re_search_first. reflexivity.
    + repeat constructor.
    + intros r fs _ _. reflexivity.
  - refine (copy_file_from_dir_by_name_flow (serving (JArr [record_a]))
              "PXD008644" "" "/nfs/pride" (JArr [record_a])
              (archive ++ "a.raw") "2018/10/PXD008644" [record_a] [typed_a]
              sample_world
              eq_refl eq_refl _ eq_refl _ eq_refl eq_refl eq_refl eq_refl _).
    + apply re_search_first. reflexivity.
    + repeat constructor.
    + intros r fs _ _. reflexivity.
Defined.

Lemma copy_stops_without_path_fragment_witness :
  copy_file_from_dir_by_name (serving (JArr [])) "PXD008644" "a.raw" "/nfs/pride"
    sample_world
  = (Raise IndexError,
     record (Get (raw_files_url "PXD008644") accept_json) sample_world)
  /\ copy_raw_files_from_dir failing_api "PXD008644" "/nfs/pride" sample_world
     = (Raise (External not_found),
        record (Get (raw_files_url "PXD008644") accept_json) sample_world).
Proof.
  split.
  - exact (proj2 (proj1 (proj2 (copy_stops_without_path_fragment (serving (JArr []))
                                  "PXD008644" "a.raw" "/nfs/pride" sample_world))
                    eq_refl)).
  - exact (proj1 (proj1 (copy_stops_without_path_fragment failing_api
                           "PXD008644" "a.raw" "/nfs/pride" sample_world)
                    not_found eq_refl)).
Defined.

(** ** What the entry points never do *)

Lemma only_weaken {A : Type} (P Q : event -> bool) (c : M A) :
  (forall e, P e = true -> Q e = true) -> only P c -> only Q c.
Proof.
  intros HPQ Hc w. destruct (Hc w) as [evs [E HP]]. exists evs. split; [exact E|].
  apply forallb_forall. intros e Hin. apply HPQ.
  now apply (forallb_In P evs e HP).
Qed.

Lemma only_for_append {A B : Type} (P : event -> bool) (xs : list A)
    (body : A -> M B) (acc : list B) :
  (forall x, only P (body x)) -> only P (for_append xs body acc).
Proof.
  intros Hb. revert acc. induction xs as [|x xs IH]; intros acc; simpl.
  - apply only_ret.
  - apply only_bind; [apply Hb | intros y; apply IH].
Qed.

Lemma download_event_side (out : string) (e : event) :
  download_event out e = true -> download_side e = true.
Proof. now destruct e. Qed.

Lemma copy_event_side (dir : string) (listing : list string) (e : event) :
  copy_event dir listing e = true -> copy_side e = true.
Proof. now destruct e. Qed.

Section Sides.

Variable H : host.

Lemma only_path_prefix (P : event -> bool) (accession : string) :
  (forall u h, P (Get u h) = true) ->
  only P (get_submitted_file_path_prefix H accession).
Proof.
  intros HP w. rewrite path_prefix_world. eexists [_]. simpl. now rewrite HP.
Qed.

Lemma only_get_files_from_dir (P : event -> bool) (location regex : string) :
  (forall m, P (Log DEBUG m) = true) ->
  only P (get_files_from_dir H location regex).
Proof.
  intros HP. unfold get_files_from_dir, logging_debug.
  apply only_bind; [now apply only_silent|]. intros paths.
  apply only_for_append. intros file.
  apply only_bind; [apply only_emit, HP|]. intros _.
  apply only_bind_lift. intros filename _. apply only_ret.
Qed.

(** X18. Whatever the arguments, the answers of the archive and the
    host: [copy_raw_files_from_dir] and [copy_file_from_dir_by_name] make
    requests, log and copy, and never retrieve a file or make a directory;
    [download_raw_files_from_ftp] and [download_file_from_ftp_by_name]
    never copy a file. *)
Theorem entry_points_keep_to_their_side
    (accession file_name folder : string) (w : world) :
  forallb copy_side
    (new_events w (snd (copy_raw_files_from_dir H accession folder w))) = true
  /\ forallb copy_side
       (new_events w (snd (copy_file_from_dir_by_name H accession file_name folder w)))
     = true
  /\ forallb download_side
       (new_events w (snd (download_raw_files_from_ftp H accession folder w)))
     = true
  /\ forallb download_side
       (new_events w
          (snd (download_file_from_ftp_by_name H accession file_name folder w)))
     = true.
Proof.
  split; [|split; [|split]]; apply only_new_events.
  - unfold copy_raw_files_from_dir.
    apply only_bind; [now apply only_path_prefix|]. intros fragment.
    apply only_bind; [now apply only_silent|]. intros d.
    apply only_bind;
      [destruct (negb d); [now apply only_emit | apply only_ret]|]. intros _.
    apply only_bind; [now apply only_get_files_from_dir|]. intros listing.
    apply only_bind; [now apply only_get_all_raw_file_list|]. intros body.
    eapply only_weaken; [apply copy_event_side | apply copy_events_only].
  - unfold copy_file_from_dir_by_name.
    apply only_bind; [now apply only_path_prefix|]. intros fragment.
    apply only_bind; [now apply only_silent|]. intros d.
    apply only_bind;
      [destruct (negb d); [now apply only_emit | apply only_ret]|]. intros _.
    apply only_bind; [now apply only_get_files_from_dir|]. intros listing.
    apply only_bind; [now apply only_get_file_from_api|]. intros body.
    eapply only_weaken; [apply copy_event_side | apply copy_events_only].
  - unfold download_raw_files_from_ftp.
    apply only_bind; [now apply only_silent|]. intros d.
    apply only_bind;
      [destruct (negb d); [now apply only_os_call | apply only_ret]|]. intros _.
    apply only_bind; [now apply only_get_all_raw_file_list|]. intros body.
    eapply only_weaken; [apply download_event_side | apply download_events_only].
  - unfold download_file_from_ftp_by_name.
    apply only_bind; [now apply only_silent|]. intros d.
    apply only_bind;
      [destruct (negb d); [now apply only_os_call | apply only_ret]|]. intros _.
    apply only_bind; [now apply only_get_file_from_api|]. intros body.
    eapply only_weaken; [apply download_event_side | apply download_events_only].
Qed.

(** X19. Where a retrieved file lands: [output_folder] is put before
    the file name as it is.  When it ends with ['/'] the target is the file
    of that name in the directory [output_folder]; when it does not, the
    target lies in the directory that holds [output_folder], under the last
    component of [output_folder] followed by the file name. *)
Theorem retrieval_target (file_list_json : json) (output_folder : string)
    (w : world) (u f : string) :
  In (u, f) (retrievals (new_events w
       (snd (download_files_from_ftp H file_list_json output_folder w)))) ->
  path_split f
  = if endswith_slash output_folder
    then (glob_dirname output_folder, after_last_slash u)
    else (fst (path_split output_folder),
          snd (path_split output_folder) ++ after_last_slash u).
Proof.
  pose proof (only_new_events (download_event output_folder) _ w
                (download_events_only H file_list_json output_folder)) as Hall.
  induction (new_events w
               (snd (download_files_from_ftp H file_list_json output_folder w)))
    as [|e evs IH]; [intros []|].
  cbn [forallb] in Hall. apply andb_prop in Hall as [He Hrest].
  unfold retrievals. cbn [flat_map]. intros Hin. apply in_app_or in Hin as [Hin|Hin];
    [|now apply IH].
  destruct e as [| | |u' f'|]; try contradiction.
  destruct Hin as [[= -> ->]|[]].
  cbn [download_event] in He. apply andb_prop in He as [Hs Hf].
  apply String.eqb_eq in Hf. subst f.
  destruct (after_last_slash_spec u Hs) as [a [_ Hn]].
  destruct (endswith_slash output_folder) eqn:E.
  - now apply path_split_in_directory.
  - unfold path_split.
    destruct (rsplit1 output_folder) as [[x y]|] eqn:R.
    + destruct (rsplit1_some _ _ _ R) as [-> Hy].
      rewrite !append_assoc.
      rewrite (rsplit1_append x (y ++ after_last_slash u)).
      * now destruct (truthy (x ++ "/") && negb (all_slashes (x ++ "/"))).
      * now rewrite has_slash_append, Hy, Hn.
    + apply rsplit1_none in R.
      assert (R' : rsplit1 (output_folder ++ after_last_slash u) = None).
      { apply rsplit1_none. now rewrite has_slash_append, R, Hn. }
      now rewrite R'.
Qed.

End Sides.

Lemma retrieval_target_witness :
  path_split "/out/a.raw" = ("/out", "a.raw")
  /\ path_split "/tmp/outa.raw" = ("/tmp", "outa.raw").
Proof.
  split.
  - apply (retrieval_target (serving JNull) (JArr [record_a]) "/out/" sample_world
             (archive ++ "a.raw") "/out/a.raw").
    left. reflexivity.
  - apply (retrieval_target (serving JNull) (JArr [record_a]) "/tmp/out" sample_world
             (archive ++ "a.raw") "/tmp/outa.raw").
    left. reflexivity.
Defined.

(** ** The files a copy reads *)

Lemma only_only_at {A : Type} (P : event -> bool) (c : M A) (w : world) :
  only P c -> only_at P c w.
Proof. intros Hc. exact (Hc w). Qed.

Lemma only_at_bind {A B : Type} (P : event -> bool) (c : M A) (k : A -> M B)
    (w : world) :
  only_at P c w ->
  (forall a w1, c w = (Ok a, w1) -> only_at P (k a) w1) ->
  only_at P (bind c k) w.
Proof.
  intros [e1 [E1 P1]] Hk. unfold only_at, bind.
  destruct (c w) as [[a|e] w1] eqn:Hrun; cbn [snd] in *.
  - destruct (Hk a w1 eq_refl) as [e2 [E2 P2]]. exists (e1 ++ e2)%list.
    rewrite E2, E1, app_assoc, forallb_app, P1, P2. now split.
  - now exists e1.
Qed.

Section ListedFiles.

Variable H : host.
Variable fs : filesystem.
Variables x regex : string.
Hypothesis fs_wf : wf_fs fs = true.
Hypothesis x_truthy : truthy x = true.

(** A name of the listing of [x/] is an entry of that directory: the path
    [x/n] is there. *)
Lemma listed_exists (n : string) :
  In n (matching_names H fs (x ++ "/") regex) ->
  lexists fs ((x ++ "/") ++ n) = true.
Proof.
  pose proof (endswith_slash_append x) as Hl.
  pose proof (truthy_endswith _ Hl) as Ht.
  destruct (dir_names_valid fs (x ++ "/") fs_wf Ht) as [_ Hval].
  unfold matching_names. intros Hin. apply filter_In in Hin as [Hin _].
  pose proof (forallb_In _ _ _ Hval Hin) as Hn.
  rewrite (lexists_in_directory fs (x ++ "/") n Hl Hn).
  unfold dir_names in Hin. rewrite (iterdir_dir_at _ _ Ht) in Hin.
  destruct (dir_at fs (x ++ "/")) as [es|]; [|destruct Hin].
  destruct (lookup n es) eqn:L; [reflexivity|].
  apply lookup_none_names in L. unfold py_in in L.
  assert (E : existsb (String.eqb n) (map fst es) = true).
  { apply existsb_exists. exists n. split; [exact Hin | apply String.eqb_refl]. }
  rewrite E in L. discriminate.
Qed.

(** A name found by the search of [x/] is the name of a path that is
    there. *)
Lemma found_exists (n : string) :
  has_slash regex = false ->
  In n (found_names H fs (x ++ "/") regex) ->
  lexists fs ((x ++ "/") ++ n) = true.
Proof.
  intros Hs. destruct (has_magic regex) eqn:Hmr.
  - rewrite (found_names_magic H fs (x ++ "/") regex Hmr). apply listed_exists.
  - unfold found_names. rewrite Hmr.
    destruct (truthy regex) eqn:Ht.
    + destruct (lexists fs ((x ++ "/") ++ regex)) eqn:L; [|intros []].
      now intros [<-|[]].
    + destruct (isdir fs (x ++ "/")) eqn:D; [|intros []].
      intros [<-|[]]. destruct regex; [|discriminate].
      rewrite append_empty_r. unfold isdir in D. unfold lexists.
      now destruct (resolve fs (x ++ "/")).
Qed.

Lemma copy_event_found (e : event) :
  has_slash regex = false ->
  copy_event (x ++ "/") (found_names H fs (x ++ "/") regex) e = true ->
  existing_source fs e = true.
Proof.
  intros Hs. destruct e as [| | | |s d]; try reflexivity.
  cbn [copy_event existing_source].
  intros E. apply existsb_exists in E as [n [Hin E]].
  apply andb_prop in E as [E _]. apply andb_prop in E as [E _].
  apply String.eqb_eq in E. subst s. now apply found_exists.
Qed.

End ListedFiles.

Section CopySources.

Variable H : host.

Lemma path_prefix_ok (accession : string) (w w1 : world) (m : string) :
  get_submitted_file_path_prefix H accession w = (Ok m, w1) ->
  is_path_fragment m = true /\ w_fs w1 = w_fs w.
Proof.
  intros Hrun. pose proof (path_prefix_world H accession w) as Hw.
  rewrite Hrun in Hw. cbn [snd] in Hw. subst w1. split; [|reflexivity].
  destruct (api_json H (raw_files_url accession) accept_json) as [e|results] eqn:Hb.
  - rewrite (path_prefix_request_failure H accession e w Hb) in Hrun. discriminate.
  - rewrite (path_prefix_run H accession results w Hb) in Hrun.
    apply (f_equal fst) in Hrun. cbn [fst] in Hrun.
    destruct (results.[0].$["publicFileLocations"].[0].$["value"]) as [v|e];
      cbn [rbind] in Hrun; [|discriminate].
    destruct v as [| | |s| |]; cbn [re_search_value rbind] in Hrun;
      try discriminate.
    destruct (re_search s) as [m'|] eqn:R; cbn [group] in Hrun; [|discriminate].
    injection Hrun as ->.
    now destruct (re_search_first s m R) as [pre [post [_ [Hm _]]]].
Qed.

(** The steps the two copies share, whatever the requests return. *)
Lemma copy_flow_sources
    (accession base regex : string) (request : M json) (w : world) :
  wf_fs (w_fs w) = true ->
  has_magic base = false ->
  has_slash regex = false ->
  only (existing_source (w_fs w)) request ->
  only_at (existing_source (w_fs w))
    (path_fragment <- get_submitted_file_path_prefix H accession ;;
     d <- os_path_isdir (base ++ "/" ++ path_fragment ++ "/submitted/") ;;
     (if negb d
      then logging_exception
             ("Folder does not exists! " ++ base ++ "/" ++ path_fragment ++ "/submitted/")
      else ret tt) ;;
     file_list_from_dir <-
       get_files_from_dir H (base ++ "/" ++ path_fragment ++ "/submitted/") regex ;;
     response_body <- request ;;
     copy_from_dir H (base ++ "/" ++ path_fragment ++ "/submitted/")
       file_list_from_dir response_body) w.
Proof.
  intros Hwf Hm Hs Hreq.
  apply only_at_bind; [now apply only_only_at, only_path_prefix|].
  intros fragment w1 Hrun1.
  destruct (path_prefix_ok accession w w1 fragment Hrun1) as [Hf Hfs1].
  fold (submitted_dir base fragment).
  apply only_at_bind; [now apply only_only_at, only_silent|].
  intros d w1' Hd. injection Hd as _ <-.
  apply only_at_bind.
  { apply only_only_at. destruct (negb d); [now apply only_emit | apply only_ret]. }
  intros [] w2 Hrun2.
  assert (Hfs2 : w_fs w2 = w_fs w).
  { destruct (negb d); injection Hrun2 as <-; exact Hfs1. }
  apply only_at_bind; [now apply only_only_at, only_get_files_from_dir|].
  intros listing w3 Hrun3.
  rewrite (listing_of_submitted_dir_any H base fragment regex w2) in Hrun3; trivial.
  2:{ now rewrite Hfs2. }
  injection Hrun3 as <- _.
  apply only_at_bind; [apply only_only_at, Hreq|].
  intros body w4 _.
  apply only_only_at.
  destruct (submitted_dir_parts base fragment Hm Hf) as [Ht _].
  rewrite Hfs2, (submitted_dir_split base fragment).
  eapply only_weaken; [|apply copy_events_only].
  intros e. now apply copy_event_found.
Qed.

(** X20. For a base directory without [*], [?], [[], whatever the
    archive answers and whatever the host does, every copy that
    [copy_raw_files_from_dir] attempts is of a path that was there when the
    directory was listed; and so for [copy_file_from_dir_by_name] with any
    file name without ['/']. *)
Theorem copies_are_of_files_found
    (accession file_name base : string) (w : world) :
  wf_fs (w_fs w) = true ->
  has_magic base = false ->
  forallb (existing_source (w_fs w))
    (new_events w (snd (copy_raw_files_from_dir H accession base w))) = true
  /\ (has_slash file_name = false ->
      forallb (existing_source (w_fs w))
        (new_events w (snd (copy_file_from_dir_by_name H accession file_name base w)))
      = true).
Proof.
  intros Hwf Hm. split.
  - destruct (copy_flow_sources accession base "*.raw"
                (get_all_raw_file_list H accession) w Hwf Hm eq_refl)
      as [evs [E P]].
    { now apply only_get_all_raw_file_list. }
    unfold copy_raw_files_from_dir. now rewrite (new_events_app _ _ _ E).
  - intros Hs.
    destruct (copy_flow_sources accession base file_name
                (get_file_from_api H accession file_name) w Hwf Hm Hs)
      as [evs [E P]].
    { now apply only_get_file_from_api. }
    unfold copy_file_from_dir_by_name. now rewrite (new_events_app _ _ _ E).
Qed.

End CopySources.

Lemma copies_are_of_files_found_witness :
  forallb (existing_source sample_fs)
    (new_events sample_world
       (snd (copy_raw_files_from_dir (copying (JArr [record_a; record_c]))
               "PXD008644" "/nfs/pride" sample_world))) = true
  /\ forallb (existing_source sample_fs)
       (new_events sample_world
          (snd (copy_file_from_dir_by_name (copying (JArr [record_a; record_c]))
                  "PXD008644" "?.raw" "/nfs/pride" sample_world))) = true
  /\ forallb (existing_source sample_fs)
       (new_events sample_world
          (snd (copy_file_from_dir_by_name (copying (JArr [record_dot]))
                  "PXD008644" "." "/nfs/pride" sample_world))) = true.
Proof.
  split; [|split].
  - exact (proj1 (copies_are_of_files_found (copying (JArr [record_a; record_c]))
                    "PXD008644" "?.raw" "/nfs/pride" sample_world eq_refl eq_refl)).
  - exact (proj2 (copies_are_of_files_found (copying (JArr [record_a; record_c]))
                    "PXD008644" "?.raw" "/nfs/pride" sample_world eq_refl eq_refl)
             eq_refl).
  - exact (proj2 (copies_are_of_files_found (copying (JArr [record_dot]))
                    "PXD008644" "." "/nfs/pride" sample_world eq_refl eq_refl)
             eq_refl).
Defined.

(** ** What has been done when a batch stops *)

Section Progress.

Variable H : host.

(** X22. Records are not checked before the loop: when the records
    before one that the download cannot serve can be served and their
    retrievals return, each of them has been logged and retrieved, in list
    order, when the [IndexError] of that record ends the batch; the records
    after it are not looked at. *)
Theorem download_keeps_earlier_retrievals
    (files : list json) (recs : list FileRecord)
    (bad : json) (r : FileRecord) (rest : list json)
    (output_folder : string) (w : world) :
  Forall2 (fun j r => as_record j = Some r) files recs ->
  forallb downloadable recs = true ->
  (forall u f fs, In (u, f) (expected_retrievals output_folder recs) ->
                  fst (url_retrieve H u f fs) = None) ->
  as_record bad = Some r ->
  downloadable r = false ->
  fst (download_files_from_ftp H (JArr (files ++ bad :: rest)) output_folder w)
  = Raise IndexError
  /\ new_events w
       (snd (download_files_from_ftp H (JArr (files ++ bad :: rest)) output_folder w))
     = (flat_map (download_steps output_folder) recs
        ++ match ftp_location r with
           | Some u => [Log DEBUG ("ftp_filepath:" ++ u)]
           | None => []
           end)%list
  /\ retrievals (new_events w
       (snd (download_files_from_ftp H (JArr (files ++ bad :: rest)) output_folder w)))
     = expected_retrievals output_folder recs.
Proof.
  intros Hrecs Hd Hok Hr Hbad.
  assert (Hrun : download_files_from_ftp H (JArr (files ++ bad :: rest))
                   output_folder w
                 = bind (download_files_from_ftp H (JArr files) output_folder)
                        (fun _ => download_files_from_ftp H (JArr (bad :: rest))
                                    output_folder) w).
  { exact (for_each_app files (bad :: rest) _ w). }
  rewrite Hrun. unfold bind.
  destruct (download_loop_events H files recs output_folder Hrecs Hd Hok w)
    as [w1 [-> Ht]].
  rewrite download_cons. unfold bind.
  rewrite (download_one_unservable H bad r output_folder w1 Hr Hbad).
  cbn [fst snd]. split; [reflexivity|].
  assert (Hev : new_events w
                  match ftp_location r with
                  | Some u => record (Log DEBUG ("ftp_filepath:" ++ u)) w1
                  | None => w1
                  end
                = (flat_map (download_steps output_folder) recs
                   ++ match ftp_location r with
                      | Some u => [Log DEBUG ("ftp_filepath:" ++ u)]
                      | None => []
                      end)%list).
  { apply new_events_app. destruct (ftp_location r) as [u|].
    - unfold record. cbn [w_trace]. now rewrite Ht, <- app_assoc.
    - now rewrite app_nil_r. }
  split; [exact Hev|]. rewrite Hev, retrievals_app.
  replace (retrievals match ftp_location r with
                      | Some u => [Log DEBUG ("ftp_filepath:" ++ u)]
                      | None => []
                      end) with (@nil (string * string))
    by now destruct (ftp_location r).
  rewrite app_nil_r. clear -Hd.
  induction recs as [|r0 recs IH]; [reflexivity|].
  cbn [forallb] in Hd. apply andb_prop in Hd as [Hd0 Hd].
  cbn [flat_map expected_retrievals]. rewrite retrievals_app.
  fold (expected_retrievals output_folder recs). rewrite (IH Hd).
  unfold downloadable in Hd0. unfold download_steps, retrieval_of.
  now destruct (ftp_location r0).
Qed.

(** X23. The same for the copy: when the records before one that the
    copy cannot read are readable and their copies return, each of them has
    been copied or reported as not found, in list order, when the
    [IndexError] of that record ends the batch. *)
Theorem copy_keeps_earlier_copies
    (files : list json) (recs : list FileRecord)
    (bad : json) (r : FileRecord) (rest : list json)
    (source_dir : string) (listing : list string) (w : world) :
  Forall2 (fun j r => as_record j = Some r) files recs ->
  forallb copyable recs = true ->
  (forall r fs, In r recs -> py_in (copy_name r) listing = true ->
     fst (shutil_copy2 H (source_dir ++ copy_name r)
            (rec_accession r ++ "-" ++ copy_name r) fs) = None) ->
  as_record bad = Some r ->
  copyable r = false ->
  fst (copy_from_dir H source_dir listing (JArr (files ++ bad :: rest)) w)
  = Raise IndexError
  /\ new_events w
       (snd (copy_from_dir H source_dir listing (JArr (files ++ bad :: rest)) w))
     = map (copy_step source_dir listing) recs.
Proof.
  intros Hrecs Hc Hok Hr Hbad.
  assert (Hrun : copy_from_dir H source_dir listing (JArr (files ++ bad :: rest)) w
                 = bind (copy_from_dir H source_dir listing (JArr files))
                        (fun _ => copy_from_dir H source_dir listing
                                    (JArr (bad :: rest))) w).
  { exact (for_each_app files (bad :: rest) _ w). }
  rewrite Hrun. unfold bind.
  destruct (copy_loop H source_dir listing files recs Hrecs Hc Hok w)
    as [w1 [-> Ht]].
  rewrite copy_cons. unfold bind.
  rewrite (copy_one_unreadable H bad r source_dir listing w1 Hr Hbad).
  cbn [fst snd]. split; [reflexivity|]. now apply new_events_app.
Qed.

End Progress.

Lemma download_keeps_earlier_retrievals_witness :
  fst (download_files_from_ftp (serving JNull)
         (JArr ([record_a] ++ record_aspera_only :: [record_c])) "/out/" sample_world)
  = Raise IndexError
  /\ retrievals (new_events sample_world
       (snd (download_files_from_ftp (serving JNull)
               (JArr ([record_a] ++ record_aspera_only :: [record_c])) "/out/"
               sample_world)))
     = [(archive ++ "a.raw", "/out/a.raw")].
Proof.
  refine (let P := download_keeps_earlier_retrievals (serving JNull)
                     [record_a] [typed_a] record_aspera_only
                     {| rec_accession := "PXD008644";
                        rec_locations :=
                          [{| loc_name := "Aspera Protocol";
                              loc_value := aspera ++ "a.raw" |}] |}
                     [record_c] "/out/" sample_world _ eq_refl _ eq_refl eq_refl in
          conj (proj1 P) (proj2 (proj2 P))).
  - repeat constructor.
  - intros u f fs _. reflexivity.
Defined.

Lemma copy_keeps_earlier_copies_witness :
  fst (copy_from_dir (serving JNull) "/data/" ["a.raw"]
         (JArr ([record_a] ++ record_bare :: [record_c])) sample_world)
  = Raise IndexError
  /\ new_events sample_world
       (snd (copy_from_dir (serving JNull) "/data/" ["a.raw"]
               (JArr ([record_a] ++ record_bare :: [record_c])) sample_world))
     = [Copy2 "/data/a.raw" "PXD008644-a.raw"].
Proof.
  refine (copy_keeps_earlier_copies (serving JNull) [record_a] [typed_a] record_bare
            {| rec_accession := "PXD008644";
               rec_locations :=
                 [{| loc_name := "FTP Protocol"; loc_value := "a.raw" |}] |}
            [record_c] "/data/" ["a.raw"] sample_world _ eq_refl _ eq_refl eq_refl).
  - repeat constructor.
  - intros r fs _ _. reflexivity.
Defined.
